(** * gotopython: statement, declaration and type lowering

    A shallow embedding of the Go-to-Python rewriting core
    (package [compiler]: the [XCompiler] statement and declaration
    lowering and the [Compiler] module assembler), together with the
    properties of its output that the design document states. *)

From Stdlib Require Import String Ascii List ZArith Bool Lia.
From Stdlib Require Import DecimalString DecimalZ DecimalPos.
From stdpp Require Import base option gmap strings.
Import ListNotations.

Set Warnings "-register-all".

Local Open Scope string_scope.
Local Open Scope list_scope.

(** ** Outcome of a lowering: a value, or an aborted compilation

    The Go code aborts with [panic]; every function that can reach a
    [panic] (or a failing type assertion, or an index out of range)
    returns a [result]. *)

Inductive result (A : Type) : Type :=
| Ok (a : A)
| Panic (msg : string).

Arguments Ok {A} a.
Arguments Panic {A} msg.

Definition bind {A B : Type} (r : result A) (k : A -> result B) : result B :=
  match r with
  | Ok a => k a
  | Panic m => Panic m
  end.

Notation "'let*' x ':=' r 'in' k" := (bind r (fun x => k))
  (at level 10, x pattern, r at level 100, k at level 200).

Definition isOk {A : Type} (r : result A) : bool :=
  match r with Ok _ => true | Panic _ => false end.

(** ** The target tree (package [pythonast])

    The package is declared outside the files at hand; its node types
    are written down from the literals the lowering builds. *)

Module py.

Definition Identifier := string.

Inductive Operator :=
| Add | Sub | Mult | FloorDiv | Mod
| BitAnd | BitOr | BitXor | LShift | RShift.

Inductive UnaryOp := Invert.
Inductive CmpOp := Eq.
Inductive BoolOper := Or.
Inductive Singleton := None_ | True_ | False_.

(** Modelled from the spec: the expression grammar of the target tree
    (literal, call, attribute and subscript access, tuple and list
    aggregate, ...), with the fields the lowering fills in. [NilExpr] is
    the nil value of the Go interface [py.Expr]. *)
Inductive Expr :=
| NilExpr
| Name (Id : Identifier)
| Num (N : string)
| Str (S : string)
| NameConstant (Value : Singleton)
| Call (Func : Expr) (Args : list Expr)
| Attribute (Value : Expr) (Attr : Identifier)
| Subscript (Value : Expr) (Index : Expr)
| Tuple (Elts : list Expr)
| List (Elts : list Expr)
| Starred (Value : Expr)
| UnaryOpExpr (Op : UnaryOp) (Operand : Expr)
| Compare (Left : Expr) (Ops : list CmpOp) (Comparators : list Expr)
| BoolOp (Op : BoolOper) (Values : list Expr)
| ListComp (Elt : Expr) (Generators : list (Expr * Expr)).

Record Arguments := { Args_ : list Identifier; Defaults : list Expr }.

(** Modelled from the spec: the statement grammar of the target tree
    (assignment, augmented assignment, conditional, loop, function and
    class definition, return, no-op, exception-guard block, comment).
    [NilStmt] is the nil value of the Go interface [py.Stmt]. An
    exception handler is its type and its body; a comprehension above is
    its target and its iterable. *)
Inductive Stmt :=
| NilStmt
| Assign (Targets : list Expr) (Value : Expr)
| AugAssign (Target : Expr) (Op : Operator) (Value : Expr)
| For (Target Iter : Expr) (Body : list Stmt)
| While (Test : Expr) (Body : list Stmt)
| If (Test : Expr) (Body Orelse : list Stmt)
| Try (Body : list Stmt) (Handlers : list (Expr * list Stmt))
      (Finalbody : list Stmt)
| Delete (Targets : list Expr)
| Return (Value : Expr)
| ExprStmt (Value : Expr)
| Pass
| Break
| Continue
| Comment (Text : string)
| DocString (Lines : list string)
| FunctionDefStmt (Name : Identifier) (Args : Arguments) (Body : list Stmt)
| ClassDefStmt (Name : Identifier) (Body : list Stmt).

Record FunctionDef :=
  { fName : Identifier; fArgs : Arguments; fBody : list Stmt }.

Record ClassDef := { cName : Identifier; cBody : list Stmt }.

Definition funcStmt (f : FunctionDef) : Stmt :=
  FunctionDefStmt (fName f) (fArgs f) (fBody f).

Definition classStmt (c : ClassDef) : Stmt :=
  ClassDefStmt (cName c) (cBody c).

Record Module := { Body : list Stmt }.

End py.

(** ** The source tree (packages [go/ast], [go/token]) *)

Module ast.

Definition Pos := nat.

Record Ident := { NamePos : Pos; Name : string }.

(** Only the expression forms the statement lowering inspects are
    spelled out; every other form is [OtherExpr] and is handed to the
    expression engine as it is. *)
Inductive Expr :=
| IdentExpr (id : Ident)
| CallExpr (Fun : Expr) (Args : list Expr)
| StarExpr (X : Expr)
| TypeAssertExpr (X : Expr)
| OtherExpr (n : nat).

Inductive Token :=
| ASSIGN | DEFINE
| ADD_ASSIGN | SUB_ASSIGN | MUL_ASSIGN | QUO_ASSIGN | REM_ASSIGN
| AND_ASSIGN | OR_ASSIGN | XOR_ASSIGN | SHL_ASSIGN | SHR_ASSIGN
| AND_NOT_ASSIGN
| INC | DEC
| BREAK | CONTINUE | FALLTHROUGH | GOTO
| ILLEGAL.

Inductive Spec :=
| ValueSpec (Names : list Ident) (Values : list Expr)
| TypeSpec (Name : Ident) (Type_ : Expr)
| ImportSpec.

(** A block is its statement list. [CaseClause] is a statement, as in
    [go/ast]; [SelectStmt] stands for the statement forms that the
    lowering does not know. *)
Inductive Stmt :=
| ReturnStmt (Results : list Expr)
| ForStmt (Init : option Stmt) (Cond : option Expr) (Post : option Stmt)
          (Body : Stmt)
| BlockStmt (List_ : list Stmt)
| AssignStmt (Lhs : list Expr) (Tok : Token) (Rhs : list Expr)
| ExprStmt (X : Expr)
| RangeStmt (Key Value : option Expr) (X : Expr) (Body : Stmt)
| IfStmt (Init : option Stmt) (Cond : Expr) (Body : Stmt)
         (Else : option Stmt)
| IncDecStmt (X : Expr) (Tok : Token)
| DeclStmt (Specs : list Spec)
| SwitchStmt (Init : option Stmt) (Tag : option Expr) (Body : list Stmt)
| TypeSwitchStmt (Init : option Stmt) (Assign : Stmt) (Body : list Stmt)
| BranchStmt (Tok : Token)
| EmptyStmt
| DeferStmt (Fun : Expr) (Args : list Expr)
| LabeledStmt (Label : Ident) (Stmt_ : Stmt)
| SendStmt (Chan Value : Expr)
| GoStmt (Call : Expr)
| CaseClause (Case : Pos) (List_ : list Expr) (Body : list Stmt)
| SelectStmt.

Record FuncType := { Params : list (list Ident) }.

Record FuncDecl :=
  { Doc : option string;
    Recv : option (list (list Ident * Expr));
    FName : Ident;
    Type_ : FuncType;
    FBody : list Stmt }.

Inductive Decl :=
| FuncDeclD (d : FuncDecl)
| GenDecl (Specs : list Spec)
| BadDecl.

Record File := { Decls : list Decl }.

End ast.

(** ** Resolved types (package [go/types]) *)

Module types.

Record Object := { objPos : nat; objName : string }.

Inductive BasicKind :=
| Invalid
| Bool
| Int | Int8 | Int16 | Int32 | Int64
| Uint | Uint8 | Uint16 | Uint32 | Uint64 | Uintptr
| Float32 | Float64
| Complex64 | Complex128
| String
| UnsafePointer
| UntypedBool | UntypedInt | UntypedRune | UntypedFloat
| UntypedComplex | UntypedString | UntypedNil.

(** The [BasicInfo] flags. *)
Definition IsBoolean : Z := Z.shiftl 1 0.
Definition IsInteger : Z := Z.shiftl 1 1.
Definition IsUnsigned : Z := Z.shiftl 1 2.
Definition IsFloat : Z := Z.shiftl 1 3.
Definition IsComplex : Z := Z.shiftl 1 4.
Definition IsString : Z := Z.shiftl 1 5.
Definition IsUntyped : Z := Z.shiftl 1 6.

(** The table [Typ] of [go/types]: the flags of each basic kind. *)
Definition Info (k : BasicKind) : Z :=
  match k with
  | Invalid => 0
  | Bool => IsBoolean
  | Int | Int8 | Int16 | Int32 | Int64 => IsInteger
  | Uint | Uint8 | Uint16 | Uint32 | Uint64 | Uintptr =>
      Z.lor IsInteger IsUnsigned
  | Float32 | Float64 => IsFloat
  | Complex64 | Complex128 => IsComplex
  | String => IsString
  | UnsafePointer => 0
  | UntypedBool => Z.lor IsBoolean IsUntyped
  | UntypedInt | UntypedRune => Z.lor IsInteger IsUntyped
  | UntypedFloat => Z.lor IsFloat IsUntyped
  | UntypedComplex => Z.lor IsComplex IsUntyped
  | UntypedString => Z.lor IsString IsUntyped
  | UntypedNil => IsUntyped
  end%Z.

Inductive Type_ :=
| Pointer (elem : Type_)
| Slice (elem : Type_)
| Map (key elem : Type_)
| Signature
| Interface
| Struct (fields : list (Object * Type_))
| Chan (elem : Type_)
| Basic (kind : BasicKind)
| Named (obj : Object)
| Array (len : Z) (elem : Type_)
| Tuple (elems : list Type_).

End types.

(** ** The compilation context

    The type oracle, the naming scope and the expression engine are
    collaborators of the lowering core; they are fields of the context
    and every lowering is stated for an arbitrary choice of them. *)

Module compiler.

(** [types.Info] as the core consults it. [Implicits] is keyed by the
    position of a case clause. *)
Record Info :=
  { TypeOf : ast.Expr -> types.Type_;
    ObjectOf : ast.Ident -> types.Object;
    Implicits : ast.Pos -> types.Object }.

(** Modelled from the spec: the naming scope (type [scope], declared
    outside the files at hand) maps a resolved symbol to its stable name
    and generates temporaries per nesting level; a nested function body
    forks a child scope. [level] counts the forks, and the temporary
    generator is handed the level it is asked at. The allocation policy
    is not fixed: both maps are arbitrary. *)
Record scope :=
  { level : nat;
    objID_ : types.Object -> py.Identifier;
    tempID_ : nat -> string -> py.Identifier }.

Definition newScope (o : types.Object -> py.Identifier)
    (t : nat -> string -> py.Identifier) : scope :=
  {| level := 0; objID_ := o; tempID_ := t |}.

Definition nested (s : scope) : scope :=
  {| level := S (level s); objID_ := objID_ s; tempID_ := tempID_ s |}.

(** Comment groups attached to a node, each given by its text. *)
Record CommentMap :=
  { stmtComments : ast.Stmt -> list string;
    identComments : ast.Ident -> list string }.

(** The context. [lowerExpr] is the expression engine: for an
    expression, the statements it hoists and the expression it returns;
    [compileIdent] is its lowering of a declared name. Both are declared
    outside the files at hand and are arbitrary here. *)
Record XCompiler :=
  { info : Info;
    scope_ : scope;
    lowerExpr : ast.Expr -> list py.Stmt * py.Expr;
    compileIdent : ast.Ident -> py.Expr;
    commentMap : option CommentMap;
    defers : py.Expr;
    global : bool }.

Definition NewXCompiler (typeInfo : Info) (sc : scope)
    (lower : ast.Expr -> list py.Stmt * py.Expr)
    (cid : ast.Ident -> py.Expr) (global_ : bool) : XCompiler :=
  {| info := typeInfo; scope_ := sc; lowerExpr := lower;
     compileIdent := cid; commentMap := None; defers := py.NilExpr;
     global := global_ |}.

Definition nestedCompiler (c : XCompiler) : XCompiler :=
  {| info := info c; scope_ := nested (scope_ c);
     lowerExpr := lowerExpr c; compileIdent := compileIdent c;
     commentMap := commentMap c; defers := defers c; global := global c |}.

Definition withDefers (c : XCompiler) (d : py.Expr) : XCompiler :=
  {| info := info c; scope_ := scope_ c;
     lowerExpr := lowerExpr c; compileIdent := compileIdent c;
     commentMap := commentMap c; defers := d; global := global c |}.

Definition withCommentMap (c : XCompiler) (cmap : CommentMap) : XCompiler :=
  {| info := info c; scope_ := scope_ c;
     lowerExpr := lowerExpr c; compileIdent := compileIdent c;
     commentMap := Some cmap; defers := defers c; global := global c |}.

Definition objID (c : XCompiler) (o : types.Object) : py.Identifier :=
  objID_ (scope_ c) o.

Definition tempID (c : XCompiler) (base : string) : py.Identifier :=
  tempID_ (scope_ c) (level (scope_ c)) base.

Definition identifier (c : XCompiler) (ident : ast.Ident) : py.Identifier :=
  objID c (ObjectOf (info c) ident).

(** Modelled from the spec: the names of the target language's
    built-ins ([pyNone], [pyTrue], [pyRange], ...) are declared with the
    expression engine, outside the files at hand. *)
Definition pyNone : py.Expr := py.NameConstant py.None_.
Definition pyTrue : py.Expr := py.NameConstant py.True_.
Definition pyRange : py.Expr := py.Name "range".
Definition pyLen : py.Expr := py.Name "len".
Definition pyEnumerate : py.Expr := py.Name "enumerate".
Definition pyType : py.Expr := py.Name "type".
Definition pyReversed : py.Expr := py.Name "reversed".
Definition pyKeyError : py.Expr := py.Name "KeyError".
Definition pySelf : py.Identifier := "self".

(** *** The expression engine as the core uses it

    An [exprCompiler] owns the buffer [stmts] of hoisted statements. *)

Record exprCompiler := { stmts : list py.Stmt }.

Definition newExprCompiler : exprCompiler := {| stmts := [] |}.

(** Modelled from the spec: lowering an expression returns the target
    expression and appends the statements it hoists to the buffer, in
    the order produced. *)
Definition compileExpr (c : XCompiler) (e : exprCompiler) (x : ast.Expr)
    : py.Expr * exprCompiler :=
  let '(hoisted, v) := lowerExpr c x in
  (v, {| stmts := stmts e ++ hoisted |}).

(** Modelled from the spec: a list of expressions is lowered left to
    right. *)
Fixpoint compileExprs (c : XCompiler) (e : exprCompiler)
    (xs : list ast.Expr) : list py.Expr * exprCompiler :=
  match xs with
  | [] => ([], e)
  | x :: rest =>
      let '(v, e1) := compileExpr c e x in
      let '(vs, e2) := compileExprs c e1 rest in
      (v :: vs, e2)
  end.

(** Modelled from the spec: a single value when there is exactly one,
    the empty value when there is none, else a tuple in order. *)
Definition makeTuple (pyExprs : list py.Expr) : py.Expr :=
  match pyExprs with
  | [] => py.NilExpr
  | [x] => x
  | _ => py.Tuple pyExprs
  end.

Definition compileExprsTuple (c : XCompiler) (e : exprCompiler)
    (xs : list ast.Expr) : py.Expr * exprCompiler :=
  let '(vs, e1) := compileExprs c e xs in (makeTuple vs, e1).

Definition isNil (x : py.Expr) : bool :=
  match x with py.NilExpr => true | _ => false end.

(** Modelled from the spec: the test of a case clause is the disjunction
    of "case value equals tag" comparisons, or of the case expressions
    themselves when there is no tag; a clause with no case expressions
    has no test. *)
Fixpoint caseTests (c : XCompiler) (e : exprCompiler)
    (xs : list ast.Expr) (tag : py.Expr) : list py.Expr * exprCompiler :=
  match xs with
  | [] => ([], e)
  | x :: rest =>
      let '(v, e1) := compileExpr c e x in
      let test := if isNil tag then v else py.Compare tag [py.Eq] [v] in
      let '(ts, e2) := caseTests c e1 rest tag in
      (test :: ts, e2)
  end.

Definition compileCaseClauseTest (c : XCompiler) (e : exprCompiler)
    (caseList : list ast.Expr) (tag : py.Expr) : py.Expr * exprCompiler :=
  let '(tests, e1) := caseTests c e caseList tag in
  (match tests with
   | [] => py.NilExpr
   | [t] => t
   | _ => py.BoolOp py.Or tests
   end, e1).

(** *** Text of comment groups *)

Definition newline : ascii := ascii_of_nat 10.

Fixpoint trimRightNewlines (s : string) : string :=
  match s with
  | EmptyString => EmptyString
  | String a r =>
      match trimRightNewlines r with
      | EmptyString =>
          if Ascii.eqb a newline then EmptyString else String a EmptyString
      | r' => String a r'
      end
  end.

Fixpoint splitLines (s : string) : list string :=
  match s with
  | EmptyString => [EmptyString]
  | String a r =>
      if Ascii.eqb a newline then EmptyString :: splitLines r
      else match splitLines r with
           | h :: t => String a h :: t
           | [] => [String a EmptyString]
           end
  end.

Definition commentLines (text : string) : list py.Stmt :=
  map (fun line => py.Comment (" " ++ line))
      (splitLines (trimRightNewlines text)).

Definition makeDocString (text : string) : py.Stmt :=
  py.DocString (splitLines (trimRightNewlines text)).

(** *** Zero values *)

Definition hasFlag (k : types.BasicKind) (flag : Z) : bool :=
  negb (Z.eqb (Z.land (types.Info k) flag) 0).

Definition FormatInt (n : Z) : string :=
  NilZero.string_of_int (Z.to_int n).

(** The two-character text of the empty string literal. *)
Definition quote : ascii := ascii_of_nat 34.
Definition emptyStringLit : string := String quote (String quote EmptyString).

Fixpoint zeroValue (c : XCompiler) (typ : types.Type_) : result py.Expr :=
  match typ with
  | types.Pointer _ | types.Slice _ | types.Map _ _ | types.Signature
  | types.Interface | types.Struct _ | types.Chan _ => Ok pyNone
  | types.Basic t =>
      if hasFlag t types.IsString then Ok (py.Str emptyStringLit)
      else if hasFlag t types.IsBoolean then Ok (py.NameConstant py.False_)
      else if hasFlag t types.IsInteger then Ok (py.Num "0")
      else if hasFlag t types.IsFloat then Ok (py.Num "0.0")
      else if hasFlag t types.IsComplex then Ok (py.Num "0.0")
      else Panic "unknown basic type"
  | types.Named obj => Ok (py.Call (py.Name (types.objName obj)) [])
  | types.Array len elem =>
      let* elt := zeroValue c elem in
      Ok (py.ListComp elt
            [(py.Name "_", py.Call pyRange [py.Num (FormatInt len)])])
  | types.Tuple _ => Panic "unknown zero value"
  end.

(** *** Declarations: values and types *)

Definition appendToList (list item : py.Expr) : py.Stmt :=
  py.ExprStmt (py.Call (py.Attribute list "append") [item]).

(** The loop of [CompileValueSpec]: [i] is the index of the first name
    of [names] in the specification. *)
Fixpoint valueSpecLoop (c : XCompiler) (Values : list ast.Expr)
    (names : list ast.Ident) (i : nat)
    (e : exprCompiler) (targets values : list py.Expr)
    : result (list py.Expr * list py.Expr * exprCompiler) :=
  match names with
  | [] => Ok (targets, values, e)
  | ident :: rest =>
      let target := compileIdent c ident in
      let* (values1, e1) :=
        (if Nat.eqb (length Values) 0 then
           let* value := zeroValue c (TypeOf (info c) (ast.IdentExpr ident)) in
           Ok (values ++ [value], e)
         else if Nat.ltb i (length Values) then
           match nth_error Values i with
           | Some x =>
               let '(value, e1) := compileExpr c e x in
               Ok (values ++ [value], e1)
           | None => Panic "index out of range"
           end
         else Ok (values, e)) in
      valueSpecLoop c Values rest (S i) e1 (targets ++ [target]) values1
  end.

Definition CompileValueSpec (c : XCompiler) (Names : list ast.Ident)
    (Values : list ast.Expr) : result (list py.Stmt) :=
  let e := newExprCompiler in
  let* (targets, values, e1) := valueSpecLoop c Values Names 0 e [] [] in
  let stmt := py.Assign targets (makeTuple values) in
  Ok (stmts e1 ++ [stmt]).

Fixpoint fieldDefaults (c : XCompiler)
    (fields : list (types.Object * types.Type_)) : result (list py.Expr) :=
  match fields with
  | [] => Ok []
  | (_, t) :: rest =>
      let* dflt := zeroValue c t in
      let* ds := fieldDefaults c rest in
      Ok (dflt :: ds)
  end.

Definition makeInitMethod (c : XCompiler)
    (fields : list (types.Object * types.Type_)) : result py.Stmt :=
  let nested := nestedCompiler c in
  let args := pySelf :: map (fun f => objID nested (fst f)) fields in
  let* defaults := fieldDefaults nested fields in
  let body :=
    map (fun f =>
           py.Assign [py.Attribute (py.Name pySelf) (objID nested (fst f))]
                     (py.Name (objID nested (fst f)))) fields in
  Ok (py.FunctionDefStmt "__init__"
        {| py.Args_ := args; py.Defaults := defaults |} body).

Definition compileStructType (c : XCompiler) (ident : ast.Ident)
    (fields : list (types.Object * types.Type_)) : result py.Stmt :=
  let* body :=
    (if global c then
       let doc :=
         match commentMap c with
         | Some cmap =>
             match identComments cmap ident with
             | d :: _ => [makeDocString d]
             | [] => []
             end
         | None => []
         end in
       if Nat.ltb 0 (length fields) then
         let* init := makeInitMethod c fields in Ok (doc ++ [init])
       else Ok doc
     else Ok []) in
  let body := if Nat.eqb (length body) 0 then [py.Pass] else body in
  Ok (py.ClassDefStmt (identifier c ident) body).

Definition CompileTypeSpec (c : XCompiler) (Name : ast.Ident)
    (Type_ : ast.Expr) : result py.Stmt :=
  match TypeOf (info c) Type_ with
  | types.Struct fields => compileStructType c Name fields
  | types.Named obj =>
      Ok (py.Assign [py.Name (identifier c Name)] (py.Name (objID c obj)))
  | types.Interface => Ok py.NilStmt
  | (types.Basic _ | types.Slice _) as t =>
      let fields := [({| types.objPos := 0; types.objName := "value" |}, t)] in
      compileStructType c Name fields
  | types.Signature => Ok py.NilStmt
  | types.Map _ _ => Ok py.NilStmt
  | _ => Panic "unknown TypeSpec"
  end.

Definition CompileImportSpec (c : XCompiler) : py.Stmt := py.NilStmt.

(** *** Statements

    The lowerings of the statement forms call [compileStmt] on their
    sub-statements; inside this section it is a variable, and the
    dispatcher [compileStmt] below ties the knot. *)

Definition isBlank (expr : ast.Expr) : bool :=
  match expr with
  | ast.IdentExpr ident => String.eqb (ast.Name ident) "_"
  | _ => false
  end.

Definition augmentedOp (t : ast.Token) : result py.Operator :=
  match t with
  | ast.ADD_ASSIGN => Ok py.Add
  | ast.SUB_ASSIGN => Ok py.Sub
  | ast.MUL_ASSIGN => Ok py.Mult
  | ast.QUO_ASSIGN => Ok py.FloorDiv
  | ast.REM_ASSIGN => Ok py.Mod
  | ast.AND_ASSIGN => Ok py.BitAnd
  | ast.OR_ASSIGN => Ok py.BitOr
  | ast.XOR_ASSIGN => Ok py.BitXor
  | ast.SHL_ASSIGN => Ok py.LShift
  | ast.SHR_ASSIGN => Ok py.RShift
  | _ => Panic "augmentedOp bad token"
  end.

Definition isAssignTok (t : ast.Token) : bool :=
  match t with ast.ASSIGN | ast.DEFINE => true | _ => false end.

Definition isAndNot (t : ast.Token) : bool :=
  match t with ast.AND_NOT_ASSIGN => true | _ => false end.

Definition isInc (t : ast.Token) : bool :=
  match t with ast.INC => true | _ => false end.

Definition index0 {A : Type} (l : list A) : result A :=
  match l with
  | x :: _ => Ok x
  | [] => Panic "index out of range"
  end.

Definition index1 {A : Type} (l : list A) : result A :=
  match l with
  | _ :: x :: _ => Ok x
  | _ => Panic "index out of range"
  end.

(** The chain of conditionals under construction in a switch:
    [firstIfStmt] points to the head, [lastIfStmt] to the end, and each
    node's [Orelse] holds the next node alone. The nodes are kept in
    link order as (test, body) pairs; [linkChain] is the tree the head
    pointer denotes once the last node's [Orelse] is set. *)
Record switchState :=
  { ifChain : list (py.Expr * list py.Stmt);
    defaultBody : list py.Stmt;
    swExpr : exprCompiler }.

Fixpoint linkChain (chain : list (py.Expr * list py.Stmt))
    (lastOrelse : list py.Stmt) : list py.Stmt :=
  match chain with
  | [] => lastOrelse
  | (test, body) :: rest => [py.If test body (linkChain rest lastOrelse)]
  end.

Section Lower.

Variable c : XCompiler.
Variable compileStmt : ast.Stmt -> result (list py.Stmt).

Fixpoint compileStmts (l : list ast.Stmt) : result (list py.Stmt) :=
  match l with
  | [] => Ok []
  | blockStmt :: rest =>
      let* a := compileStmt blockStmt in
      let* b := compileStmts rest in
      Ok (a ++ b)
  end.

Definition compileOpt (s : option ast.Stmt) : result (list py.Stmt) :=
  match s with
  | Some s' => compileStmt s'
  | None => Ok []
  end.

Definition orPass (body : list py.Stmt) : list py.Stmt :=
  if Nat.eqb (length body) 0 then [py.Pass] else body.

Definition compileRangeStmt (Key Value : option ast.Expr) (X : ast.Expr)
    (Body : ast.Stmt) : result (list py.Stmt) :=
  let e := newExprCompiler in
  let* body := compileStmt Body in
  let body := orPass body in
  match Key, Value with
  | Some key, None =>
      let '(target, e1) := compileExpr c e key in
      let '(x, e2) := compileExpr c e1 X in
      let pyStmt :=
        py.For target (py.Call pyRange [py.Call pyLen [x]]) body in
      Ok (stmts e2 ++ [pyStmt])
  | Some key, Some value =>
      if isBlank key then
        let '(target, e1) := compileExpr c e value in
        let '(x, e2) := compileExpr c e1 X in
        Ok (stmts e2 ++ [py.For target x body])
      else
        let '(k, e1) := compileExpr c e key in
        let '(v, e2) := compileExpr c e1 value in
        let '(x, e3) := compileExpr c e2 X in
        Ok (stmts e3 ++
            [py.For (py.Tuple [k; v]) (py.Call pyEnumerate [x]) body])
  | None, None =>
      let '(x, e1) := compileExpr c e X in
      Ok (stmts e1 ++ [py.For (py.Name "_") x body])
  | None, Some _ => Panic "key == nil and value != nil in range for"
  end.

Definition compileIncDecStmt (X : ast.Expr) (Tok : ast.Token)
    : list py.Stmt :=
  let e := newExprCompiler in
  let op := if isInc Tok then py.Add else py.Sub in
  let '(target, e1) := compileExpr c e X in
  stmts e1 ++ [py.AugAssign target op (py.Num "1")].

Definition compileAssignStmt (Lhs : list ast.Expr) (Tok : ast.Token)
    (Rhs : list ast.Expr) : result (list py.Stmt) :=
  let e := newExprCompiler in
  if isAssignTok Tok then
    let '(targets, e1) := compileExprs c e Lhs in
    let '(value, e2) := compileExprsTuple c e1 Rhs in
    Ok (stmts e2 ++ [py.Assign targets value])
  else if isAndNot Tok then
    let* l0 := index0 Lhs in
    let '(target, e1) := compileExpr c e l0 in
    let* r0 := index0 Rhs in
    let '(operand, e2) := compileExpr c e1 r0 in
    Ok (stmts e2 ++
        [py.AugAssign target py.BitAnd (py.UnaryOpExpr py.Invert operand)])
  else
    let* l0 := index0 Lhs in
    let '(target, e1) := compileExpr c e l0 in
    let* r0 := index0 Rhs in
    let '(value, e2) := compileExpr c e1 r0 in
    let* op := augmentedOp Tok in
    Ok (stmts e2 ++ [py.AugAssign target op value]).

(** The loop over the clauses of a value switch. *)
Fixpoint switchLoop (tag : py.Expr) (clauses : list ast.Stmt)
    (st : switchState) : result switchState :=
  match clauses with
  | [] => Ok st
  | ast.CaseClause _ caseList caseBody :: rest =>
      let '(test, e1) := compileCaseClauseTest c (swExpr st) caseList tag in
      let* body := compileStmts caseBody in
      if isNil test then
        switchLoop tag rest
          {| ifChain := ifChain st; defaultBody := body; swExpr := e1 |}
      else
        switchLoop tag rest
          {| ifChain := ifChain st ++ [(test, body)];
             defaultBody := defaultBody st; swExpr := e1 |}
  | _ :: _ => Panic "interface conversion: not a CaseClause"
  end.

Definition finishSwitch (stmts0 : list py.Stmt) (st : switchState)
    : list py.Stmt :=
  let stmts1 := stmts0 ++ stmts (swExpr st) in
  match ifChain st with
  | _ :: _ => stmts1 ++ linkChain (ifChain st) (defaultBody st)
  | [] => stmts1 ++ defaultBody st
  end.

Definition compileSwitchStmt (Init : option ast.Stmt)
    (Tag : option ast.Expr) (Body : list ast.Stmt)
    : result (list py.Stmt) :=
  let e := newExprCompiler in
  let* stmts0 := compileOpt Init in
  let '(tag, stmts1, e1) :=
    match Tag with
    | Some t =>
        let tag := py.Name "tag" in
        let '(v, e1) := compileExpr c e t in
        (tag, stmts0 ++ [py.Assign [tag] v], e1)
    | None => (py.NilExpr, stmts0, e)
    end in
  let* st := switchLoop tag Body
               {| ifChain := []; defaultBody := []; swExpr := e1 |} in
  Ok (finishSwitch stmts1 st).

(** The loop over the clauses of a type switch; [symbolicVarName] is
    empty when the switch binds no variable. *)
Fixpoint typeSwitchLoop (tag : py.Expr) (symbolicVarName : string)
    (clauses : list ast.Stmt) (st : switchState) : result switchState :=
  match clauses with
  | [] => Ok st
  | ast.CaseClause casePos caseList caseBody :: rest =>
      let '(test, e1) := compileCaseClauseTest c (swExpr st) caseList tag in
      let bodyStmts :=
        if negb (String.eqb symbolicVarName "") then
          let typedIdent := objID c (Implicits (info c) casePos) in
          [py.Assign [py.Name typedIdent] tag]
        else [] in
      let* body := compileStmts caseBody in
      let bodyStmts := bodyStmts ++ body in
      if isNil test then
        typeSwitchLoop tag symbolicVarName rest
          {| ifChain := ifChain st; defaultBody := bodyStmts; swExpr := e1 |}
      else
        typeSwitchLoop tag symbolicVarName rest
          {| ifChain := ifChain st ++ [(test, bodyStmts)];
             defaultBody := defaultBody st; swExpr := e1 |}
  | _ :: _ => Panic "interface conversion: not a CaseClause"
  end.

Definition compileTypeSwitchStmt (Init : option ast.Stmt)
    (Assign : ast.Stmt) (Body : list ast.Stmt) : result (list py.Stmt) :=
  let e := newExprCompiler in
  let* stmts0 := compileOpt Init in
  let* (tag, symbolicVarName, typeAssert) :=
    match Assign with
    | ast.AssignStmt Lhs _ Rhs =>
        let* l0 := index0 Lhs in
        match l0 with
        | ast.IdentExpr ident =>
            let* r0 := index0 Rhs in
            Ok (py.Name (tempID c (ast.Name ident)), ast.Name ident, r0)
        | _ => Panic "interface conversion: not an Ident"
        end
    | ast.ExprStmt X => Ok (py.Name (tempID c "tag"), "", X)
    | _ => Panic "Unknown statement type in type switch assign"
    end in
  match typeAssert with
  | ast.TypeAssertExpr expr =>
      let '(v, e1) := compileExpr c e expr in
      let tagValue := py.Call pyType [v] in
      let stmts1 := stmts0 ++ [py.Assign [tag] tagValue] in
      let* st := typeSwitchLoop tag symbolicVarName Body
                   {| ifChain := []; defaultBody := []; swExpr := e1 |} in
      Ok (finishSwitch stmts1 st)
  | _ => Panic "interface conversion: not a TypeAssertExpr"
  end.

Definition compileIfStmt (Init : option ast.Stmt) (Cond : ast.Expr)
    (Body : ast.Stmt) (Else : option ast.Stmt) : result (list py.Stmt) :=
  let e := newExprCompiler in
  let* stmts0 := compileOpt Init in
  let '(test, e1) := compileExpr c e Cond in
  let* body := compileStmt Body in
  let* orelse := compileOpt Else in
  Ok (stmts0 ++ stmts e1 ++ [py.If test body orelse]).

Definition compileBranchStmt (Tok : ast.Token) : result (list py.Stmt) :=
  match Tok with
  | ast.BREAK => Ok [py.Break]
  | ast.CONTINUE => Ok [py.Continue]
  | ast.FALLTHROUGH =>
      Ok [py.ExprStmt (py.Call (py.Name "_TODO_fallthrough") [])]
  | ast.GOTO => Ok [py.Pass]
  | _ => Panic "unknown BranchStmt"
  end.

Definition compileForStmt (Init : option ast.Stmt) (Cond : option ast.Expr)
    (Post : option ast.Stmt) (Body : ast.Stmt) : result (list py.Stmt) :=
  let e := newExprCompiler in
  let* body := compileStmt Body in
  let* body :=
    match Post with
    | Some post =>
        let* b := compileStmt Body in
        let* p := compileStmt post in
        Ok (b ++ p)
    | None => Ok body
    end in
  let* stmts0 := compileOpt Init in
  let '(test, e1) :=
    match Cond with
    | Some cond => compileExpr c e cond
    | None => (pyTrue, e)
    end in
  let body := orPass body in
  Ok (stmts0 ++ stmts e1 ++ [py.While test body]).

(** [None] is the nil slice the source returns when the expression is
    not the special form. *)
Definition compileExprToStmt (x : ast.Expr)
    : result (option (list py.Stmt)) :=
  let ec := newExprCompiler in
  match x with
  | ast.CallExpr (ast.IdentExpr fun_) Args =>
      if String.eqb (ast.Name fun_) "delete" then
        let* a0 := index0 Args in
        let '(value, ec1) := compileExpr c ec a0 in
        let* a1 := index1 Args in
        let '(slice, ec2) := compileExpr c ec1 a1 in
        let stmt :=
          py.Try [py.Delete [py.Subscript value slice]]
                 [(pyKeyError, [py.Pass])]
                 [] in
        Ok (Some (stmts ec2 ++ [stmt]))
      else Ok None
  | _ => Ok None
  end.

Definition compileReturnStmt (Results : list ast.Expr) : list py.Stmt :=
  let e := newExprCompiler in
  let '(value, e1) := compileExprsTuple c e Results in
  stmts e1 ++ [py.Return value].

Definition compileExprStmt (X : ast.Expr) : result (list py.Stmt) :=
  let* compiled := compileExprToStmt X in
  match compiled with
  | Some l => Ok l
  | None =>
      let e := newExprCompiler in
      let '(value, e1) := compileExpr c e X in
      Ok (stmts e1 ++ [py.ExprStmt value])
  end.

Definition compileDeferStmt (Fun : ast.Expr) (Args : list ast.Expr)
    : list py.Stmt :=
  if negb (global c) then []
  else
    let e := newExprCompiler in
    let '(f, e1) := compileExpr c e Fun in
    let '(elts, e2) := compileExprs c e1 Args in
    let args := py.Tuple elts in
    stmts e2 ++ [appendToList (defers c) (makeTuple [f; args])].

Fixpoint compileDeclStmt (Specs : list ast.Spec) : result (list py.Stmt) :=
  match Specs with
  | [] => Ok []
  | spec :: rest =>
      let* compiled :=
        match spec with
        | ast.ValueSpec Names Values => CompileValueSpec c Names Values
        | ast.TypeSpec Name Type_ =>
            let* t := CompileTypeSpec c Name Type_ in Ok [t]
        | ast.ImportSpec => Panic "unknown Spec"
        end in
      let* more := compileDeclStmt rest in
      Ok (compiled ++ more)
  end.

(** The comment statements that [compileStmt] puts before the lowering
    of a statement. *)
Definition commentStmts (stmt : ast.Stmt) : list py.Stmt :=
  if global c then
    match commentMap c with
    | Some cmap => concat (map commentLines (stmtComments cmap stmt))
    | None => []
    end
  else [].

End Lower.

Fixpoint compileStmt (c : XCompiler) (stmt : ast.Stmt)
    : result (list py.Stmt) :=
  let* pyStmts :=
    match stmt with
    | ast.ReturnStmt Results => Ok (compileReturnStmt c Results)
    | ast.ForStmt Init Cond Post Body =>
        compileForStmt c (compileStmt c) Init Cond Post Body
    | ast.BlockStmt l => compileStmts (compileStmt c) l
    | ast.AssignStmt Lhs Tok Rhs => compileAssignStmt c Lhs Tok Rhs
    | ast.ExprStmt X => compileExprStmt c X
    | ast.RangeStmt Key Value X Body =>
        compileRangeStmt c (compileStmt c) Key Value X Body
    | ast.IfStmt Init Cond Body Else =>
        compileIfStmt c (compileStmt c) Init Cond Body Else
    | ast.IncDecStmt X Tok => Ok (compileIncDecStmt c X Tok)
    | ast.DeclStmt Specs => compileDeclStmt c Specs
    | ast.SwitchStmt Init Tag Body =>
        compileSwitchStmt c (compileStmt c) Init Tag Body
    | ast.TypeSwitchStmt Init Assign Body =>
        compileTypeSwitchStmt c (compileStmt c) Init Assign Body
    | ast.BranchStmt Tok => compileBranchStmt Tok
    | ast.EmptyStmt => Ok []
    | ast.DeferStmt Fun Args => Ok (compileDeferStmt c Fun Args)
    | ast.LabeledStmt _ s => compileStmt c s
    | ast.SendStmt _ _ => Ok []
    | ast.GoStmt _ => Ok []
    | ast.CaseClause _ _ _ | ast.SelectStmt => Panic "unknown Stmt"
    end in
  Ok (commentStmts c stmt ++ pyStmts).

(** *** Functions and deferred calls *)

(** The scan of [addDefers]: [ast.Inspect] descends into statements
    only, and stops at the first [DeferStmt]. *)
Fixpoint containsDefer (s : ast.Stmt) : bool :=
  let opt (o : option ast.Stmt) :=
    match o with Some s' => containsDefer s' | None => false end in
  match s with
  | ast.DeferStmt _ _ => true
  | ast.ForStmt Init _ Post Body =>
      opt Init || opt Post || containsDefer Body
  | ast.BlockStmt l => existsb containsDefer l
  | ast.RangeStmt _ _ _ Body => containsDefer Body
  | ast.IfStmt Init _ Body Else =>
      opt Init || containsDefer Body || opt Else
  | ast.SwitchStmt Init _ Body => opt Init || existsb containsDefer Body
  | ast.TypeSwitchStmt Init Assign Body =>
      opt Init || containsDefer Assign || existsb containsDefer Body
  | ast.LabeledStmt _ s' => containsDefer s'
  | ast.CaseClause _ _ Body => existsb containsDefer Body
  | _ => false
  end.

(** [addDefers] stores the capture list in the context it is called on:
    the context after the call is returned with the statement. *)
Definition addDefers (c : XCompiler) (body : list ast.Stmt)
    : XCompiler * py.Stmt :=
  if negb (global c) then (c, py.NilStmt)
  else if containsDefer (ast.BlockStmt body) then
    let c' := withDefers c (py.Name (tempID c "defers")) in
    (c', py.Assign [defers c'] (py.List []))
  else (c, py.NilStmt).

Definition isNilStmt (s : py.Stmt) : bool :=
  match s with py.NilStmt => true | _ => false end.

Fixpoint funcBody (c : XCompiler) (l : list ast.Stmt)
    : result (list py.Stmt) :=
  match l with
  | [] => Ok []
  | stmt :: rest =>
      let* a := compileStmt c stmt in
      let* b := funcBody c rest in
      Ok (a ++ b)
  end.

Definition CompileFunc (parent : XCompiler) (name : py.Identifier)
    (typ : ast.FuncType) (body : list ast.Stmt) (isMethod : bool)
    (recv : option ast.Ident) : result py.FunctionDef :=
  let c := nestedCompiler parent in
  let '(c, deferInit) :=
    if global parent then addDefers c body else (c, py.NilStmt) in
  let recvArgs :=
    if isMethod then
      [match recv with
       | Some r => identifier c r
       | None => tempID c "self"
       end]
    else [] in
  let params :=
    concat (map (fun names => map (identifier c) names) (ast.Params typ)) in
  let pyArgs := {| py.Args_ := recvArgs ++ params; py.Defaults := [] |} in
  let* pyBody := funcBody c body in
  let pyBody :=
    if global parent && negb (isNilStmt deferInit) then
      let fun_ := py.Name (tempID c "fun") in
      let args := py.Name (tempID c "args") in
      let forLoop :=
        py.For (makeTuple [fun_; args])
               (py.Call pyReversed [defers c])
               [py.ExprStmt (py.Call fun_ [py.Starred args])] in
      [deferInit; py.Try pyBody [] [forLoop]]
    else pyBody in
  let pyBody := if Nat.eqb (length pyBody) 0 then [py.Pass] else pyBody in
  Ok {| py.fName := name; py.fArgs := pyArgs; py.fBody := pyBody |}.

Record FuncDecl := { Class : py.Identifier; Def : py.FunctionDef }.

Definition fieldType (c : XCompiler) (fieldTy : ast.Expr)
    : result py.Identifier :=
  match fieldTy with
  | ast.StarExpr (ast.IdentExpr ident) => Ok (identifier c ident)
  | ast.StarExpr _ => Panic "interface conversion: not an Ident"
  | ast.IdentExpr ident => Ok (identifier c ident)
  | _ => Panic "unknown field type"
  end.

Definition CompileFuncDecl (c : XCompiler) (decl : ast.FuncDecl)
    (withDoc : bool) : result FuncDecl :=
  let* (recvType, recv) :=
    match ast.Recv decl with
    | Some fields =>
        if Nat.ltb 1 (length fields) then Panic "multiple receivers"
        else
          let* field := index0 fields in
          if Nat.ltb 1 (length (fst field)) then Panic "multiple receivers"
          else
            let recv :=
              match fst field with [r] => Some r | _ => None end in
            let* t := fieldType c (snd field) in
            Ok (t, recv)
    | None => Ok (EmptyString, None)
    end in
  let* funcDef :=
    CompileFunc c (identifier c (ast.FName decl)) (ast.Type_ decl)
      (ast.FBody decl)
      (match ast.Recv decl with Some _ => true | None => false end) recv in
  let funcDef :=
    match withDoc, ast.Doc decl with
    | true, Some doc =>
        {| py.fName := py.fName funcDef; py.fArgs := py.fArgs funcDef;
           py.fBody := makeDocString doc :: py.fBody funcDef |}
    | _, _ => funcDef
    end in
  Ok {| Class := recvType; Def := funcDef |}.

(** *** Declarations, at the level of the rewriting core *)

Fixpoint CompileGenDecl (c : XCompiler) (Specs : list ast.Spec)
    : result (list py.Stmt) :=
  match Specs with
  | [] => Ok []
  | spec :: rest =>
      let* compiled :=
        match spec with
        | ast.TypeSpec Name Type_ =>
            let* t := CompileTypeSpec c Name Type_ in Ok [t]
        | ast.ImportSpec => Ok [CompileImportSpec c]
        | ast.ValueSpec Names Values => CompileValueSpec c Names Values
        end in
      let* more := CompileGenDecl c rest in
      Ok (compiled ++ more)
  end.

Definition CompileDecl (c : XCompiler) (decl : ast.Decl)
    : result (list py.Stmt) :=
  match decl with
  | ast.FuncDeclD d =>
      let* funcDecl := CompileFuncDecl c d true in
      Ok [py.funcStmt (Def funcDecl)]
  | ast.GenDecl Specs => CompileGenDecl c Specs
  | ast.BadDecl => Panic "unknown Decl"
  end.

End compiler.

(** ** The module assembler ([Compiler], file compiler.go) *)

Module assembler.

Import compiler.

Record Module :=
  { Imports : list py.Stmt;
    Values : list py.Stmt;
    Classes : list py.ClassDef;
    Types : list py.Stmt;
    Functions : list py.FunctionDef;
    Methods : gmap string (list py.FunctionDef) }.

Definition newModule : Module :=
  {| Imports := []; Values := []; Classes := []; Types := [];
     Functions := []; Methods := ∅ |}.

(** [module.Methods[k]]: a missing key reads as the nil slice. *)
Definition methodsOf (m : gmap string (list py.FunctionDef))
    (k : py.Identifier) : list py.FunctionDef :=
  default [] (m !! k).

Definition NewCompiler (typeInfo : Info) (sc : scope)
    (lower : ast.Expr -> list py.Stmt * py.Expr)
    (cid : ast.Ident -> py.Expr) : XCompiler :=
  NewXCompiler typeInfo sc lower cid true.

(** A file comes with the comment map built from its comments. *)
Record SourceFile := { file : ast.File; cmap : CommentMap }.

Section Assemble.

(** compiler.go calls [CompileFuncDecl] with the declaration alone; the
    doc-string switch of the lowering is left open. *)
Variable withDoc : bool.

Definition addTypeSpec (module : Module) (compiled : py.Stmt) : Module :=
  match compiled with
  | py.ClassDefStmt name body =>
      {| Imports := Imports module; Values := Values module;
         Classes := Classes module ++ [{| py.cName := name; py.cBody := body |}];
         Types := Types module; Functions := Functions module;
         Methods := Methods module |}
  | _ =>
      {| Imports := Imports module; Values := Values module;
         Classes := Classes module;
         Types := Types module ++ [compiled]; Functions := Functions module;
         Methods := Methods module |}
  end.

Definition addValues (module : Module) (vs : list py.Stmt) : Module :=
  {| Imports := Imports module; Values := Values module ++ vs;
     Classes := Classes module; Types := Types module;
     Functions := Functions module; Methods := Methods module |}.

Definition addFunc (module : Module) (funcDecl : FuncDecl) : Module :=
  if negb (String.eqb (Class funcDecl) "") then
    {| Imports := Imports module; Values := Values module;
       Classes := Classes module; Types := Types module;
       Functions := Functions module;
       Methods :=
         <[Class funcDecl :=
             methodsOf (Methods module) (Class funcDecl) ++ [Def funcDecl]]>
           (Methods module) |}
  else
    {| Imports := Imports module; Values := Values module;
       Classes := Classes module; Types := Types module;
       Functions := Functions module ++ [Def funcDecl];
       Methods := Methods module |}.

Fixpoint compileGenDecl (c : XCompiler) (specs : list ast.Spec)
    (module : Module) : result Module :=
  match specs with
  | [] => Ok module
  | ast.TypeSpec Name Type_ :: rest =>
      let* compiled := CompileTypeSpec c Name Type_ in
      compileGenDecl c rest (addTypeSpec module compiled)
  | ast.ImportSpec :: rest => compileGenDecl c rest module
  | ast.ValueSpec Names Values_ :: rest =>
      let* vs := CompileValueSpec c Names Values_ in
      compileGenDecl c rest (addValues module vs)
  end.

Definition compileDecl (c : XCompiler) (decl : ast.Decl) (module : Module)
    : result Module :=
  match decl with
  | ast.FuncDeclD d =>
      let* funcDecl := CompileFuncDecl c d withDoc in
      Ok (addFunc module funcDecl)
  | ast.GenDecl specs => compileGenDecl c specs module
  | ast.BadDecl => Panic "unknown Decl"
  end.

Fixpoint compileDecls (c1 : XCompiler) (decls : list ast.Decl)
    (module : Module) : result Module :=
  match decls with
  | [] => Ok module
  | decl :: rest =>
      let* module1 := compileDecl c1 decl module in
      compileDecls c1 rest module1
  end.

Definition compileFile (c : XCompiler) (f : SourceFile) (module : Module)
    : result Module :=
  let c1 := withCommentMap c (cmap f) in
  compileDecls c1 (ast.Decls (file f)) module.

Fixpoint compileFilesLoop (c : XCompiler) (files : list SourceFile)
    (module : Module) : result Module :=
  match files with
  | [] => Ok module
  | f :: rest =>
      let* module1 := compileFile c f module in
      compileFilesLoop c rest module1
  end.

(** The class with the methods registered under its name appended to its
    body. *)
Definition withMethods (module : Module) (class : py.ClassDef)
    : py.ClassDef :=
  {| py.cName := py.cName class;
     py.cBody := py.cBody class ++
                 map py.funcStmt (methodsOf (Methods module) (py.cName class)) |}.

(** The second half of [CompileFiles]: the output module built from the
    intermediate one. *)
Definition assemble (module : Module) : py.Module :=
  {| py.Body :=
       Values module ++
       map (fun class => py.classStmt (withMethods module class))
           (Classes module) ++
       map py.funcStmt (Functions module) |}.

Definition CompileFiles (c : XCompiler) (files : list SourceFile)
    : result py.Module :=
  let* module := compileFilesLoop c files newModule in
  Ok (assemble module).

End Assemble.

End assembler.

(** ** A concrete context

    An oracle, a scope and an expression engine to run the lowering on:
    every identifier is an [int] unless its name says otherwise, names
    are kept, and a function literal (the form [OtherExpr]) is hoisted as
    a definition that the lowered expression then names. *)

Module sample.

Import compiler.

Definition ident (n : string) : ast.Ident :=
  {| ast.NamePos := 0; ast.Name := n |}.

Definition var (n : string) : ast.Expr := ast.IdentExpr (ident n).

Definition call (f : string) (args : list ast.Expr) : ast.Expr :=
  ast.CallExpr (var f) args.

Definition typeOf (x : ast.Expr) : types.Type_ :=
  match x with
  | ast.IdentExpr id =>
      if String.eqb (ast.Name id) "T" then
        types.Struct [({| types.objPos := 1; types.objName := "n" |},
                       types.Basic types.Int)]
      else if String.eqb (ast.Name id) "Alias" then
        types.Named {| types.objPos := 2; types.objName := "T" |}
      else if String.eqb (ast.Name id) "p" then
        types.Basic types.UnsafePointer
      else types.Basic types.Int
  | ast.OtherExpr 1 =>
      types.Struct [({| types.objPos := 1; types.objName := "n" |},
                     types.Basic types.Int)]
  | _ => types.Basic types.Int
  end.

Definition sampleInfo : Info :=
  {| TypeOf := typeOf;
     ObjectOf := fun id =>
       {| types.objPos := ast.NamePos id; types.objName := ast.Name id |};
     Implicits := fun pos => {| types.objPos := pos; types.objName := "v" |} |}.

Definition sampleScope : scope :=
  newScope (fun o => types.objName o) (fun _ base => base).

Definition hoistedDef : py.Stmt :=
  py.FunctionDefStmt "func1" {| py.Args_ := []; py.Defaults := [] |}
    [py.Pass].

Fixpoint lower (x : ast.Expr) : list py.Stmt * py.Expr :=
  match x with
  | ast.IdentExpr id => ([], py.Name (ast.Name id))
  | ast.CallExpr f args =>
      let '(hf, vf) := lower f in
      let lowered := map lower args in
      (hf ++ concat (map fst lowered), py.Call vf (map snd lowered))
  | ast.StarExpr x' => lower x'
  | ast.TypeAssertExpr x' => lower x'
  | ast.OtherExpr _ => ([hoistedDef], py.Name "func1")
  end.

Definition compilerWith (global_ : bool) : XCompiler :=
  NewXCompiler sampleInfo sampleScope lower
    (fun id => py.Name (ast.Name id)) global_.

Definition c0 : XCompiler := compilerWith true.


(** A file with a function, a struct type, a variable and a method on
    the struct, in that order. [OtherExpr 1] stands for the type
    expression [struct { n int }]. *)
Definition noComments : CommentMap :=
  {| stmtComments := fun _ => []; identComments := fun _ => [] |}.

Definition fourDecls : assembler.SourceFile :=
  {| assembler.file :=
       {| ast.Decls :=
            [ast.FuncDeclD
               {| ast.Doc := None; ast.Recv := None;
                  ast.FName := ident "f";
                  ast.Type_ := {| ast.Params := [] |};
                  ast.FBody := [] |};
             ast.GenDecl [ast.TypeSpec (ident "T") (ast.OtherExpr 1)];
             ast.GenDecl [ast.ValueSpec [ident "x"] []];
             ast.FuncDeclD
               {| ast.Doc := None;
                  ast.Recv := Some [([ident "t"], var "T")];
                  ast.FName := ident "get";
                  ast.Type_ := {| ast.Params := [] |};
                  ast.FBody := [] |}] |};
     assembler.cmap := noComments |}.


(** [switch { default: C(); case cond1: A() }], the default clause
    first. *)
Definition caseCond1 : ast.Stmt :=
  ast.CaseClause 1 [var "cond1"] [ast.ExprStmt (call "A" [])].

Definition defaultBodyC : list ast.Stmt := [ast.ExprStmt (call "C" [])].

(** [defer f(x); defer g(y); defer h(z); return]. *)
Definition threeDefers : list ast.Stmt :=
  [ast.DeferStmt (var "f") [var "x"];
   ast.DeferStmt (var "g") [var "y"];
   ast.DeferStmt (var "h") [var "z"];
   ast.ReturnStmt []].

(** [defer func() {}(); defer g(y); defer h(z); return]: the function
    literal is hoisted as a definition. *)
Definition deferLiteral : list ast.Stmt :=
  [ast.DeferStmt (ast.OtherExpr 0) [];
   ast.DeferStmt (var "g") [var "y"];
   ast.DeferStmt (var "h") [var "z"];
   ast.ReturnStmt []].

(** [defer f(x); return; defer g(y)]: the second defer is never
    reached. *)
Definition deferReturnDefer : list ast.Stmt :=
  [ast.DeferStmt (var "f") [var "x"];
   ast.ReturnStmt [];
   ast.DeferStmt (var "g") [var "y"]].

(** The comment map of a file whose only comment stands inside an
    empty block, [{ /* nothing to do */ }], and so is attached to that
    block; the text of a comment group ends with a newline. *)
Definition commentInEmptyBlock : CommentMap :=
  {| stmtComments :=
       fun s =>
         match s with
         | ast.BlockStmt [] =>
             [String.append "nothing to do" (String newline EmptyString)]
         | _ => []
         end;
     identComments := fun _ => [] |}.

(** A file with [type A Alias], where [Alias] resolves to the named
    type [T]. *)
Definition aliasFile : assembler.SourceFile :=
  {| assembler.file :=
       {| ast.Decls := [ast.GenDecl [ast.TypeSpec (ident "A") (var "Alias")]] |};
     assembler.cmap := noComments |}.

End sample.

(** ** Running the defer emulation

    A partial meaning of the target statements, enough to run what the
    defer emulation emits: a store of capture lists, the variables bound
    by the unwind loop, the record of the calls the unwind loop makes,
    and whether the function has returned. Expressions are not
    evaluated: an item of a capture list is the expression that was
    appended, and a recorded call is the pair of expressions the loop
    variables were bound to. A [return] ends the statements that follow
    it, and the exit action of a protected region runs all the same. A
    statement whose effect depends on the value of an expression or on
    a callee that is not known (a conditional, a loop other than the
    unwind loop, any other call or assignment, a protected region with
    handlers) has no meaning here: running it gives [None]. *)

Module pyrun.

Record state :=
  { lists : gmap string (list py.Expr);
    vars : gmap string py.Expr;
    calls : list (py.Expr * py.Expr);
    returned : bool }.

Definition init : state :=
  {| lists := ∅; vars := ∅; calls := []; returned := false |}.

(** Names live in one name space: binding a name to a list takes it
    from the variables, and the other way round. *)
Definition setList (d : string) (l : list py.Expr) (st : state) : state :=
  {| lists := <[d := l]> (lists st); vars := delete d (vars st);
     calls := calls st; returned := returned st |}.

Definition setReturned (b : bool) (st : state) : state :=
  {| lists := lists st; vars := vars st; calls := calls st;
     returned := b |}.

(** A definition binds its name anew. *)
Definition unbind (n : string) (st : state) : state :=
  {| lists := delete n (lists st); vars := delete n (vars st);
     calls := calls st; returned := returned st |}.

Definition appendTo (d : string) (item : py.Expr) (st : state)
    : option state :=
  match lists st !! d with
  | Some l => Some (setList d (l ++ [item]) st)
  | None => None
  end.

Definition bindPair (f a : string) (x y : py.Expr) (st : state) : state :=
  {| lists := delete a (delete f (lists st));
     vars := <[a := y]> (<[f := x]> (vars st));
     calls := calls st; returned := returned st |}.

Definition invoke (f a : string) (st : state) : option state :=
  match vars st !! f, vars st !! a with
  | Some fv, Some av =>
      Some {| lists := lists st; vars := vars st;
              calls := calls st ++ [(fv, av)]; returned := returned st |}
  | _, _ => None
  end.

Fixpoint exec (s : py.Stmt) (st : state) {struct s} : option state :=
  let execList :=
    fix execList (l : list py.Stmt) (st : state) {struct l}
        : option state :=
      match l with
      | [] => Some st
      | x :: rest =>
          if returned st then Some st
          else match exec x st with
               | Some st' => execList rest st'
               | None => None
               end
      end in
  match s with
  | py.Pass | py.Comment _ | py.DocString _ => Some st
  | py.Return _ => Some (setReturned true st)
  | py.FunctionDefStmt n _ _ | py.ClassDefStmt n _ => Some (unbind n st)
  | py.Assign [py.Name d] (py.List []) => Some (setList d [] st)
  | py.ExprStmt (py.Call (py.Attribute (py.Name d) attr) [item]) =>
      if String.eqb attr "append" then appendTo d item st else None
  | py.ExprStmt (py.Call (py.Name f) [py.Starred (py.Name a)]) =>
      invoke f a st
  | py.Try body [] final =>
      match execList body st with
      | Some st1 =>
          match execList final (setReturned false st1) with
          | Some st2 =>
              Some (setReturned (returned st1 || returned st2) st2)
          | None => None
          end
      | None => None
      end
  | py.For (py.Tuple [py.Name f; py.Name a])
           (py.Call (py.Name r) [py.Name d]) body =>
      if String.eqb r "reversed" then
        match lists st !! d with
        | Some items =>
            fold_left
              (fun acc item =>
                 match acc with
                 | Some st' =>
                     if returned st' then Some st'
                     else match item with
                          | py.Tuple [x; y] =>
                              execList body (bindPair f a x y st')
                          | _ => None
                          end
                 | None => None
                 end)
              (rev items) (Some st)
        | None => None
        end
      else None
  | _ => None
  end.

Fixpoint execList (l : list py.Stmt) (st : state) : option state :=
  match l with
  | [] => Some st
  | x :: rest =>
      if returned st then Some st
      else match exec x st with
           | Some st' => execList rest st'
           | None => None
           end
  end.

(** A statement that runs and leaves the capture list [D], the record
    of calls and the returned flag as they are. *)
Definition quiet (D : string) (s : py.Stmt) : Prop :=
  forall st, exists st',
    exec s st = Some st' /\
    lists st' !! D = lists st !! D /\
    calls st' = calls st /\
    returned st' = returned st.

End pyrun.

(** ** Vocabulary of the statements below *)

Module spec.

Import compiler.

(** What the engine hoists for an expression, and what it returns. *)
Definition hoisted (c : XCompiler) (x : ast.Expr) : list py.Stmt :=
  fst (lowerExpr c x).

Definition value (c : XCompiler) (x : ast.Expr) : py.Expr :=
  snd (lowerExpr c x).

Definition hoistedAll (c : XCompiler) (xs : list ast.Expr) : list py.Stmt :=
  concat (map (hoisted c) xs).

Definition values (c : XCompiler) (xs : list ast.Expr) : list py.Expr :=
  map (value c) xs.

(** The engine returns an expression for every expression. *)
Definition engineTotal (c : XCompiler) : Prop :=
  forall x, isNil (value c x) = false.

(** The types that have a zero value. *)
Fixpoint zeroDefined (t : types.Type_) : bool :=
  match t with
  | types.Basic k =>
      hasFlag k types.IsString || hasFlag k types.IsBoolean ||
      hasFlag k types.IsInteger || hasFlag k types.IsFloat ||
      hasFlag k types.IsComplex
  | types.Array _ elem => zeroDefined elem
  | types.Tuple _ => false
  | _ => true
  end.

Definition parseInt (s : string) : option Z :=
  option_map Z.of_int (NilZero.int_of_string s).

(** The sequence a comprehension [[elt for _ in range(N)]] evaluates to
    when [elt] is a constant expression. *)
Definition materialize (e : py.Expr) : option (list py.Expr) :=
  match e with
  | py.ListComp elt [(py.Name _, py.Call (py.Name f) [py.Num n])] =>
      if String.eqb f "range" then
        option_map (fun k => repeat elt (Z.to_nat k)) (parseInt n)
      else None
  | _ => None
  end.

(** The three booleans a range loop is lowered by. *)
Definition present {A : Type} (o : option A) : bool :=
  match o with Some _ => true | None => false end.

Definition keyIsDiscard (Key : option ast.Expr) : bool :=
  match Key with Some k => isBlank k | None => false end.

Inductive RangeShape :=
| KeyOnly | ValueOnly | KeyAndValue | Neither | IllegalValueOnly.

Definition rangeShape (keyPresent valuePresent keyDiscard : bool)
    : RangeShape :=
  match keyPresent, valuePresent with
  | true, false => KeyOnly
  | true, true => if keyDiscard then ValueOnly else KeyAndValue
  | false, false => Neither
  | false, true => IllegalValueOnly
  end.

(** The loop each shape stands for, over the lowered pieces. *)
Definition rangeLoop (sh : RangeShape) (k v x : py.Expr)
    (body : list py.Stmt) : option py.Stmt :=
  match sh with
  | KeyOnly => Some (py.For k (py.Call pyRange [py.Call pyLen [x]]) body)
  | ValueOnly => Some (py.For v x body)
  | KeyAndValue =>
      Some (py.For (py.Tuple [k; v]) (py.Call pyEnumerate [x]) body)
  | Neither => Some (py.For (py.Name "_") x body)
  | IllegalValueOnly => None
  end.

(** The expressions each shape lowers, in order. *)
Definition rangeExprs (sh : RangeShape) (Key Value : option ast.Expr)
    (X : ast.Expr) : list ast.Expr :=
  match sh with
  | KeyOnly => option_list Key ++ [X]
  | ValueOnly => option_list Value ++ [X]
  | KeyAndValue => option_list Key ++ option_list Value ++ [X]
  | Neither => [X]
  | IllegalValueOnly => []
  end.

Definition valueOpt (c : XCompiler) (o : option ast.Expr) : py.Expr :=
  match o with Some x => value c x | None => py.NilExpr end.

(** An expression statement that calls the identifier [delete]; with
    exactly a (collection, key) pair of arguments, the pair. *)
Definition isDeleteCall (x : ast.Expr) : bool :=
  match x with
  | ast.CallExpr (ast.IdentExpr f) _ => String.eqb (ast.Name f) "delete"
  | _ => false
  end.

Definition deletePair (x : ast.Expr) : option (ast.Expr * ast.Expr) :=
  match x with
  | ast.CallExpr (ast.IdentExpr f) [a0; a1] =>
      if String.eqb (ast.Name f) "delete" then Some (a0, a1) else None
  | _ => None
  end.

(** Attempt the removal; a missing key is a success. *)
Definition guardedRemoval (collection key : py.Expr) : py.Stmt :=
  py.Try [py.Delete [py.Subscript collection key]]
         [(pyKeyError, [py.Pass])]
         [].

(** A context whose scope was forked for a nested function body. *)
Definition nestedFunctionContext (c : XCompiler) : bool :=
  negb (Nat.eqb (level (scope_ c)) 0).

(** The statement a defer lowers to where the emulation is active. *)
Definition captureAppend (c : XCompiler) (F : ast.Expr)
    (A : list ast.Expr) : py.Stmt :=
  appendToList (defers c) (py.Tuple [value c F; py.Tuple (values c A)]).

(** The zero values of the declared names, in order. *)
Fixpoint zeroValues (c : XCompiler) (names : list ast.Ident)
    : result (list py.Expr) :=
  match names with
  | [] => Ok []
  | ident :: rest =>
      let* z := zeroValue c (TypeOf (info c) (ast.IdentExpr ident)) in
      let* zs := zeroValues c rest in
      Ok (z :: zs)
  end.

(** The values a declaration of [Names] with initializers [Values]
    assigns: zero values when there is no initializer, else the lowered
    initializers that have a name. *)
Definition valueSpecRhs (c : XCompiler) (Names : list ast.Ident)
    (Values : list ast.Expr) : result (list py.Expr) :=
  match Values with
  | [] => zeroValues c Names
  | _ => Ok (values c (firstn (length Names) Values))
  end.

(** Parts of a case clause. *)
Definition nonDefaultClause (s : ast.Stmt) : bool :=
  match s with
  | ast.CaseClause _ (_ :: _) _ => true
  | _ => false
  end.

Definition clauseExprs (s : ast.Stmt) : list ast.Expr :=
  match s with
  | ast.CaseClause _ l _ => l
  | _ => []
  end.

Definition clauseBody (s : ast.Stmt) : list ast.Stmt :=
  match s with
  | ast.CaseClause _ _ b => b
  | _ => []
  end.

(** A clause with case expressions whose body lowers. *)
Definition clauseLowers (c : XCompiler) (s : ast.Stmt) : Prop :=
  nonDefaultClause s = true /\
  isOk (compileStmts (compileStmt c) (clauseBody s)) = true.

(** The synthetic assignment of the tag of a value switch. *)
Definition tagAssign (c : XCompiler) (Tag : option ast.Expr)
    : list py.Stmt :=
  match Tag with
  | Some t => [py.Assign [py.Name "tag"] (value c t)]
  | None => []
  end.

(** Everything hoisted while a value switch is lowered: for the tag,
    then for the case expressions in source order. *)
Definition switchHoisted (c : XCompiler) (Tag : option ast.Expr)
    (clauses : list ast.Stmt) : list py.Stmt :=
  hoistedAll c (option_list Tag) ++
  hoistedAll c (concat (map clauseExprs clauses)).

(** The alternative reached after [n] failed tests: what stands in the
    [else] position [n] conditionals deep. *)
Fixpoint elseAfter (n : nat) (l : list py.Stmt) : option (list py.Stmt) :=
  match n with
  | 0 => Some l
  | S n' =>
      match l with
      | [py.If _ _ orelse] => elseAfter n' orelse
      | _ => None
      end
  end.

(** *** The module assembler *)

Definition isClassDef (s : py.Stmt) : bool :=
  match s with py.ClassDefStmt _ _ => true | _ => false end.

Definition setTypes (m : assembler.Module) (ts : list py.Stmt)
    : assembler.Module :=
  {| assembler.Imports := assembler.Imports m;
     assembler.Values := assembler.Values m;
     assembler.Classes := assembler.Classes m;
     assembler.Types := ts;
     assembler.Functions := assembler.Functions m;
     assembler.Methods := assembler.Methods m |}.

(** A type specification whose lowering succeeds and is not a class
    definition. *)
Definition lowersToNonClass (c : XCompiler) (spec : ast.Spec) : bool :=
  match spec with
  | ast.TypeSpec Name Type_ =>
      match CompileTypeSpec c Name Type_ with
      | Ok compiled => negb (isClassDef compiled)
      | Panic _ => false
      end
  | _ => false
  end.

(** The declaration, and the file, without such type specifications. *)
Definition dropNonClassTypes (c : XCompiler) (decl : ast.Decl) : ast.Decl :=
  match decl with
  | ast.GenDecl specs =>
      ast.GenDecl (List.filter (fun s => negb (lowersToNonClass c s)) specs)
  | _ => decl
  end.

Definition withoutNonClassTypes (c : XCompiler) (f : assembler.SourceFile)
    : assembler.SourceFile :=
  {| assembler.file :=
       {| ast.Decls :=
            map (dropNonClassTypes (withCommentMap c (assembler.cmap f)))
                (ast.Decls (assembler.file f)) |};
     assembler.cmap := assembler.cmap f |}.

Definition mapResult {A B : Type} (f : A -> B) (r : result A) : result B :=
  match r with
  | Ok a => Ok (f a)
  | Panic m => Panic m
  end.

(** What each declaration contributes to the output module, by kind:
    the statements of its value specifications, its classes, its
    functions without a receiver, and its methods on the class [k]. *)
Definition okList {A : Type} (r : result (list A)) : list A :=
  match r with
  | Ok l => l
  | Panic _ => []
  end.

Definition specValues (c : XCompiler) (spec : ast.Spec) : list py.Stmt :=
  match spec with
  | ast.ValueSpec Names Values => okList (CompileValueSpec c Names Values)
  | _ => []
  end.

Definition specClasses (c : XCompiler) (spec : ast.Spec)
    : list py.ClassDef :=
  match spec with
  | ast.TypeSpec Name Type_ =>
      match CompileTypeSpec c Name Type_ with
      | Ok (py.ClassDefStmt name body) =>
          [{| py.cName := name; py.cBody := body |}]
      | _ => []
      end
  | _ => []
  end.

Definition declValues (c : XCompiler) (decl : ast.Decl) : list py.Stmt :=
  match decl with
  | ast.GenDecl specs => concat (map (specValues c) specs)
  | _ => []
  end.

Definition declClasses (c : XCompiler) (decl : ast.Decl)
    : list py.ClassDef :=
  match decl with
  | ast.GenDecl specs => concat (map (specClasses c) specs)
  | _ => []
  end.

Definition declFunctions (withDoc : bool) (c : XCompiler)
    (decl : ast.Decl) : list py.FunctionDef :=
  match decl with
  | ast.FuncDeclD d =>
      match CompileFuncDecl c d withDoc with
      | Ok fd => if String.eqb (Class fd) "" then [Def fd] else []
      | Panic _ => []
      end
  | _ => []
  end.

Definition declMethods (withDoc : bool) (c : XCompiler)
    (k : py.Identifier) (decl : ast.Decl) : list py.FunctionDef :=
  match decl with
  | ast.FuncDeclD d =>
      match CompileFuncDecl c d withDoc with
      | Ok fd =>
          if negb (String.eqb (Class fd) "") && String.eqb (Class fd) k
          then [Def fd] else []
      | Panic _ => []
      end
  | _ => []
  end.

(** The same over a file set, in the order of the files and of the
    declarations in each. *)
Definition overFiles {A : Type}
    (f : XCompiler -> ast.Decl -> list A) (c : XCompiler)
    (files : list assembler.SourceFile) : list A :=
  concat (map (fun sf =>
                 concat (map (f (withCommentMap c (assembler.cmap sf)))
                             (ast.Decls (assembler.file sf))))
              files).

(** Every declaration of the file set lowers. *)
Definition filesLower (withDoc : bool) (c : XCompiler)
    (files : list assembler.SourceFile) : bool :=
  forallb (fun sf =>
             forallb (fun d =>
                        isOk (assembler.compileDecl withDoc
                                (withCommentMap c (assembler.cmap sf)) d
                                assembler.newModule))
                     (ast.Decls (assembler.file sf)))
          files.

(** The class with the methods of the file set declared on it. *)
Definition classWithMethods (withDoc : bool) (c : XCompiler)
    (files : list assembler.SourceFile) (class : py.ClassDef) : py.Stmt :=
  py.ClassDefStmt (py.cName class)
    (py.cBody class ++
     map py.funcStmt
         (overFiles (fun c' => declMethods withDoc c' (py.cName class))
                    c files)).

(** The intermediate module [m'] is [m] extended by the contributions
    [vs], [cs], [fs] and, per class name, [ms]. *)
Definition extends (m m' : assembler.Module) (vs : list py.Stmt)
    (cs : list py.ClassDef) (fs : list py.FunctionDef)
    (ms : py.Identifier -> list py.FunctionDef) : Prop :=
  assembler.Values m' = assembler.Values m ++ vs /\
  assembler.Classes m' = assembler.Classes m ++ cs /\
  assembler.Functions m' = assembler.Functions m ++ fs /\
  forall k,
    assembler.methodsOf (assembler.Methods m') k
    = assembler.methodsOf (assembler.Methods m) k ++ ms k.

(** *** Deferred calls

    The defer statements that stand directly in a function body before
    its first [return] statement, in source order, each as its callee
    and its arguments. *)
Fixpoint reachedDefers (body : list ast.Stmt)
    : list (ast.Expr * list ast.Expr) :=
  match body with
  | [] => []
  | ast.DeferStmt F A :: rest => (F, A) :: reachedDefers rest
  | ast.ReturnStmt _ :: _ => []
  | _ :: rest => reachedDefers rest
  end.

(** The context the body of a function with defers is lowered in: the
    nested context of [parent], with the capture list in place. *)
Definition deferContext (parent : XCompiler) : XCompiler :=
  withDefers (nestedCompiler parent)
             (py.Name (tempID (nestedCompiler parent) "defers")).

Definition deferHoisted (c : XCompiler) (d : ast.Expr * list ast.Expr)
    : list py.Stmt :=
  hoisted c (fst d) ++ hoistedAll c (snd d).

(** The callable and the tuple of captured arguments, and the pair as
    it is stored in the capture list. *)
Definition capturedPair (c : XCompiler) (d : ast.Expr * list ast.Expr)
    : py.Expr * py.Expr :=
  (value c (fst d), py.Tuple (values c (snd d))).

Definition capturedItem (c : XCompiler) (d : ast.Expr * list ast.Expr)
    : py.Expr :=
  py.Tuple [fst (capturedPair c d); snd (capturedPair c d)].

(** The name of the capture list of a function lowered from
    [parent]. *)
Definition captureList (parent : XCompiler) : string :=
  tempID (nestedCompiler parent) "defers".

(** A statement of a function body that the partial meaning covers: a
    defer or return statement whose hoisted statements are quiet, or a
    statement without defers whose lowering is quiet. *)
Definition deferOrPlain (c : XCompiler) (D : string) (s : ast.Stmt)
    : Prop :=
  match s with
  | ast.DeferStmt F A => Forall (pyrun.quiet D) (deferHoisted c (F, A))
  | ast.ReturnStmt Results => Forall (pyrun.quiet D) (hoistedAll c Results)
  | _ =>
      containsDefer s = false /\
      forall l, compileStmt c s = Ok l -> Forall (pyrun.quiet D) l
  end.

(** [for fun, args in reversed(defers): fun( *args )]. *)
Definition unwindLoop (c : XCompiler) : py.Stmt :=
  py.For (py.Tuple [py.Name (tempID c "fun"); py.Name (tempID c "args")])
         (py.Call pyReversed [defers c])
         [py.ExprStmt
            (py.Call (py.Name (tempID c "fun"))
                     [py.Starred (py.Name (tempID c "args"))])].

(** *** Further vocabulary *)

Definition nonEmpty {A : Type} (l : list A) : bool :=
  match l with [] => false | _ :: _ => true end.

(** The test of a counted loop: its condition, or the true literal. *)
Definition loopTest (c : XCompiler) (Cond : option ast.Expr) : py.Expr :=
  match Cond with
  | Some cond => value c cond
  | None => pyTrue
  end.

(** The parameters of a lowered function: the receiver for a method,
    then the declared names in order. *)
Definition funcArgs (c : XCompiler) (typ : ast.FuncType) (isMethod : bool)
    (recv : option ast.Ident) : list py.Identifier :=
  (if isMethod then
     [match recv with
      | Some r => identifier c r
      | None => tempID c "self"
      end]
   else []) ++
  concat (map (fun names => map (identifier c) names) (ast.Params typ)).

(** The fields all have a zero value. *)
Definition fieldsHaveZero (fields : list (types.Object * types.Type_))
    : bool :=
  forallb (fun f => zeroDefined (snd f)) fields.

(** The declared names all have a type with a zero value. *)
Definition namesHaveZero (c : XCompiler) (names : list ast.Ident) : bool :=
  forallb (fun ident =>
             zeroDefined (TypeOf (info c) (ast.IdentExpr ident))) names.

(** The kinds of lowering of a type specification. *)
Inductive TypeSpecKind := AsClass | AsBinding | AsNothing | Unknown.

Definition typeSpecKind (t : types.Type_) : TypeSpecKind :=
  match t with
  | types.Struct _ | types.Basic _ | types.Slice _ => AsClass
  | types.Named _ => AsBinding
  | types.Interface | types.Signature | types.Map _ _ => AsNothing
  | _ => Unknown
  end.

Definition setMethods (m : assembler.Module)
    (ms : gmap string (list py.FunctionDef)) : assembler.Module :=
  {| assembler.Imports := assembler.Imports m;
     assembler.Values := assembler.Values m;
     assembler.Classes := assembler.Classes m;
     assembler.Types := assembler.Types m;
     assembler.Functions := assembler.Functions m;
     assembler.Methods := ms |}.

Definition isImportSpec (spec : ast.Spec) : bool :=
  match spec with ast.ImportSpec => true | _ => false end.

(** The declaration with another receiver list, and with another doc
    comment. *)
Definition withRecv (decl : ast.FuncDecl)
    (recv : option (list (list ast.Ident * ast.Expr))) : ast.FuncDecl :=
  {| ast.Doc := ast.Doc decl; ast.Recv := recv;
     ast.FName := ast.FName decl; ast.Type_ := ast.Type_ decl;
     ast.FBody := ast.FBody decl |}.

(** The lowered function with the doc string of [doc] put first. *)
Definition prependDoc (doc : string) (fd : FuncDecl) : FuncDecl :=
  {| Class := Class fd;
     Def := {| py.fName := py.fName (Def fd);
               py.fArgs := py.fArgs (Def fd);
               py.fBody := makeDocString doc :: py.fBody (Def fd) |} |}.

(** *** Type switches *)

Definition clausePos (s : ast.Stmt) : ast.Pos :=
  match s with
  | ast.CaseClause pos _ _ => pos
  | _ => 0
  end.

(** The guard of a type switch: the tag temporary, the name of the
    variable the switch binds (empty when it binds none) and the probed
    expression. *)
Definition guardParts (c : XCompiler) (Assign : ast.Stmt)
    : option (py.Expr * string * ast.Expr) :=
  match Assign with
  | ast.AssignStmt (ast.IdentExpr ident :: _) _
                   (ast.TypeAssertExpr x :: _) =>
      Some (py.Name (tempID c (ast.Name ident)), ast.Name ident, x)
  | ast.ExprStmt (ast.TypeAssertExpr x) =>
      Some (py.Name (tempID c "tag"), EmptyString, x)
  | _ => None
  end.

(** The assignment of the per-clause variable that opens each clause
    body of a type switch that binds a variable. *)
Definition bindingPrefix (c : XCompiler) (tag : py.Expr) (sym : string)
    (pos : ast.Pos) : list py.Stmt :=
  if negb (String.eqb sym "") then
    [py.Assign [py.Name (objID c (Implicits (info c) pos))] tag]
  else [].

(** The test of a clause of a type switch: the tag temporary compared
    with the case type, or the disjunction of these comparisons, in
    source order, when the clause lists several types. *)
Definition typeTest (c : XCompiler) (tag : py.Expr) (xs : list ast.Expr)
    : py.Expr :=
  match xs with
  | [x] => py.Compare tag [py.Eq] [value c x]
  | _ => py.BoolOp py.Or
           (map (fun x => py.Compare tag [py.Eq] [value c x]) xs)
  end.

(** The conditionals of the clauses of a type switch, given the lowered
    body of each: the test of the clause and, as body, the assignment of
    the clause's variable followed by the lowered body. *)
Definition typeNodes (c : XCompiler) (tag : py.Expr) (sym : string)
    (clauses : list ast.Stmt) (bodies : list (list py.Stmt))
    : list (py.Expr * list py.Stmt) :=
  map (fun p => (typeTest c tag (clauseExprs (fst p)),
                 bindingPrefix c tag sym (clausePos (fst p)) ++ snd p))
      (combine clauses bodies).

(** Conditionals nested through their [else] positions: each holds the
    next one alone there, the last one holds [final]; with no
    conditional at all, [final] stands by itself. *)
Definition conditionalChain (nodes : list (py.Expr * list py.Stmt))
    (final : list py.Stmt) : list py.Stmt :=
  fold_right (fun node rest => [py.If (fst node) (snd node) rest])
             final nodes.

(** *** Contexts that lower alike *)

Definition OptForall (P : ast.Stmt -> Prop) (o : option ast.Stmt) : Prop :=
  match o with
  | Some s => P s
  | None => True
  end.

(** Two contexts with the same oracle, scope, engine and flag, and the
    same comment map where the flag is set; the capture lists may
    differ. *)
Definition agree (c c' : XCompiler) : Prop :=
  info c = info c' /\
  scope_ c = scope_ c' /\
  lowerExpr c = lowerExpr c' /\
  compileIdent c = compileIdent c' /\
  global c = global c' /\
  (global c = true -> commentMap c = commentMap c').

End spec.

(** * Properties *)

Import compiler spec.

Lemma compileExpr_eq (c : XCompiler) (e : exprCompiler) (x : ast.Expr) :
  compileExpr c e x = (value c x, {| stmts := stmts e ++ hoisted c x |}).
Proof.
  unfold compileExpr, value, hoisted.
  destruct (lowerExpr c x) as [h v]; reflexivity.
Qed.

Lemma compileExprs_eq (c : XCompiler) (xs : list ast.Expr) :
  forall e, compileExprs c e xs =
            (values c xs, {| stmts := stmts e ++ hoistedAll c xs |}).
Proof.
  induction xs as [|x rest IH]; intros e; simpl.
  - unfold hoistedAll; simpl. rewrite app_nil_r. destruct e; reflexivity.
  - rewrite compileExpr_eq, IH. simpl. unfold hoistedAll; simpl.
    rewrite <- app_assoc. reflexivity.
Qed.

(** ** Zero values *)

Lemma zeroValue_isOk (c : XCompiler) (t : types.Type_) :
  isOk (zeroValue c t) = zeroDefined t.
Proof.
  induction t; simpl; try reflexivity.
  - destruct (hasFlag kind types.IsString); [reflexivity|].
    destruct (hasFlag kind types.IsBoolean); [reflexivity|].
    destruct (hasFlag kind types.IsInteger); [reflexivity|].
    destruct (hasFlag kind types.IsFloat); [reflexivity|].
    destruct (hasFlag kind types.IsComplex); reflexivity.
  - rewrite <- IHt. destruct (zeroValue c t); reflexivity.
Qed.

Lemma zeroValue_pure (c c' : XCompiler) (t : types.Type_) :
  zeroValue c t = zeroValue c' t.
Proof.
  induction t; simpl; try reflexivity.
  rewrite IHt. reflexivity.
Qed.

Lemma parseInt_FormatInt (n : Z) : parseInt (FormatInt n) = Some n.
Proof.
  unfold parseInt, FormatInt.
  rewrite NilZero.isi.
  - simpl. rewrite DecimalZ.of_to. reflexivity.
  - destruct n; simpl; try discriminate.
    intros H. injection H as H.
    pose proof (DecimalPos.Unsigned.to_uint_nonnil p) as Hn. congruence.
  - destruct n; simpl; try discriminate.
    intros H. injection H as H.
    pose proof (DecimalPos.Unsigned.to_uint_nonnil p) as Hn. congruence.
Qed.

Lemma basic_flags_exclusive (c : XCompiler) (k : types.BasicKind) :
  (hasFlag k types.IsString = true ->
   zeroValue c (types.Basic k) = Ok (py.Str emptyStringLit)) /\
  (hasFlag k types.IsBoolean = true ->
   zeroValue c (types.Basic k) = Ok (py.NameConstant py.False_)) /\
  (hasFlag k types.IsInteger = true ->
   zeroValue c (types.Basic k) = Ok (py.Num "0")) /\
  (hasFlag k types.IsFloat = true ->
   zeroValue c (types.Basic k) = Ok (py.Num "0.0")) /\
  (hasFlag k types.IsComplex = true ->
   zeroValue c (types.Basic k) = Ok (py.Num "0.0")).
Proof.
  destruct k; vm_compute; repeat split; intros H;
    first [reflexivity | discriminate H].
Qed.

(** C6, as stated, fails: zero-value synthesis is not defined on every
    resolved type. On the basic type [unsafe.Pointer], which carries none
    of the five flags the switch tests, the lowering aborts. *)
Lemma C6_zeroValue_aborts_on_unsafe_pointer :
  zeroValue sample.c0 (types.Basic types.UnsafePointer)
    = Panic "unknown basic type" /\
  isOk (zeroValue sample.c0 (types.Tuple [])) = false.
Proof. split; reflexivity. Qed.

(** C6, amended: zero-value synthesis is a pure function of the resolved
    type alone, defined exactly on the types of [zeroDefined]: pointer,
    slice, map, function, interface, struct and channel types give the
    absent-value singleton; string gives the empty-string literal,
    boolean the false literal, integer [0], floating-point and complex
    [0.0]; a named type gives a call of its name without arguments; an
    array of length N whose element type has a zero value gives a
    comprehension that evaluates to N copies of it. A basic type with
    none of the five flags, a tuple, and an array of such elements
    abort. *)
Theorem C6_zeroValue_by_category (c : XCompiler) :
  (forall c' t, zeroValue c t = zeroValue c' t) /\
  (forall t, isOk (zeroValue c t) = zeroDefined t) /\
  (forall e, zeroValue c (types.Pointer e) = Ok pyNone) /\
  (forall e, zeroValue c (types.Slice e) = Ok pyNone) /\
  (forall k e, zeroValue c (types.Map k e) = Ok pyNone) /\
  zeroValue c types.Signature = Ok pyNone /\
  zeroValue c types.Interface = Ok pyNone /\
  (forall fs, zeroValue c (types.Struct fs) = Ok pyNone) /\
  (forall e, zeroValue c (types.Chan e) = Ok pyNone) /\
  pyNone = py.NameConstant py.None_ /\
  (forall k, hasFlag k types.IsString = true ->
     zeroValue c (types.Basic k) = Ok (py.Str emptyStringLit)) /\
  (forall k, hasFlag k types.IsBoolean = true ->
     zeroValue c (types.Basic k) = Ok (py.NameConstant py.False_)) /\
  (forall k, hasFlag k types.IsInteger = true ->
     zeroValue c (types.Basic k) = Ok (py.Num "0")) /\
  (forall k, hasFlag k types.IsFloat = true ->
     zeroValue c (types.Basic k) = Ok (py.Num "0.0")) /\
  (forall k, hasFlag k types.IsComplex = true ->
     zeroValue c (types.Basic k) = Ok (py.Num "0.0")) /\
  (forall obj, zeroValue c (types.Named obj)
               = Ok (py.Call (py.Name (types.objName obj)) [])) /\
  (forall n elem z, zeroValue c elem = Ok z ->
     zeroValue c (types.Array n elem)
       = Ok (py.ListComp z
               [(py.Name "_", py.Call pyRange [py.Num (FormatInt n)])]) /\
     materialize
       (py.ListComp z [(py.Name "_", py.Call pyRange [py.Num (FormatInt n)])])
       = Some (repeat z (Z.to_nat n))) /\
  (forall n elem, isOk (zeroValue c elem) = false ->
     isOk (zeroValue c (types.Array n elem)) = false).
Proof.
  repeat match goal with |- _ /\ _ => split end;
    try (intros; reflexivity).
  - intros c' t. apply zeroValue_pure.
  - intros t. apply zeroValue_isOk.
  - intros k H.
    apply (proj1 (basic_flags_exclusive c k) H).
  - intros k H.
    apply (proj1 (proj2 (basic_flags_exclusive c k)) H).
  - intros k H.
    apply (proj1 (proj2 (proj2 (basic_flags_exclusive c k))) H).
  - intros k H.
    apply (proj1 (proj2 (proj2 (proj2 (basic_flags_exclusive c k)))) H).
  - intros k H.
    apply (proj2 (proj2 (proj2 (proj2 (basic_flags_exclusive c k)))) H).
  - intros n elem z H. split.
    + simpl. rewrite H. reflexivity.
    + simpl. rewrite parseInt_FormatInt. reflexivity.
  - intros n elem H. simpl. destruct (zeroValue c elem); [discriminate H|].
    reflexivity.
Qed.

(** ** Range loops *)

Lemma orPass_cases (b : list py.Stmt) :
  orPass b = match b with [] => [py.Pass] | _ => b end.
Proof. destruct b; reflexivity. Qed.

(** C4: where the code departs from the claim. The test for an empty
    loop body looks at the lowered body, and [compileStmt] has by then
    put the comments attached to the block in front of it. With the flag
    [global] set, a range loop over an empty block that holds a comment
    lowers to a loop whose body is the comment alone, with no [pass]. *)
Theorem C4_comment_only_loop_body :
  global (withCommentMap sample.c0 sample.commentInEmptyBlock) = true /\
  compileStmt (withCommentMap sample.c0 sample.commentInEmptyBlock)
    (ast.RangeStmt (Some (sample.var "i")) None (sample.var "xs")
       (ast.BlockStmt []))
  = Ok [py.For (py.Name "i")
          (py.Call (py.Name "range") [py.Call (py.Name "len") [py.Name "xs"]])
          [py.Comment " nothing to do"]].
Proof. split; reflexivity. Qed.

(** X19: the lowering of a range loop is decided by three booleans (key
    present, value present, key is the discard identifier): key only
    iterates [range(len(x))]; a discarded key with a value iterates the
    collection binding the value; key and value iterate [enumerate(x)]
    into a (key, value) tuple; neither iterates binding [_]; a value
    without a key aborts. The body of the loop is the lowered body, or a
    single [pass] when the lowered body holds no statement. *)
Theorem X19_range_loop_shapes (c : XCompiler) (Key Value : option ast.Expr)
    (X : ast.Expr) (Body : ast.Stmt) (b : list py.Stmt)
    (Hbody : compileStmt c Body = Ok b) :
  compileRangeStmt c (compileStmt c) Key Value X Body =
    match rangeLoop (rangeShape (present Key) (present Value)
                                (keyIsDiscard Key))
                    (valueOpt c Key) (valueOpt c Value) (value c X)
                    (match b with [] => [py.Pass] | _ => b end) with
    | Some loop =>
        Ok (hoistedAll c
              (rangeExprs (rangeShape (present Key) (present Value)
                                      (keyIsDiscard Key)) Key Value X)
            ++ [loop])
    | None => Panic "key == nil and value != nil in range for"
    end.
Proof.
  unfold compileRangeStmt. rewrite Hbody. simpl bind.
  rewrite orPass_cases.
  destruct Key as [k|], Value as [v|]; simpl.
  - destruct (isBlank k); simpl;
      rewrite !compileExpr_eq; simpl; unfold hoistedAll; simpl;
      rewrite ?app_nil_r, ?app_assoc; reflexivity.
  - rewrite !compileExpr_eq. simpl. unfold hoistedAll. simpl.
    rewrite app_nil_r. reflexivity.
  - reflexivity.
  - rewrite !compileExpr_eq. simpl. unfold hoistedAll. simpl.
    rewrite app_nil_r. reflexivity.
Qed.

Lemma X19_range_loop_shapes_witness :
  compileStmt sample.c0 (ast.BlockStmt []) = Ok [] /\
  compileRangeStmt sample.c0 (compileStmt sample.c0)
    (Some (sample.var "i")) None (sample.var "xs") (ast.BlockStmt [])
  = Ok [py.For (py.Name "i")
          (py.Call (py.Name "range") [py.Call (py.Name "len") [py.Name "xs"]])
          [py.Pass]].
Proof.
  split.
  - reflexivity.
  - exact (X19_range_loop_shapes sample.c0 (Some (sample.var "i")) None
             (sample.var "xs") (ast.BlockStmt []) [] eq_refl).
Defined.

(** ** Expression statements *)

(** C9: where the code departs from the claim. The special form is
    recognised by the name of the callee alone: neither the number of
    arguments nor what the name resolves to is looked at. A call of an
    identifier [delete] with three arguments becomes the guarded removal
    on the first two, and with one argument the lowering aborts; neither
    is a call on a (collection, key) pair, and neither lowers to a bare
    expression statement. *)
Lemma C9_delete_with_other_arity :
  deletePair (sample.call "delete"
                [sample.var "m"; sample.var "k"; sample.var "z"]) = None /\
  compileExprStmt sample.c0
    (sample.call "delete" [sample.var "m"; sample.var "k"; sample.var "z"])
  = Ok [guardedRemoval (py.Name "m") (py.Name "k")] /\
  deletePair (sample.call "delete" [sample.var "m"]) = None /\
  compileExprStmt sample.c0 (sample.call "delete" [sample.var "m"])
  = Panic "index out of range".
Proof. repeat split. Qed.

(** X20: a call of an identifier named [delete] with exactly two
    arguments lowers to the guarded removal (try the subscript deletion,
    handle [KeyError] with [pass]), and every expression statement that
    is not a call of an identifier named [delete] lowers to a bare
    expression statement, in both cases after the statements hoisted for
    its expressions. *)
Theorem X20_expression_statement (c : XCompiler) (X : ast.Expr)
    (Harity : isDeleteCall X = present (deletePair X)) :
  compileExprStmt c X =
    Ok (match deletePair X with
        | Some (a0, a1) =>
            hoisted c a0 ++ hoisted c a1 ++
            [guardedRemoval (value c a0) (value c a1)]
        | None => hoisted c X ++ [py.ExprStmt (value c X)]
        end).
Proof.
  unfold compileExprStmt, compileExprToStmt.
  destruct X as [id|f args|x|x|n];
    try (simpl; rewrite compileExpr_eq; reflexivity).
  destruct f as [fid|f' args'|x|x|n];
    try (simpl; rewrite compileExpr_eq; reflexivity).
  simpl in Harity |- *.
  destruct (String.eqb (ast.Name fid) "delete") eqn:Hname.
  - destruct args as [|a0 [|a1 [|a2 rest]]]; simpl in Harity;
      try discriminate Harity.
    simpl. rewrite !compileExpr_eq. simpl.
    rewrite <- app_assoc. reflexivity.
  - simpl. rewrite compileExpr_eq.
    destruct args as [|a0 [|a1 [|a2 rest]]]; reflexivity.
Qed.

Lemma X20_expression_statement_witness :
  compileExprStmt sample.c0
    (sample.call "delete" [sample.var "m"; sample.var "k"])
  = Ok [py.Try [py.Delete [py.Subscript (py.Name "m") (py.Name "k")]]
               [(py.Name "KeyError", [py.Pass])] []].
Proof.
  exact (X20_expression_statement sample.c0
           (sample.call "delete" [sample.var "m"; sample.var "k"]) eq_refl).
Defined.

(** ** Defer statements *)

(** C8, as stated, fails: whether a defer statement lowers to an append
    is decided by the flag [global] of the context, not by the context
    being that of a nested function. The top-level context with the flag
    set lowers a defer to an append (onto a capture list that is still
    nil), and the context of a nested function with the flag clear
    lowers it to nothing. *)
Lemma C8_defer_follows_global_flag :
  nestedFunctionContext sample.c0 = false /\
  compileDeferStmt sample.c0 (sample.var "f") [sample.var "x"]
  = [py.ExprStmt
       (py.Call (py.Attribute py.NilExpr "append")
          [py.Tuple [py.Name "f"; py.Tuple [py.Name "x"]]])] /\
  nestedFunctionContext (nestedCompiler (sample.compilerWith false)) = true /\
  compileDeferStmt (nestedCompiler (sample.compilerWith false))
    (sample.var "f") [sample.var "x"] = [].
Proof. repeat split. Qed.

Lemma compileDeferStmt_eq (c : XCompiler) (F : ast.Expr)
    (A : list ast.Expr) :
  compileDeferStmt c F A =
    (if global c
     then hoisted c F ++ hoistedAll c A ++ [captureAppend c F A]
     else []).
Proof.
  unfold compileDeferStmt. destruct (global c); [|reflexivity].
  simpl. rewrite compileExpr_eq, compileExprs_eq. simpl.
  rewrite <- app_assoc. reflexivity.
Qed.

(** C8, amended: a defer statement lowers to the statements hoisted for
    its callee and arguments followed by an append of the (callable,
    captured-arguments-tuple) pair onto the capture list exactly when
    the flag [global] of the context is set; when it is clear the defer
    statement lowers to zero statements. In both cases the lowering
    returns, it does not abort. *)
Theorem C8_defer_statement (c : XCompiler) (F : ast.Expr)
    (A : list ast.Expr) :
  compileDeferStmt c F A =
    (if global c
     then hoisted c F ++ hoistedAll c A ++ [captureAppend c F A]
     else []) /\
  compileStmt c (ast.DeferStmt F A) =
    Ok (commentStmts c (ast.DeferStmt F A) ++ compileDeferStmt c F A).
Proof.
  split; [apply compileDeferStmt_eq|reflexivity].
Qed.

(** ** Hoisted statements of a switch tag *)

(** C2: where the code departs from the claim. The statements hoisted
    for the tag of a switch are emitted after the assignment of the tag,
    not before it; the same holds for the probed expression of a type
    switch. *)
Theorem C2_switch_tag_hoisted_after_assignment (c : XCompiler)
    (t : ast.Expr) :
  compileSwitchStmt c (compileStmt c) None (Some t) []
  = Ok ([py.Assign [py.Name "tag"] (value c t)] ++ hoisted c t) /\
  compileTypeSwitchStmt c (compileStmt c) None
    (ast.ExprStmt (ast.TypeAssertExpr t)) []
  = Ok ([py.Assign [py.Name (tempID c "tag")] (py.Call pyType [value c t])]
        ++ hoisted c t).
Proof.
  split.
  - unfold compileSwitchStmt. simpl. rewrite compileExpr_eq. simpl.
    unfold finishSwitch. simpl. rewrite app_nil_r. reflexivity.
  - unfold compileTypeSwitchStmt. simpl. rewrite compileExpr_eq. simpl.
    unfold finishSwitch. simpl. rewrite app_nil_r. reflexivity.
Qed.

(** The sibling lowerings emit what was hoisted for their expressions
    before the statement that uses them. *)
Lemma compileIfStmt_hoisted_first (c : XCompiler) (Cond : ast.Expr)
    (Body : ast.Stmt) (body : list py.Stmt) :
  compileStmt c Body = Ok body ->
  compileIfStmt c (compileStmt c) None Cond Body None
  = Ok (hoisted c Cond ++ [py.If (value c Cond) body []]).
Proof.
  intros Hbody. unfold compileIfStmt. cbn [compileOpt bind].
  rewrite compileExpr_eq, Hbody. reflexivity.
Qed.

Lemma compileForStmt_hoisted_first (c : XCompiler) (Cond : ast.Expr)
    (Body : ast.Stmt) (body : list py.Stmt) :
  compileStmt c Body = Ok body ->
  compileForStmt c (compileStmt c) None (Some Cond) None Body
  = Ok (hoisted c Cond ++ [py.While (value c Cond) (orPass body)]).
Proof.
  intros Hbody. unfold compileForStmt. rewrite Hbody. cbn [compileOpt bind].
  rewrite compileExpr_eq. reflexivity.
Qed.

Lemma compileReturnStmt_hoisted_first (c : XCompiler)
    (Results : list ast.Expr) :
  compileReturnStmt c Results
  = hoistedAll c Results ++ [py.Return (makeTuple (values c Results))].
Proof.
  unfold compileReturnStmt, compileExprsTuple. rewrite compileExprs_eq.
  reflexivity.
Qed.

Example switch_on_function_literal :
  compileStmt sample.c0 (ast.SwitchStmt None (Some (ast.OtherExpr 0)) [])
  = Ok [py.Assign [py.Name "tag"] (py.Name "func1"); sample.hoistedDef].
Proof. reflexivity. Qed.

Example if_on_function_literal :
  compileStmt sample.c0
    (ast.IfStmt None (ast.OtherExpr 0) (ast.BlockStmt []) None)
  = Ok [sample.hoistedDef; py.If (py.Name "func1") [] []].
Proof. reflexivity. Qed.

(** ** Variable declarations *)

Lemma skipn_nth_error {A : Type} (l : list A) :
  forall i x, nth_error l i = Some x -> skipn i l = x :: skipn (S i) l.
Proof.
  induction l as [|a l IH]; intros [|i] x H; simpl in *; try discriminate.
  - injection H as ->. reflexivity.
  - rewrite (IH i x H). reflexivity.
Qed.

Lemma valueSpecLoop_zero (c : XCompiler) (names : list ast.Ident) :
  forall i e targets values0,
    valueSpecLoop c [] names i e targets values0 =
    bind (zeroValues c names)
         (fun zs => Ok (targets ++ map (compileIdent c) names,
                        values0 ++ zs, e)).
Proof.
  induction names as [|ident rest IH]; intros i e targets values0; simpl.
  - rewrite !app_nil_r. reflexivity.
  - destruct (zeroValue c (TypeOf (info c) (ast.IdentExpr ident)))
      as [z|m]; simpl; [|reflexivity].
    rewrite IH. destruct (zeroValues c rest) as [zs|m]; simpl; [|reflexivity].
    rewrite <- !app_assoc. reflexivity.
Qed.

Lemma valueSpecLoop_init (c : XCompiler) (Values : list ast.Expr)
    (Hne : Values <> []) (names : list ast.Ident) :
  forall i e targets values0,
    valueSpecLoop c Values names i e targets values0 =
    Ok (targets ++ map (compileIdent c) names,
        values0 ++ values c (firstn (length names) (skipn i Values)),
        {| stmts := stmts e ++
                    hoistedAll c (firstn (length names) (skipn i Values)) |}).
Proof.
  assert (Hlen : Nat.eqb (length Values) 0 = false)
    by (destruct Values; [contradiction|reflexivity]).
  induction names as [|ident rest IH]; intros i e targets values0.
  - simpl. unfold hoistedAll. simpl. rewrite !app_nil_r.
    destruct e; reflexivity.
  - cbn [valueSpecLoop]. rewrite Hlen.
    destruct (Nat.ltb i (length Values)) eqn:Hlt.
    + apply Nat.ltb_lt in Hlt.
      destruct (nth_error Values i) as [x|] eqn:Hnth;
        [|apply nth_error_None in Hnth; lia].
      rewrite compileExpr_eq. cbn [bind]. rewrite IH.
      rewrite (skipn_nth_error Values i x Hnth). cbn [length firstn].
      unfold values, hoistedAll. cbn [map concat stmts].
      rewrite <- !app_assoc. reflexivity.
    + apply Nat.ltb_ge in Hlt. cbn [bind]. rewrite IH.
      rewrite !skipn_all2 by lia. rewrite !firstn_nil.
      rewrite <- !app_assoc. reflexivity.
Qed.

(** C5: a declaration of several names lowers to one assignment with all
    the names as targets, after the statements hoisted for its
    initializers. Without initializers the right side holds the zero
    value of each name's type; with one initializer per name it holds
    them pairwise; with a single initializer for several names it is
    that lowered expression; and the right side is the value itself when
    there is one, else a tuple in the order of the names. *)
Theorem C5_value_spec (c : XCompiler) (Names : list ast.Ident)
    (Values : list ast.Expr) :
  CompileValueSpec c Names Values =
    bind (valueSpecRhs c Names Values)
      (fun rhs =>
         Ok (hoistedAll c (firstn (length Names) Values) ++
             [py.Assign (map (compileIdent c) Names) (makeTuple rhs)])) /\
  (forall v, makeTuple [v] = v) /\
  (forall v1 v2 vs, makeTuple (v1 :: v2 :: vs) = py.Tuple (v1 :: v2 :: vs)) /\
  (forall x, Names <> [] -> Values = [x] ->
     valueSpecRhs c Names Values = Ok [value c x]) /\
  (Values <> [] -> length Values = length Names ->
     valueSpecRhs c Names Values = Ok (values c Values)).
Proof.
  repeat match goal with |- _ /\ _ => split end; try reflexivity.
  - unfold CompileValueSpec, valueSpecRhs.
    destruct Values as [|x Values'].
    + rewrite valueSpecLoop_zero.
      destruct (zeroValues c Names) as [zs|m]; simpl; [|reflexivity].
      rewrite firstn_nil. reflexivity.
    + rewrite valueSpecLoop_init by discriminate. reflexivity.
  - intros x Hn ->. destruct Names; [contradiction|]. simpl.
    rewrite firstn_nil. reflexivity.
  - intros Hne Hlen. unfold valueSpecRhs.
    destruct Values; [contradiction|].
    rewrite <- Hlen, firstn_all. reflexivity.
Qed.

Example var_a_b_int :
  CompileValueSpec sample.c0 [sample.ident "a"; sample.ident "b"] []
  = Ok [py.Assign [py.Name "a"; py.Name "b"]
          (py.Tuple [py.Num "0"; py.Num "0"])].
Proof. reflexivity. Qed.

Example var_x_y_call :
  CompileValueSpec sample.c0 [sample.ident "x"; sample.ident "y"]
    [sample.call "f" []]
  = Ok [py.Assign [py.Name "x"; py.Name "y"] (py.Call (py.Name "f") [])].
Proof. reflexivity. Qed.

(** ** Value switches *)

Lemma hoistedAll_app (c : XCompiler) (l1 l2 : list ast.Expr) :
  hoistedAll c (l1 ++ l2) = hoistedAll c l1 ++ hoistedAll c l2.
Proof. unfold hoistedAll. rewrite map_app, concat_app. reflexivity. Qed.

Lemma caseTests_eq (c : XCompiler) (tag : py.Expr) (xs : list ast.Expr) :
  forall e,
    caseTests c e xs tag =
    (map (fun x => if isNil tag then value c x
                   else py.Compare tag [py.Eq] [value c x]) xs,
     {| stmts := stmts e ++ hoistedAll c xs |}).
Proof.
  induction xs as [|x rest IH]; intros e; simpl.
  - unfold hoistedAll. simpl. rewrite app_nil_r. destruct e; reflexivity.
  - rewrite compileExpr_eq, IH. simpl. unfold hoistedAll. simpl.
    rewrite <- app_assoc. reflexivity.
Qed.

Lemma caseClauseTest_nonnil (c : XCompiler) (Htotal : engineTotal c)
    (e : exprCompiler) (tag : py.Expr) (x : ast.Expr) (xs : list ast.Expr) :
  exists test,
    compileCaseClauseTest c e (x :: xs) tag =
      (test, {| stmts := stmts e ++ hoistedAll c (x :: xs) |}) /\
    isNil test = false.
Proof.
  unfold compileCaseClauseTest. rewrite caseTests_eq.
  destruct xs as [|y ys]; simpl.
  - eexists; split; [reflexivity|].
    destruct (isNil tag); [apply Htotal|reflexivity].
  - eexists; split; reflexivity.
Qed.

Lemma caseClauseTest_default (c : XCompiler) (e : exprCompiler)
    (tag : py.Expr) :
  compileCaseClauseTest c e [] tag = (py.NilExpr, e).
Proof. reflexivity. Qed.

Lemma switchLoop_app (c : XCompiler)
    (rec : ast.Stmt -> result (list py.Stmt)) (tag : py.Expr)
    (l1 l2 : list ast.Stmt) :
  forall st,
    switchLoop c rec tag (l1 ++ l2) st =
    bind (switchLoop c rec tag l1 st) (switchLoop c rec tag l2).
Proof.
  induction l1 as [|cl rest IH]; intros st; [reflexivity|].
  destruct cl; try reflexivity. simpl.
  destruct (compileCaseClauseTest c (swExpr st) List_ tag) as [test e1].
  destruct (compileStmts rec Body) as [b|m]; simpl; [|reflexivity].
  destruct (isNil test); apply IH.
Qed.

Lemma switchLoop_nondefault (c : XCompiler) (Htotal : engineTotal c)
    (tag : py.Expr) (l : list ast.Stmt) :
  Forall (clauseLowers c) l ->
  forall e, exists chain,
    Forall2 (fun node cl =>
               compileStmts (compileStmt c) (clauseBody cl) = Ok (snd node))
            chain l /\
    forall chain0 d0,
      switchLoop c (compileStmt c) tag l
        {| ifChain := chain0; defaultBody := d0; swExpr := e |}
      = Ok {| ifChain := chain0 ++ chain; defaultBody := d0;
              swExpr := {| stmts := stmts e ++
                             hoistedAll c (concat (map clauseExprs l)) |} |}.
Proof.
  induction 1 as [|cl rest [Hnd Hbody] _ IH]; intros e.
  - exists []. split; [constructor|]. intros chain0 d0. simpl.
    unfold hoistedAll. simpl. rewrite !app_nil_r. destruct e; reflexivity.
  - destruct cl; try discriminate Hnd.
    destruct List_ as [|x xs]; [discriminate Hnd|].
    simpl in Hbody.
    destruct (compileStmts (compileStmt c) Body) as [b|m] eqn:Hb;
      [|discriminate Hbody].
    destruct (caseClauseTest_nonnil c Htotal e tag x xs)
      as [test [Htest Hnil]].
    destruct (IH {| stmts := stmts e ++ hoistedAll c (x :: xs) |})
      as [chain [Hchain Hrun]].
    exists ((test, b) :: chain). split.
    + constructor; [exact Hb|exact Hchain].
    + intros chain0 d0. cbn [switchLoop swExpr ifChain defaultBody].
      rewrite Htest, Hb. cbn [bind]. rewrite Hnil. rewrite Hrun.
      cbn [stmts map concat clauseExprs].
      rewrite hoistedAll_app, <- !app_assoc. reflexivity.
Qed.

Lemma finishSwitch_eq (stmts0 : list py.Stmt) (st : switchState) :
  finishSwitch stmts0 st =
  stmts0 ++ stmts (swExpr st) ++ linkChain (ifChain st) (defaultBody st).
Proof.
  unfold finishSwitch.
  destruct (ifChain st); cbn zeta; rewrite <- app_assoc; reflexivity.
Qed.

Lemma elseAfter_linkChain (chain : list (py.Expr * list py.Stmt))
    (d : list py.Stmt) :
  elseAfter (length chain) (linkChain chain d) = Some d.
Proof.
  induction chain as [|[t b] rest IH]; [reflexivity|]. simpl. exact IH.
Qed.

Lemma hoistedAll_one (c : XCompiler) (x : ast.Expr) :
  hoistedAll c [x] = hoisted c x.
Proof. unfold hoistedAll. simpl. apply app_nil_r. Qed.

Lemma switchLoop_with_default (c : XCompiler) (Htotal : engineTotal c)
    (tag : py.Expr) (pre post : list ast.Stmt) (dpos : ast.Pos)
    (dbody : list ast.Stmt) (dflt : list py.Stmt) (e : exprCompiler) :
  Forall (clauseLowers c) (pre ++ post) ->
  compileStmts (compileStmt c) dbody = Ok dflt ->
  exists chain,
    Forall2 (fun node cl =>
               compileStmts (compileStmt c) (clauseBody cl) = Ok (snd node))
            chain (pre ++ post) /\
    switchLoop c (compileStmt c) tag
      (pre ++ ast.CaseClause dpos [] dbody :: post)
      {| ifChain := []; defaultBody := []; swExpr := e |}
    = Ok {| ifChain := chain; defaultBody := dflt;
            swExpr := {| stmts := stmts e ++
                           hoistedAll c
                             (concat (map clauseExprs (pre ++ post))) |} |} /\
    switchLoop c (compileStmt c) tag (pre ++ post)
      {| ifChain := []; defaultBody := []; swExpr := e |}
    = Ok {| ifChain := chain; defaultBody := [];
            swExpr := {| stmts := stmts e ++
                           hoistedAll c
                             (concat (map clauseExprs (pre ++ post))) |} |}.
Proof.
  intros Hall Hd. apply Forall_app in Hall as [Hpre Hpost].
  destruct (switchLoop_nondefault c Htotal tag pre Hpre e)
    as [chain1 [H1 Hrun1]].
  destruct (switchLoop_nondefault c Htotal tag post Hpost
              {| stmts := stmts e ++
                          hoistedAll c (concat (map clauseExprs pre)) |})
    as [chain2 [H2 Hrun2]].
  exists (chain1 ++ chain2).
  rewrite map_app, concat_app, hoistedAll_app.
  split; [apply Forall2_app; assumption|]. split.
  - rewrite switchLoop_app, Hrun1. cbn [bind].
    cbn [switchLoop swExpr ifChain defaultBody].
    rewrite caseClauseTest_default, Hd. cbn [bind isNil].
    rewrite Hrun2. cbn [stmts]. rewrite <- !app_assoc. reflexivity.
  - rewrite switchLoop_app, Hrun1. cbn [bind]. rewrite Hrun2.
    cbn [stmts]. rewrite <- !app_assoc. reflexivity.
Qed.

(** C1: in a value switch the body of the clause without case
    expressions ends the chain of conditionals wherever the clause
    stands among the others: after as many failed tests as there are
    other clauses, the alternative reached is the lowered default body.
    The chain is the same one the switch has without the default clause,
    whose last alternative is then empty. With no other clause there is
    no conditional: the default body (or nothing) follows the init
    statements, the tag assignment and the hoisted statements. *)
Theorem C1_switch_default_is_final_else (c : XCompiler)
    (Init : option ast.Stmt) (Tag : option ast.Expr)
    (pre post : list ast.Stmt) (dpos : ast.Pos) (dbody : list ast.Stmt)
    (i dflt : list py.Stmt)
    (Htotal : engineTotal c)
    (Hclauses : Forall (clauseLowers c) (pre ++ post))
    (Hinit : compileOpt (compileStmt c) Init = Ok i)
    (Hdefault : compileStmts (compileStmt c) dbody = Ok dflt) :
  exists chain,
    Forall2 (fun node cl =>
               compileStmts (compileStmt c) (clauseBody cl) = Ok (snd node))
            chain (pre ++ post) /\
    compileSwitchStmt c (compileStmt c) Init Tag
      (pre ++ ast.CaseClause dpos [] dbody :: post)
    = Ok (i ++ tagAssign c Tag ++ switchHoisted c Tag (pre ++ post) ++
          linkChain chain dflt) /\
    elseAfter (length (pre ++ post)) (linkChain chain dflt) = Some dflt /\
    compileSwitchStmt c (compileStmt c) Init Tag (pre ++ post)
    = Ok (i ++ tagAssign c Tag ++ switchHoisted c Tag (pre ++ post) ++
          linkChain chain []) /\
    elseAfter (length (pre ++ post)) (linkChain chain []) = Some [] /\
    (pre ++ post = [] ->
     linkChain chain dflt = dflt /\ linkChain chain [] = []) /\
    (pre ++ post <> [] ->
     exists test body orelse, linkChain chain dflt = [py.If test body orelse]).
Proof.
  pose (e0 := {| stmts := hoistedAll c (option_list Tag) |}).
  pose (tag := match Tag with Some _ => py.Name "tag" | None => py.NilExpr end).
  destruct (switchLoop_with_default c Htotal tag pre post dpos dbody dflt e0
              Hclauses Hdefault) as [chain [Hchain [Hwith Hwithout]]].
  exists chain.
  assert (Hlen : length chain = length (pre ++ post))
    by (eapply Forall2_length; exact Hchain).
  assert (Hrun : forall clauses st,
            switchLoop c (compileStmt c) tag clauses
              {| ifChain := []; defaultBody := []; swExpr := e0 |} = Ok st ->
            compileSwitchStmt c (compileStmt c) Init Tag clauses
            = Ok (i ++ tagAssign c Tag ++ stmts (swExpr st) ++
                  linkChain (ifChain st) (defaultBody st))).
  { intros clauses st Hst. unfold compileSwitchStmt. rewrite Hinit.
    cbn [bind]. subst tag e0. destruct Tag as [t|].
    - rewrite compileExpr_eq. cbn [stmts newExprCompiler app].
      change (option_list (Some t)) with [t] in Hst.
      rewrite hoistedAll_one in Hst.
      rewrite Hst. cbn [bind].
      rewrite finishSwitch_eq, <- app_assoc. reflexivity.
    - change (hoistedAll c (option_list None)) with (@nil py.Stmt) in Hst.
      unfold newExprCompiler. rewrite Hst. cbn [bind].
      rewrite finishSwitch_eq. cbn [tagAssign app]. reflexivity. }
  repeat match goal with |- _ /\ _ => split end.
  - exact Hchain.
  - rewrite (Hrun _ _ Hwith). reflexivity.
  - rewrite <- Hlen. apply elseAfter_linkChain.
  - rewrite (Hrun _ _ Hwithout). reflexivity.
  - rewrite <- Hlen. apply elseAfter_linkChain.
  - intros Hnil. rewrite Hnil in Hlen.
    destruct chain; [split; reflexivity|discriminate Hlen].
  - intros Hne. destruct chain as [|[t b] rest].
    + destruct (pre ++ post); [contradiction|discriminate Hlen].
    + simpl. eauto.
Qed.

(** ** The module assembler: type declarations that are not classes *)

Section TypesAreDropped.

Import assembler.

Variable withDoc : bool.

Lemma setTypes_addTypeSpec_class (m : Module) (name : py.Identifier)
    (body : list py.Stmt) :
  setTypes (addTypeSpec m (py.ClassDefStmt name body)) []
  = addTypeSpec (setTypes m []) (py.ClassDefStmt name body).
Proof. reflexivity. Qed.

Lemma setTypes_addTypeSpec_other (m : Module) (compiled : py.Stmt) :
  isClassDef compiled = false ->
  setTypes (addTypeSpec m compiled) [] = setTypes m [].
Proof. destruct compiled; intros H; try discriminate H; reflexivity. Qed.

Lemma compileGenDecl_strip (c : XCompiler) (specs : list ast.Spec) :
  forall m,
    mapResult (fun m' => setTypes m' []) (compileGenDecl c specs m)
    = compileGenDecl c
        (List.filter (fun s => negb (lowersToNonClass c s)) specs)
        (setTypes m []).
Proof.
  induction specs as [|spec rest IH]; intros m; [reflexivity|].
  destruct spec as [Names Values_|Name Type_|].
  - cbn [List.filter lowersToNonClass negb compileGenDecl].
    destruct (CompileValueSpec c Names Values_) as [vs|msg];
      [|reflexivity].
    cbn [bind]. rewrite IH. reflexivity.
  - cbn [List.filter lowersToNonClass compileGenDecl].
    destruct (CompileTypeSpec c Name Type_) as [compiled|msg] eqn:Hc.
    + cbn [bind]. destruct (isClassDef compiled) eqn:Hclass.
      * cbn [negb compileGenDecl]. rewrite Hc. cbn [bind]. rewrite IH.
        destruct compiled; try discriminate Hclass. reflexivity.
      * cbn [negb]. rewrite IH.
        rewrite setTypes_addTypeSpec_other by exact Hclass. reflexivity.
    + cbn [negb compileGenDecl]. rewrite Hc. reflexivity.
  - cbn [List.filter lowersToNonClass negb compileGenDecl]. apply IH.
Qed.

Lemma compileDecl_strip (c : XCompiler) (decl : ast.Decl) (m : Module) :
  mapResult (fun m' => setTypes m' []) (compileDecl withDoc c decl m)
  = compileDecl withDoc c (dropNonClassTypes c decl) (setTypes m []).
Proof.
  destruct decl as [d|specs|]; cbn [dropNonClassTypes compileDecl].
  - destruct (CompileFuncDecl c d withDoc) as [fd|msg]; [|reflexivity].
    cbn [bind mapResult]. unfold addFunc.
    destruct (negb (String.eqb (Class fd) "")); reflexivity.
  - apply compileGenDecl_strip.
  - reflexivity.
Qed.

Lemma compileDecls_strip (c : XCompiler) (decls : list ast.Decl) :
  forall m,
    mapResult (fun m' => setTypes m' []) (compileDecls withDoc c decls m)
    = compileDecls withDoc c (map (dropNonClassTypes c) decls)
        (setTypes m []).
Proof.
  induction decls as [|decl rest IH]; intros m; [reflexivity|].
  cbn [map compileDecls]. rewrite <- compileDecl_strip.
  destruct (compileDecl withDoc c decl m) as [m1|msg]; [|reflexivity].
  cbn [bind mapResult]. apply IH.
Qed.

Lemma compileFilesLoop_strip (c : XCompiler) (files : list SourceFile) :
  forall m,
    mapResult (fun m' => setTypes m' []) (compileFilesLoop withDoc c files m)
    = compileFilesLoop withDoc c (map (withoutNonClassTypes c) files)
        (setTypes m []).
Proof.
  induction files as [|f rest IH]; intros m; [reflexivity|].
  cbn [map compileFilesLoop]. unfold compileFile at 2.
  cbn [withoutNonClassTypes file cmap ast.Decls].
  rewrite <- compileDecls_strip. unfold compileFile.
  destruct (compileDecls withDoc (withCommentMap c (cmap f))
              (ast.Decls (file f)) m) as [m1|msg]; [|reflexivity].
  cbn [bind mapResult]. apply IH.
Qed.

Lemma assemble_setTypes (m : Module) (ts : list py.Stmt) :
  assemble (setTypes m ts) = assemble m.
Proof. reflexivity. Qed.

End TypesAreDropped.

(** C10: a type specification whose lowering is not a class definition
    (such as an alias of a named type, which lowers to a binding of the
    new name) is appended to the list [Types] of the intermediate module
    and changes nothing else in it; the output module does not depend on
    that list; and compiling a file set gives the same result as
    compiling it with every such specification removed. *)
Theorem C10_non_class_types_are_dropped (withDoc : bool) (c : XCompiler)
    (Name : ast.Ident) (Type_ : ast.Expr) (compiled : py.Stmt)
    (m : assembler.Module)
    (Hlowered : CompileTypeSpec c Name Type_ = Ok compiled)
    (Hnotclass : isClassDef compiled = false) :
  assembler.compileGenDecl c [ast.TypeSpec Name Type_] m
    = Ok (setTypes m (assembler.Types m ++ [compiled])) /\
  (forall ts, assembler.assemble (setTypes m ts) = assembler.assemble m) /\
  (forall files,
     assembler.CompileFiles withDoc c files
     = assembler.CompileFiles withDoc c
         (map (withoutNonClassTypes c) files)) /\
  (forall obj, TypeOf (info c) Type_ = types.Named obj ->
     compiled = py.Assign [py.Name (identifier c Name)]
                          (py.Name (objID c obj))).
Proof.
  repeat match goal with |- _ /\ _ => split end.
  - cbn [assembler.compileGenDecl]. rewrite Hlowered. cbn [bind].
    destruct compiled; try discriminate Hnotclass; reflexivity.
  - intros ts. reflexivity.
  - intros files. unfold assembler.CompileFiles.
    pose proof (compileFilesLoop_strip withDoc c files assembler.newModule)
      as H.
    change (setTypes assembler.newModule []) with assembler.newModule in H.
    rewrite <- H.
    destruct (assembler.compileFilesLoop withDoc c files assembler.newModule)
      as [m1|msg]; reflexivity.
  - intros obj Hty. unfold CompileTypeSpec in Hlowered.
    rewrite Hty in Hlowered. injection Hlowered as <-. reflexivity.
Qed.

(** ** The module assembler: order of the output *)

Section OutputOrder.

Import assembler.

Variable withDoc : bool.

Lemma extends_trans (m m1 m2 : Module) vs cs fs ms vs' cs' fs' ms' :
  extends m m1 vs cs fs ms ->
  extends m1 m2 vs' cs' fs' ms' ->
  extends m m2 (vs ++ vs') (cs ++ cs') (fs ++ fs')
          (fun k => ms k ++ ms' k).
Proof.
  intros (Hv & Hc & Hf & Hm) (Hv' & Hc' & Hf' & Hm').
  repeat split.
  - rewrite Hv', Hv, app_assoc. reflexivity.
  - rewrite Hc', Hc, app_assoc. reflexivity.
  - rewrite Hf', Hf, app_assoc. reflexivity.
  - intros k. rewrite Hm', Hm, app_assoc. reflexivity.
Qed.

Lemma extends_refl (m : Module) : extends m m [] [] [] (fun _ => []).
Proof.
  repeat split; try (rewrite app_nil_r; reflexivity).
  intros k. rewrite app_nil_r. reflexivity.
Qed.

Lemma methodsOf_insert (ms : gmap string (list py.FunctionDef))
    (k k' : string) (v : list py.FunctionDef) :
  methodsOf (<[k := v]> ms) k' = if String.eqb k k' then v else methodsOf ms k'.
Proof.
  unfold methodsOf. destruct (String.eqb_spec k k') as [->|Hne].
  - rewrite lookup_insert_eq. reflexivity.
  - rewrite lookup_insert_ne by exact Hne. reflexivity.
Qed.

Lemma compileGenDecl_extends (c : XCompiler) (specs : list ast.Spec) :
  forall m0 m,
    isOk (compileGenDecl c specs m0) = true ->
    exists m',
      compileGenDecl c specs m = Ok m' /\
      extends m m' (concat (map (specValues c) specs))
              (concat (map (specClasses c) specs)) [] (fun _ => []).
Proof.
  induction specs as [|spec rest IH]; intros m0 m Hok.
  - exists m. split; [reflexivity|apply extends_refl].
  - destruct spec as [Names Values_|Name Type_|];
      cbn [compileGenDecl map concat specValues specClasses] in Hok |- *.
    + destruct (CompileValueSpec c Names Values_) as [vs|msg];
        [|discriminate Hok].
      cbn [bind okList] in Hok |- *.
      destruct (IH _ (addValues m vs) Hok) as [m' [Hrun Hext]].
      exists m'. split; [exact Hrun|].
      apply (extends_trans m (addValues m vs) m' vs [] [] (fun _ => [])
               _ _ [] (fun _ => [])); [|exact Hext].
      repeat split; try (rewrite app_nil_r; reflexivity).
      intros k. rewrite app_nil_r. reflexivity.
    + destruct (CompileTypeSpec c Name Type_) as [compiled|msg];
        [|discriminate Hok].
      cbn [bind] in Hok |- *.
      destruct (IH _ (addTypeSpec m compiled) Hok) as [m' [Hrun Hext]].
      exists m'. split; [exact Hrun|].
      refine (extends_trans m (addTypeSpec m compiled) m' [] _ []
                (fun _ => []) _ _ [] (fun _ => []) _ Hext).
      destruct compiled; repeat split;
        try (cbn; rewrite ?app_nil_r; reflexivity);
        intros k; cbn; rewrite app_nil_r; reflexivity.
    + destruct (IH m0 m Hok) as [m' [Hrun Hext]].
      exists m'. split; [exact Hrun|exact Hext].
Qed.

Lemma compileDecl_extends (c : XCompiler) (decl : ast.Decl) (m0 m : Module) :
  isOk (compileDecl withDoc c decl m0) = true ->
  exists m',
    compileDecl withDoc c decl m = Ok m' /\
    extends m m' (declValues c decl) (declClasses c decl)
            (declFunctions withDoc c decl)
            (fun k => declMethods withDoc c k decl).
Proof.
  destruct decl as [d|specs|]; intros Hok.
  - cbn [compileDecl declValues declClasses declFunctions declMethods]
      in Hok |- *.
    destruct (CompileFuncDecl c d withDoc) as [fd|msg];
      [|discriminate Hok].
    cbn [bind]. eexists. split; [reflexivity|].
    unfold addFunc. destruct (String.eqb (Class fd) "") eqn:Hcls;
      cbn [negb andb].
    + repeat split; try (cbn; rewrite ?app_nil_r; reflexivity).
      intros k. cbn. rewrite app_nil_r. reflexivity.
    + repeat split; try (cbn; rewrite ?app_nil_r; reflexivity).
      intros k. cbn [Methods]. rewrite methodsOf_insert.
      destruct (String.eqb_spec (Class fd) k) as [->|Hne].
      * reflexivity.
      * rewrite app_nil_r. reflexivity.
  - cbn [compileDecl declValues declClasses declFunctions declMethods]
      in Hok |- *.
    apply (compileGenDecl_extends c specs m0 m Hok).
  - discriminate Hok.
Qed.

Lemma compileDecls_extends (c : XCompiler) (decls : list ast.Decl) :
  forall m,
    forallb (fun d => isOk (compileDecl withDoc c d newModule)) decls = true ->
    exists m',
      compileDecls withDoc c decls m = Ok m' /\
      extends m m' (concat (map (declValues c) decls))
              (concat (map (declClasses c) decls))
              (concat (map (declFunctions withDoc c) decls))
              (fun k => concat (map (declMethods withDoc c k) decls)).
Proof.
  induction decls as [|decl rest IH]; intros m Hok.
  - exists m. split; [reflexivity|apply extends_refl].
  - cbn [forallb] in Hok. apply andb_prop in Hok as [Hd Hrest].
    destruct (compileDecl_extends c decl newModule m Hd) as [m1 [Hrun1 Hext1]].
    destruct (IH m1 Hrest) as [m' [Hrun Hext]].
    exists m'. split.
    + cbn [compileDecls]. rewrite Hrun1. exact Hrun.
    + cbn [map concat]. exact (extends_trans _ _ _ _ _ _ _ _ _ _ _ Hext1 Hext).
Qed.

Lemma compileFilesLoop_extends (c : XCompiler) (files : list SourceFile) :
  forall m,
    filesLower withDoc c files = true ->
    exists m',
      compileFilesLoop withDoc c files m = Ok m' /\
      extends m m' (overFiles declValues c files)
              (overFiles declClasses c files)
              (overFiles (declFunctions withDoc) c files)
              (fun k =>
                 overFiles (fun c' => declMethods withDoc c' k) c files).
Proof.
  induction files as [|f rest IH]; intros m Hok.
  - exists m. split; [reflexivity|apply extends_refl].
  - cbn [filesLower forallb] in Hok. apply andb_prop in Hok as [Hf Hrest].
    destruct (compileDecls_extends (withCommentMap c (cmap f))
                (ast.Decls (file f)) m Hf) as [m1 [Hrun1 Hext1]].
    destruct (IH m1 Hrest) as [m' [Hrun Hext]].
    exists m'. split.
    + cbn [compileFilesLoop]. unfold compileFile. rewrite Hrun1. exact Hrun.
    + unfold overFiles. cbn [map concat].
      exact (extends_trans _ _ _ _ _ _ _ _ _ _ _ Hext1 Hext).
Qed.

End OutputOrder.

(** C7, as stated, fails: the values do not come last. For a file that
    declares a function, a struct type, a variable and a method, in that
    order, the body of the output module is the variable binding, then
    the class with its method, then the function. *)
Lemma C7_values_come_first :
  assembler.CompileFiles true sample.c0 [sample.fourDecls]
  = Ok {| py.Body :=
            [py.Assign [py.Name "x"] (py.Num "0");
             py.ClassDefStmt "T"
               [py.FunctionDefStmt "__init__"
                  {| py.Args_ := ["self"; "n"];
                     py.Defaults := [py.Num "0"] |}
                  [py.Assign [py.Attribute (py.Name "self") "n"]
                             (py.Name "n")];
                py.FunctionDefStmt "get"
                  {| py.Args_ := ["t"]; py.Defaults := [] |} [py.Pass]];
             py.FunctionDefStmt "f"
               {| py.Args_ := []; py.Defaults := [] |} [py.Pass]] |}.
Proof. vm_compute. reflexivity. Qed.

(** C7, amended: when every declaration of the file set lowers, the body
    of the output module is, in this order, the statements of the value
    specifications, then the classes, each with the methods declared on
    it appended to its body, then the functions without a receiver; each
    group keeps the order of the files and of their declarations. *)
Theorem C7_output_order (withDoc : bool) (c : XCompiler)
    (files : list assembler.SourceFile)
    (Hlower : filesLower withDoc c files = true) :
  assembler.CompileFiles withDoc c files
  = Ok {| py.Body :=
            overFiles declValues c files ++
            map (classWithMethods withDoc c files)
                (overFiles declClasses c files) ++
            map py.funcStmt (overFiles (declFunctions withDoc) c files) |}.
Proof.
  unfold assembler.CompileFiles.
  destruct (compileFilesLoop_extends withDoc c files assembler.newModule Hlower)
    as [m [Hrun (Hv & Hc & Hf & Hm)]].
  rewrite Hrun. cbn [bind]. unfold assembler.assemble.
  rewrite Hv, Hc, Hf. cbn [assembler.Values assembler.Classes
                           assembler.Functions assembler.newModule app].
  assert (Hmap :
    map (fun class => py.classStmt (assembler.withMethods m class))
        (overFiles declClasses c files)
    = map (classWithMethods withDoc c files)
          (overFiles declClasses c files)).
  { apply map_ext. intros class.
    unfold py.classStmt, assembler.withMethods, classWithMethods.
    cbn [py.cName py.cBody]. rewrite Hm. reflexivity. }
  rewrite Hmap. reflexivity.
Qed.

Lemma C7_output_order_witness :
  assembler.CompileFiles true sample.c0 [sample.fourDecls]
  = Ok {| py.Body :=
            overFiles declValues sample.c0 [sample.fourDecls] ++
            map (classWithMethods true sample.c0 [sample.fourDecls])
                (overFiles declClasses sample.c0 [sample.fourDecls]) ++
            map py.funcStmt
                (overFiles (declFunctions true) sample.c0
                           [sample.fourDecls]) |}.
Proof.
  apply (C7_output_order true sample.c0 [sample.fourDecls]).
  vm_compute. reflexivity.
Defined.

(** ** Deferred calls *)

Lemma execList_returned (l : list py.Stmt) (st : pyrun.state) :
  pyrun.returned st = true -> pyrun.execList l st = Some st.
Proof. intros H. destruct l; simpl; [|rewrite H]; reflexivity. Qed.

Lemma execList_app (l1 l2 : list py.Stmt) :
  forall st,
    pyrun.execList (l1 ++ l2) st
    = match pyrun.execList l1 st with
      | Some st' => pyrun.execList l2 st'
      | None => None
      end.
Proof.
  induction l1 as [|x rest IH]; intros st; [reflexivity|].
  cbn [app pyrun.execList].
  destruct (pyrun.returned st) eqn:Hr.
  - rewrite (execList_returned l2 st Hr). reflexivity.
  - destruct (pyrun.exec x st) as [st'|]; [apply IH|reflexivity].
Qed.

Lemma execList_quiet (D : string) (l : list py.Stmt) :
  Forall (pyrun.quiet D) l ->
  forall st, exists st',
    pyrun.execList l st = Some st' /\
    pyrun.lists st' !! D = pyrun.lists st !! D /\
    pyrun.calls st' = pyrun.calls st /\
    pyrun.returned st' = pyrun.returned st.
Proof.
  induction 1 as [|x rest Hx _ IH]; intros st.
  - exists st. auto.
  - cbn [pyrun.execList]. destruct (pyrun.returned st) eqn:Hr.
    + exists st. auto.
    + destruct (Hx st) as [st1 (Hrun & Hl & Hc & Hret)]. rewrite Hrun.
      destruct (IH st1) as [st2 (Hrun2 & Hl2 & Hc2 & Hret2)].
      exists st2. rewrite Hrun2, Hl2, Hc2, Hret2, Hl, Hc, Hret. auto.
Qed.

Lemma commentStmts_quiet (c : XCompiler) (D : string) (s : ast.Stmt) :
  Forall (pyrun.quiet D) (commentStmts c s).
Proof.
  unfold commentStmts. destruct (global c); [|constructor].
  destruct (commentMap c) as [cm|]; [|constructor].
  induction (stmtComments cm s) as [|text rest IH]; [constructor|].
  cbn [map concat]. apply Forall_app. split; [|exact IH].
  unfold commentLines.
  induction (splitLines (trimRightNewlines text)) as [|line ls IHl];
    constructor; [|exact IHl].
  intros st. exists st. auto.
Qed.

(** A hoisted definition is quiet unless it takes the name of the
    capture list. *)
Lemma functionDef_quiet (D n : string) (args : py.Arguments)
    (body : list py.Stmt) :
  n <> D -> pyrun.quiet D (py.FunctionDefStmt n args body).
Proof.
  intros Hne st. eexists. split; [reflexivity|].
  cbn [pyrun.unbind pyrun.lists pyrun.calls pyrun.returned].
  rewrite lookup_delete_ne by exact Hne. auto.
Qed.

Lemma exec_captureAppend (c : XCompiler) (D : string) (F : ast.Expr)
    (A : list ast.Expr) (st : pyrun.state) :
  defers c = py.Name D ->
  pyrun.exec (captureAppend c F A) st
  = pyrun.appendTo D (py.Tuple [value c F; py.Tuple (values c A)]) st.
Proof. intros HD. unfold captureAppend. rewrite HD. reflexivity. Qed.

Lemma exec_funcBody (c : XCompiler) (D : string)
    (Hglobal : global c = true) (HD : defers c = py.Name D)
    (body : list ast.Stmt) :
  Forall (deferOrPlain c D) body ->
  forall pyBody st l,
    funcBody c body = Ok pyBody ->
    pyrun.returned st = false ->
    pyrun.lists st !! D = Some l ->
    exists st',
      pyrun.execList pyBody st = Some st' /\
      pyrun.lists st' !! D
        = Some (l ++ map (capturedItem c) (reachedDefers body)) /\
      pyrun.calls st' = pyrun.calls st.
Proof.
  induction 1 as [|s rest Hs _ IH]; intros pyBody st l Hrun Hret Hl.
  - injection Hrun as <-. exists st. simpl. rewrite app_nil_r. auto.
  - cbn [funcBody] in Hrun.
    destruct (compileStmt c s) as [a|msg] eqn:Ha; [|discriminate Hrun].
    cbn [bind] in Hrun.
    destruct (funcBody c rest) as [b|msg] eqn:Hb; [|discriminate Hrun].
    cbn [bind] in Hrun. injection Hrun as <-.
    rewrite execList_app.
    assert (Hplain :
      containsDefer s = false ->
      (forall l0, compileStmt c s = Ok l0 -> Forall (pyrun.quiet D) l0) ->
      reachedDefers (s :: rest) = reachedDefers rest ->
      exists st',
        match pyrun.execList a st with
        | Some st1 => pyrun.execList b st1
        | None => None
        end = Some st' /\
        pyrun.lists st' !! D
          = Some (l ++ map (capturedItem c) (reachedDefers (s :: rest))) /\
        pyrun.calls st' = pyrun.calls st).
    { intros Hnd Hin Hreach.
      destruct (execList_quiet D a (Hin a Ha) st)
        as [st1 (Hrun1 & Hl1 & Hc1 & Hret1)].
      rewrite Hrun1, Hreach.
      destruct (IH b st1 l eq_refl) as [st2 (Hrun2 & Hl2 & Hc2)].
      - rewrite Hret1. exact Hret.
      - rewrite Hl1. exact Hl.
      - exists st2. rewrite Hrun2, Hl2, Hc2, Hc1. auto. }
    destruct s;
      try (destruct Hs as [Hnd Hin]; exact (Hplain Hnd Hin eq_refl)).
    + (* return *)
      clear Hplain. cbn [compileStmt bind] in Ha. injection Ha as <-.
      rewrite compileReturnStmt_hoisted_first.
      rewrite app_assoc, execList_app.
      assert (Hq : Forall (pyrun.quiet D)
                     (commentStmts c (ast.ReturnStmt Results) ++
                      hoistedAll c Results)).
      { apply Forall_app. split; [apply commentStmts_quiet|exact Hs]. }
      destruct (execList_quiet D _ Hq st)
        as [st1 (Hrun1 & Hl1 & Hc1 & Hret1)].
      rewrite Hrun1. cbn [pyrun.execList]. rewrite Hret1, Hret.
      cbn [pyrun.exec].
      rewrite (execList_returned b (pyrun.setReturned true st1) eq_refl).
      eexists. split; [reflexivity|].
      cbn [pyrun.setReturned pyrun.lists pyrun.calls reachedDefers map].
      rewrite Hl1, Hc1, app_nil_r. auto.
    + (* defer *)
      clear Hplain. cbn [compileStmt bind] in Ha.
      rewrite compileDeferStmt_eq, Hglobal in Ha. injection Ha as <-.
      rewrite !app_assoc, execList_app.
      assert (Hq : Forall (pyrun.quiet D)
                     ((commentStmts c (ast.DeferStmt Fun Args) ++
                       hoisted c Fun) ++ hoistedAll c Args)).
      { unfold deferOrPlain, deferHoisted in Hs. cbn [fst snd] in Hs.
        rewrite <- app_assoc. apply Forall_app.
        split; [apply commentStmts_quiet|exact Hs]. }
      destruct (execList_quiet D _ Hq st)
        as [st1 (Hrun1 & Hl1 & Hc1 & Hret1)].
      rewrite Hrun1. cbn [pyrun.execList]. rewrite Hret1, Hret.
      rewrite (exec_captureAppend c D _ _ _ HD).
      unfold pyrun.appendTo. rewrite Hl1, Hl.
      destruct (IH b (pyrun.setList D
                        (l ++ [py.Tuple [value c Fun;
                                         py.Tuple (values c Args)]]) st1)
                   (l ++ [py.Tuple [value c Fun; py.Tuple (values c Args)]])
                   eq_refl)
        as [st2 (Hrun2 & Hl2 & Hc2)].
      { cbn [pyrun.setList pyrun.returned]. rewrite Hret1. exact Hret. }
      { cbn [pyrun.setList pyrun.lists]. apply lookup_insert_eq. }
      exists st2. rewrite Hrun2, Hl2, Hc2.
      cbn [pyrun.setList pyrun.calls reachedDefers map capturedItem
           capturedPair fst snd].
      rewrite <- app_assoc, Hc1. auto.
Qed.

Lemma exec_deferred_call (f a : string) (Hne : f <> a) (x y : py.Expr)
    (st : pyrun.state) :
  pyrun.returned st = false ->
  exists st',
    pyrun.execList
      [py.ExprStmt (py.Call (py.Name f) [py.Starred (py.Name a)])]
      (pyrun.bindPair f a x y st) = Some st' /\
    pyrun.calls st' = pyrun.calls st ++ [(x, y)] /\
    pyrun.returned st' = false.
Proof.
  intros Hret. cbn [pyrun.execList].
  change (pyrun.returned (pyrun.bindPair f a x y st))
    with (pyrun.returned st).
  rewrite Hret.
  change (pyrun.exec
            (py.ExprStmt (py.Call (py.Name f) [py.Starred (py.Name a)]))
            (pyrun.bindPair f a x y st))
    with (pyrun.invoke f a (pyrun.bindPair f a x y st)).
  unfold pyrun.invoke, pyrun.bindPair. cbn [pyrun.vars].
  rewrite lookup_insert_ne by (intros Heq; apply Hne; symmetry; exact Heq).
  rewrite !lookup_insert_eq.
  eexists. split; [reflexivity|]. cbn [pyrun.calls pyrun.returned]. auto.
Qed.

Lemma unwind_calls (f a : string) (Hne : f <> a)
    (pairs : list (py.Expr * py.Expr)) :
  forall st,
    pyrun.returned st = false ->
    exists st',
      fold_left
        (fun acc item =>
           match acc with
           | Some st0 =>
               if pyrun.returned st0 then Some st0
               else match item with
                    | py.Tuple [x; y] =>
                        pyrun.execList
                          [py.ExprStmt
                             (py.Call (py.Name f) [py.Starred (py.Name a)])]
                          (pyrun.bindPair f a x y st0)
                    | _ => None
                    end
           | None => None
           end)
        (map (fun p => py.Tuple [fst p; snd p]) pairs) (Some st)
      = Some st' /\
      pyrun.calls st' = pyrun.calls st ++ pairs /\
      pyrun.returned st' = false.
Proof.
  induction pairs as [|[x y] rest IH]; intros st Hret.
  - exists st. simpl. rewrite app_nil_r. auto.
  - cbn [map fold_left fst snd]. rewrite Hret.
    destruct (exec_deferred_call f a Hne x y st Hret)
      as [st1 (Hrun1 & Hc1 & Hr1)].
    rewrite Hrun1.
    destruct (IH st1 Hr1) as [st' (Hrun & Hc & Hr)].
    exists st'. rewrite Hrun, Hc, Hc1, <- app_assoc. auto.
Qed.

Lemma exec_unwindLoop (c : XCompiler) (D : string) (st : pyrun.state)
    (items : list py.Expr) :
  defers c = py.Name D ->
  pyrun.lists st !! D = Some items ->
  pyrun.exec (unwindLoop c) st
  = fold_left
      (fun acc item =>
         match acc with
         | Some st0 =>
             if pyrun.returned st0 then Some st0
             else match item with
                  | py.Tuple [x; y] =>
                      pyrun.execList
                        [py.ExprStmt
                           (py.Call (py.Name (tempID c "fun"))
                              [py.Starred (py.Name (tempID c "args"))])]
                        (pyrun.bindPair (tempID c "fun") (tempID c "args")
                           x y st0)
                  | _ => None
                  end
         | None => None
         end)
      (rev items) (Some st).
Proof.
  intros HD Hitems. unfold unwindLoop. rewrite HD.
  change (pyrun.exec
            (py.For (py.Tuple [py.Name (tempID c "fun");
                               py.Name (tempID c "args")])
               (py.Call pyReversed [py.Name D])
               [py.ExprStmt
                  (py.Call (py.Name (tempID c "fun"))
                     [py.Starred (py.Name (tempID c "args"))])]) st)
    with (match pyrun.lists st !! D with
          | Some items0 =>
              fold_left
                (fun acc item =>
                   match acc with
                   | Some st0 =>
                       if pyrun.returned st0 then Some st0
                       else match item with
                            | py.Tuple [x; y] =>
                                pyrun.execList
                                  [py.ExprStmt
                                     (py.Call (py.Name (tempID c "fun"))
                                        [py.Starred
                                           (py.Name (tempID c "args"))])]
                                  (pyrun.bindPair (tempID c "fun")
                                     (tempID c "args") x y st0)
                            | _ => None
                            end
                   | None => None
                   end)
                (rev items0) (Some st)
          | None => None
          end).
  rewrite Hitems. reflexivity.
Qed.

Lemma CompileFunc_defers (parent : XCompiler) (name : py.Identifier)
    (typ : ast.FuncType) (isMethod : bool) (recv : option ast.Ident)
    (body : list ast.Stmt) (pyBody : list py.Stmt)
    (Hglobal : global parent = true)
    (Hdefer : containsDefer (ast.BlockStmt body) = true)
    (Hbody : funcBody (deferContext parent) body = Ok pyBody) :
  exists args,
    CompileFunc parent name typ body isMethod recv
    = Ok {| py.fName := name; py.fArgs := args;
            py.fBody :=
              [py.Assign [defers (deferContext parent)] (py.List []);
               py.Try pyBody [] [unwindLoop (deferContext parent)]] |}.
Proof.
  unfold CompileFunc. rewrite Hglobal. unfold addDefers.
  change (global (nestedCompiler parent)) with (global parent).
  rewrite Hglobal. cbn [negb]. rewrite Hdefer.
  fold (deferContext parent). rewrite Hbody.
  eexists. reflexivity.
Qed.



(** ** The statements above on the concrete context *)

Lemma sample_engineTotal : engineTotal sample.c0.
Proof.
  intros x. unfold value. cbn [lowerExpr sample.c0 sample.compilerWith
                               NewXCompiler].
  induction x as [id|f IHf args|x IH|x IH|n]; simpl; try reflexivity.
  - destruct (sample.lower f); reflexivity.
  - exact IH.
  - exact IH.
Qed.

Lemma C1_switch_default_is_final_else_witness :
  exists chain,
    compileSwitchStmt sample.c0 (compileStmt sample.c0) None None
      ([] ++ ast.CaseClause 0 [] sample.defaultBodyC :: [sample.caseCond1])
    = Ok ([] ++ tagAssign sample.c0 None ++
          switchHoisted sample.c0 None ([] ++ [sample.caseCond1]) ++
          linkChain chain [py.ExprStmt (py.Call (py.Name "C") [])]) /\
    elseAfter 1 (linkChain chain [py.ExprStmt (py.Call (py.Name "C") [])])
    = Some [py.ExprStmt (py.Call (py.Name "C") [])].
Proof.
  destruct (C1_switch_default_is_final_else sample.c0 None None
              [] [sample.caseCond1] 0 sample.defaultBodyC
              [] [py.ExprStmt (py.Call (py.Name "C") [])]
              sample_engineTotal)
    as [chain (_ & Hrun & Helse & _)].
  - constructor; [split; reflexivity|constructor].
  - reflexivity.
  - reflexivity.
  - exists chain. split; [exact Hrun|exact Helse].
Defined.

Example switch_default_last :
  compileStmt sample.c0
    (ast.SwitchStmt None None
       [sample.caseCond1;
        ast.CaseClause 2 [sample.var "cond2"]
          [ast.ExprStmt (sample.call "B" [])];
        ast.CaseClause 3 [] sample.defaultBodyC])
  = Ok [py.If (py.Name "cond1") [py.ExprStmt (py.Call (py.Name "A") [])]
          [py.If (py.Name "cond2") [py.ExprStmt (py.Call (py.Name "B") [])]
             [py.ExprStmt (py.Call (py.Name "C") [])]]].
Proof. reflexivity. Qed.

Example switch_default_first :
  compileStmt sample.c0
    (ast.SwitchStmt None None
       [ast.CaseClause 3 [] sample.defaultBodyC;
        sample.caseCond1;
        ast.CaseClause 2 [sample.var "cond2"]
          [ast.ExprStmt (sample.call "B" [])]])
  = Ok [py.If (py.Name "cond1") [py.ExprStmt (py.Call (py.Name "A") [])]
          [py.If (py.Name "cond2") [py.ExprStmt (py.Call (py.Name "B") [])]
             [py.ExprStmt (py.Call (py.Name "C") [])]]].
Proof. reflexivity. Qed.

Example switch_only_default :
  compileStmt sample.c0
    (ast.SwitchStmt None None [ast.CaseClause 3 [] sample.defaultBodyC])
  = Ok [py.ExprStmt (py.Call (py.Name "C") [])] /\
  compileStmt sample.c0 (ast.SwitchStmt None None []) = Ok [].
Proof. split; reflexivity. Qed.

(** A defer statement behind a [return] is never reached: its call is
    not made. *)
Example defer_behind_return_is_not_run :
  exists def atExit,
    CompileFunc sample.c0 "f" {| ast.Params := [] |}
      sample.deferReturnDefer false None = Ok def /\
    pyrun.execList (py.fBody def) pyrun.init = Some atExit /\
    pyrun.calls atExit = [(py.Name "f", py.Tuple [py.Name "x"])] /\
    pyrun.returned atExit = true.
Proof.
  eexists. eexists. split; [reflexivity|].
  split; [vm_compute; reflexivity|]. split; reflexivity.
Qed.


Lemma C5_value_spec_witness :
  CompileValueSpec sample.c0 [sample.ident "a"; sample.ident "b"] []
  = Ok [py.Assign [py.Name "a"; py.Name "b"]
          (py.Tuple [py.Num "0"; py.Num "0"])].
Proof.
  exact (proj1 (C5_value_spec sample.c0
                  [sample.ident "a"; sample.ident "b"] [])).
Defined.

Lemma C6_zeroValue_by_category_witness :
  zeroValue sample.c0 (types.Array 3 (types.Basic types.String))
  = Ok (py.ListComp (py.Str emptyStringLit)
          [(py.Name "_", py.Call pyRange [py.Num "3"])]) /\
  materialize (py.ListComp (py.Str emptyStringLit)
                 [(py.Name "_", py.Call pyRange [py.Num "3"])])
  = Some [py.Str emptyStringLit; py.Str emptyStringLit;
          py.Str emptyStringLit].
Proof.
  destruct (C6_zeroValue_by_category sample.c0)
    as (_ & _ & _ & _ & _ & _ & _ & _ & _ & _ & _ & _ & _ & _ & _ & _ &
        Harray & _).
  exact (Harray 3%Z (types.Basic types.String) (py.Str emptyStringLit)
           eq_refl).
Defined.

Lemma C10_non_class_types_are_dropped_witness :
  assembler.compileGenDecl sample.c0
    [ast.TypeSpec (sample.ident "A") (sample.var "Alias")]
    assembler.newModule
  = Ok (setTypes assembler.newModule
          [py.Assign [py.Name "A"] (py.Name "T")]) /\
  assembler.CompileFiles true sample.c0 [sample.aliasFile]
  = assembler.CompileFiles true sample.c0
      (map (withoutNonClassTypes sample.c0) [sample.aliasFile]).
Proof.
  destruct (C10_non_class_types_are_dropped true sample.c0
              (sample.ident "A") (sample.var "Alias")
              (py.Assign [py.Name "A"] (py.Name "T"))
              assembler.newModule eq_refl eq_refl)
    as (Hstored & _ & Hfiles & _).
  split; [exact Hstored|exact (Hfiles [sample.aliasFile])].
Defined.

Example alias_leaves_no_trace :
  assembler.CompileFiles true sample.c0 [sample.aliasFile]
  = Ok {| py.Body := [] |}.
Proof. vm_compute. reflexivity. Qed.

(** The scenarios of the design document. *)

Example range_key_and_value :
  compileStmt sample.c0
    (ast.RangeStmt (Some (sample.var "i")) (Some (sample.var "v"))
       (sample.var "xs")
       (ast.BlockStmt
          [ast.ExprStmt (sample.call "use" [sample.var "i"; sample.var "v"])]))
  = Ok [py.For (py.Tuple [py.Name "i"; py.Name "v"])
          (py.Call (py.Name "enumerate") [py.Name "xs"])
          [py.ExprStmt
             (py.Call (py.Name "use") [py.Name "i"; py.Name "v"])]].
Proof. reflexivity. Qed.

Example range_value_without_key :
  compileStmt sample.c0
    (ast.RangeStmt None (Some (sample.var "v")) (sample.var "xs")
       (ast.BlockStmt []))
  = Panic "key == nil and value != nil in range for".
Proof. reflexivity. Qed.

Example and_not_assign :
  compileStmt sample.c0
    (ast.AssignStmt [sample.var "x"] ast.AND_NOT_ASSIGN [sample.var "mask"])
  = Ok [py.AugAssign (py.Name "x") py.BitAnd
          (py.UnaryOpExpr py.Invert (py.Name "mask"))].
Proof. reflexivity. Qed.

Example defer_f_defer_g_return :
  CompileFunc sample.c0 "main" {| ast.Params := [] |}
    [ast.DeferStmt (sample.var "f") [sample.var "x"];
     ast.DeferStmt (sample.var "g") [sample.var "y"];
     ast.ReturnStmt []] false None
  = Ok {| py.fName := "main";
          py.fArgs := {| py.Args_ := []; py.Defaults := [] |};
          py.fBody :=
            [py.Assign [py.Name "defers"] (py.List []);
             py.Try
               [py.ExprStmt
                  (py.Call (py.Attribute (py.Name "defers") "append")
                     [py.Tuple [py.Name "f"; py.Tuple [py.Name "x"]]]);
                py.ExprStmt
                  (py.Call (py.Attribute (py.Name "defers") "append")
                     [py.Tuple [py.Name "g"; py.Tuple [py.Name "y"]]]);
                py.Return py.NilExpr]
               []
               [py.For (py.Tuple [py.Name "fun"; py.Name "args"])
                  (py.Call (py.Name "reversed") [py.Name "defers"])
                  [py.ExprStmt
                     (py.Call (py.Name "fun")
                        [py.Starred (py.Name "args")])]]] |}.
Proof. reflexivity. Qed.

(** * Further properties of the lowering *)

(** ** Blocks *)

(** X1: the lowering of a statement list is the concatenation of the
    lowerings of its parts, and aborts with the first abort met from
    left to right; a function body is lowered as such a list. *)
Theorem X1_statement_lists_concatenate (c : XCompiler)
    (l1 l2 : list ast.Stmt) :
  compileStmts (compileStmt c) (l1 ++ l2) =
    bind (compileStmts (compileStmt c) l1)
      (fun a => bind (compileStmts (compileStmt c) l2)
                  (fun b => Ok (a ++ b))) /\
  (forall l, funcBody c l = compileStmts (compileStmt c) l).
Proof.
  split.
  - induction l1 as [|s rest IH]; simpl.
    + destruct (compileStmts (compileStmt c) l2); reflexivity.
    + destruct (compileStmt c s) as [a|m]; simpl; [|reflexivity].
      rewrite IH.
      destruct (compileStmts (compileStmt c) rest) as [a'|m]; simpl;
        [|reflexivity].
      destruct (compileStmts (compileStmt c) l2) as [b|m]; simpl;
        [|reflexivity].
      rewrite app_assoc. reflexivity.
  - intros l. induction l as [|s rest IH]; simpl; [reflexivity|].
    rewrite IH. reflexivity.
Qed.

(** ** Assignments *)

(** X2: a plain assignment or short declaration never aborts and lowers
    its left side before its right side; a compound assignment aborts
    exactly when a side is empty or its token is neither [&^=] nor in
    the operator table; [x &^= y] becomes [x &= ~y]. *)
Theorem X2_assignment_lowering (c : XCompiler) (Lhs Rhs : list ast.Expr)
    (Tok : ast.Token) :
  isOk (compileAssignStmt c Lhs Tok Rhs) =
    (isAssignTok Tok ||
     (nonEmpty Lhs && nonEmpty Rhs &&
      (isAndNot Tok || isOk (augmentedOp Tok)))) /\
  (isAssignTok Tok = true ->
   compileAssignStmt c Lhs Tok Rhs =
     Ok (hoistedAll c Lhs ++ hoistedAll c Rhs ++
         [py.Assign (values c Lhs) (makeTuple (values c Rhs))])) /\
  (forall l0 ls r0 rs,
     compileAssignStmt c (l0 :: ls) ast.AND_NOT_ASSIGN (r0 :: rs) =
       Ok (hoisted c l0 ++ hoisted c r0 ++
           [py.AugAssign (value c l0) py.BitAnd
              (py.UnaryOpExpr py.Invert (value c r0))])).
Proof.
  split; [|split].
  - unfold compileAssignStmt.
    destruct (isAssignTok Tok) eqn:Ha.
    + unfold compileExprsTuple. rewrite !compileExprs_eq. reflexivity.
    + destruct (isAndNot Tok) eqn:Hn.
      * destruct Lhs as [|l0 ls]; [reflexivity|]. cbn [index0 bind].
        rewrite compileExpr_eq.
        destruct Rhs as [|r0 rs]; [reflexivity|]. cbn [index0 bind].
        rewrite compileExpr_eq. reflexivity.
      * destruct Lhs as [|l0 ls]; [reflexivity|]. cbn [index0 bind].
        rewrite compileExpr_eq.
        destruct Rhs as [|r0 rs]; [reflexivity|]. cbn [index0 bind].
        rewrite compileExpr_eq.
        destruct (augmentedOp Tok); reflexivity.
  - intros Ha. unfold compileAssignStmt. rewrite Ha.
    unfold compileExprsTuple. rewrite !compileExprs_eq. cbn [stmts].
    unfold newExprCompiler. cbn [stmts app]. rewrite <- app_assoc.
    reflexivity.
  - intros l0 ls r0 rs. unfold compileAssignStmt.
    cbn [isAssignTok isAndNot index0 bind].
    rewrite !compileExpr_eq. cbn [stmts newExprCompiler app].
    rewrite <- app_assoc. reflexivity.
Qed.

Lemma X2_assignment_lowering_witness :
  compileAssignStmt sample.c0 [sample.var "a"; sample.var "b"] ast.DEFINE
    [sample.call "f" []]
  = Ok [py.Assign [py.Name "a"; py.Name "b"] (py.Call (py.Name "f") [])].
Proof.
  exact (proj1 (proj2 (X2_assignment_lowering sample.c0
                         [sample.var "a"; sample.var "b"]
                         [sample.call "f" []] ast.DEFINE)) eq_refl).
Defined.

(** X3: the operator table of compound assignments keeps the operators
    apart: two tokens that lower to the same operator are the same
    token. *)
Theorem X3_augmentedOp_injective (t1 t2 : ast.Token) (op : py.Operator)
    (H1 : augmentedOp t1 = Ok op) (H2 : augmentedOp t2 = Ok op) :
  t1 = t2.
Proof.
  destruct t1; simpl in H1; try discriminate H1;
    injection H1 as <-;
    destruct t2; simpl in H2; try discriminate H2; reflexivity.
Qed.

Lemma X3_augmentedOp_injective_witness : ast.SHL_ASSIGN = ast.SHL_ASSIGN.
Proof.
  exact (X3_augmentedOp_injective ast.SHL_ASSIGN ast.SHL_ASSIGN py.LShift
           eq_refl eq_refl).
Defined.

(** ** Counted loops *)

(** X4: a counted loop whose parts lower becomes the init statements,
    then what the condition hoists, then one [while] loop whose test is
    the lowered condition (the true literal without one) and whose body
    is the lowered body followed by the lowered post statement, or a
    single [pass] when both are empty; the body of the loop is never
    empty. *)
Theorem X4_counted_loop (c : XCompiler) (Init Post : option ast.Stmt)
    (Cond : option ast.Expr) (Body : ast.Stmt) (i b p : list py.Stmt)
    (Hinit : compileOpt (compileStmt c) Init = Ok i)
    (Hbody : compileStmt c Body = Ok b)
    (Hpost : compileOpt (compileStmt c) Post = Ok p) :
  exists body,
    compileForStmt c (compileStmt c) Init Cond Post Body =
      Ok (i ++ hoistedAll c (option_list Cond) ++
          [py.While (loopTest c Cond) body]) /\
    body = match b ++ p with
           | [] => [py.Pass]
           | _ :: _ => b ++ p
           end /\
    body <> [].
Proof.
  exists (match b ++ p with [] => [py.Pass] | _ :: _ => b ++ p end).
  split; [|split; [reflexivity|destruct (b ++ p); discriminate]].
  rewrite <- orPass_cases.
  assert (Hcond : forall body,
            (let '(test, e1) :=
               match Cond with
               | Some cond => compileExpr c newExprCompiler cond
               | None => (pyTrue, newExprCompiler)
               end in
             Ok (i ++ stmts e1 ++ [py.While test (orPass body)]))
            = Ok (i ++ hoistedAll c (option_list Cond) ++
                  [py.While (loopTest c Cond) (orPass body)])).
  { intros body. destruct Cond as [cond|]; cbn [loopTest].
    - rewrite compileExpr_eq. cbn [stmts newExprCompiler app].
      change (option_list (Some cond)) with [cond].
      unfold hoistedAll. cbn [map concat]. rewrite app_nil_r. reflexivity.
    - reflexivity. }
  unfold compileForStmt.
  destruct Post as [post|]; cbn [compileOpt] in Hpost.
  - rewrite Hbody. cbn [bind]. rewrite Hpost. cbn [bind].
    rewrite Hinit. cbn [bind]. apply Hcond.
  - injection Hpost as <-. rewrite Hbody. cbn [bind].
    rewrite Hinit. cbn [bind]. rewrite app_nil_r. apply Hcond.
Qed.

Lemma X4_counted_loop_witness :
  exists body,
    compileForStmt sample.c0 (compileStmt sample.c0) None
      (Some (sample.var "ok")) (Some (ast.BlockStmt []))
      (ast.ExprStmt (sample.call "step" []))
    = Ok ([] ++ [] ++ [py.While (py.Name "ok") body]) /\
    body = [py.ExprStmt (py.Call (py.Name "step") [])] /\
    body <> [].
Proof.
  exact (X4_counted_loop sample.c0 None (Some (ast.BlockStmt []))
           (Some (sample.var "ok")) (ast.ExprStmt (sample.call "step" []))
           [] [py.ExprStmt (py.Call (py.Name "step") [])] []
           eq_refl eq_refl eq_refl).
Defined.

Example counted_loop_without_statements :
  compileForStmt sample.c0 (compileStmt sample.c0) None None None
    (ast.BlockStmt [])
  = Ok [py.While (py.NameConstant py.True_) [py.Pass]].
Proof. reflexivity. Qed.

(** ** Functions *)

(** X5: where the defer emulation does not apply (the flag [global] of
    the parent is clear, or the body holds no defer statement) a
    function whose body lowers becomes a definition with the receiver
    and the parameters in order, no defaults, and the lowered body
    unwrapped, or a single [pass] when that is empty; the body is lowered
    in the nested context of the parent as it is. *)
Theorem X5_function_without_defers (parent : XCompiler)
    (name : py.Identifier) (typ : ast.FuncType) (body : list ast.Stmt)
    (isMethod : bool) (recv : option ast.Ident) (pyBody : list py.Stmt)
    (Hbody : funcBody (nestedCompiler parent) body = Ok pyBody)
    (Hplain : global parent && containsDefer (ast.BlockStmt body) = false) :
  CompileFunc parent name typ body isMethod recv =
    Ok {| py.fName := name;
          py.fArgs := {| py.Args_ := funcArgs (nestedCompiler parent) typ
                                       isMethod recv;
                         py.Defaults := [] |};
          py.fBody := orPass pyBody |} /\
  orPass pyBody <> [].
Proof.
  split.
  - unfold CompileFunc, addDefers.
    change (global (nestedCompiler parent)) with (global parent).
    destruct (global parent) eqn:Hg; cbn [negb andb] in Hplain |- *.
    + rewrite Hplain. rewrite Hbody. cbn [bind isNilStmt negb andb].
      destruct isMethod; reflexivity.
    + rewrite Hbody. cbn [bind andb]. destruct isMethod; reflexivity.
  - unfold orPass. destruct pyBody; discriminate.
Qed.

Lemma X5_function_without_defers_witness :
  CompileFunc sample.c0 "get" {| ast.Params := [[sample.ident "k"]] |}
    [] true (Some (sample.ident "t"))
  = Ok {| py.fName := "get";
          py.fArgs := {| py.Args_ := ["t"; "k"]; py.Defaults := [] |};
          py.fBody := [py.Pass] |}.
Proof.
  exact (proj1 (X5_function_without_defers sample.c0 "get"
                  {| ast.Params := [[sample.ident "k"]] |} [] true
                  (Some (sample.ident "t")) [] eq_refl eq_refl)).
Defined.

(** ** Struct types *)

Lemma fieldDefaults_spec (c : XCompiler)
    (fields : list (types.Object * types.Type_)) :
  (fieldsHaveZero fields = true ->
   exists ds, fieldDefaults c fields = Ok ds /\
              Forall2 (fun d f => zeroValue c (snd f) = Ok d) ds fields) /\
  isOk (fieldDefaults c fields) = fieldsHaveZero fields.
Proof.
  induction fields as [|[o t] rest [IH1 IH2]].
  - split; [|reflexivity]. intros _. exists []. split; [reflexivity|constructor].
  - cbn [fieldDefaults fieldsHaveZero forallb snd].
    pose proof (zeroValue_isOk c t) as Hz.
    destruct (zeroValue c t) as [z|m] eqn:Hzv; cbn [isOk] in Hz;
      rewrite <- Hz; cbn [bind andb].
    + split.
      * intros Hrest. destruct (IH1 Hrest) as [ds [Hds Hall]].
        exists (z :: ds). rewrite Hds. split; [reflexivity|].
        constructor; [exact Hzv|exact Hall].
      * fold (fieldsHaveZero rest). rewrite <- IH2.
        destruct (fieldDefaults c rest); reflexivity.
    + split; [discriminate|reflexivity].
Qed.

(** X6: the constructor synthesized for a struct whose fields all have a
    zero value takes [self] and then one parameter per field, in
    declaration order, has exactly one default per field (the zero value
    of the field's type), and assigns each parameter to the attribute of
    the same name, in the same order. *)
Theorem X6_init_method_shape (c : XCompiler)
    (fields : list (types.Object * types.Type_))
    (Hzero : fieldsHaveZero fields = true) :
  exists defaults,
    makeInitMethod c fields =
      Ok (py.FunctionDefStmt "__init__"
            {| py.Args_ :=
                 pySelf :: map (fun f => objID (nestedCompiler c) (fst f))
                               fields;
               py.Defaults := defaults |}
            (map (fun f =>
                    py.Assign
                      [py.Attribute (py.Name pySelf)
                         (objID (nestedCompiler c) (fst f))]
                      (py.Name (objID (nestedCompiler c) (fst f))))
                 fields)) /\
    Forall2 (fun d f => zeroValue c (snd f) = Ok d) defaults fields /\
    length defaults = length fields.
Proof.
  destruct (proj1 (fieldDefaults_spec (nestedCompiler c) fields) Hzero)
    as [ds [Hds Hall]].
  exists ds. unfold makeInitMethod. rewrite Hds. cbn [bind].
  split; [reflexivity|]. split.
  - eapply Forall2_impl; [exact Hall|].
    intros d f Hd. cbn beta in Hd.
    rewrite (zeroValue_pure c (nestedCompiler c)). exact Hd.
  - eapply Forall2_length; exact Hall.
Qed.

Lemma X6_init_method_shape_witness :
  exists defaults,
    makeInitMethod sample.c0
      [({| types.objPos := 1; types.objName := "n" |},
        types.Basic types.Int);
       ({| types.objPos := 2; types.objName := "s" |},
        types.Basic types.String)]
    = Ok (py.FunctionDefStmt "__init__"
            {| py.Args_ := ["self"; "n"; "s"]; py.Defaults := defaults |}
            [py.Assign [py.Attribute (py.Name "self") "n"] (py.Name "n");
             py.Assign [py.Attribute (py.Name "self") "s"] (py.Name "s")]) /\
    length defaults = 2.
Proof.
  destruct (X6_init_method_shape sample.c0
              [({| types.objPos := 1; types.objName := "n" |},
                types.Basic types.Int);
               ({| types.objPos := 2; types.objName := "s" |},
                types.Basic types.String)] eq_refl)
    as [ds (Hrun & _ & Hlen)].
  exists ds. split; [exact Hrun|exact Hlen].
Defined.

Lemma compileStructType_is_class (c : XCompiler) (ident : ast.Ident)
    (fields : list (types.Object * types.Type_)) (s : py.Stmt) :
  compileStructType c ident fields = Ok s ->
  exists body, s = py.ClassDefStmt (identifier c ident) body /\ body <> [].
Proof.
  intros Hs. unfold compileStructType in Hs.
  destruct (global c).
  - destruct (Nat.ltb 0 (length fields)).
    + destruct (makeInitMethod c fields) as [init|m]; [|discriminate Hs].
      cbn [bind] in Hs. injection Hs as <-. eexists. split; [reflexivity|].
      destruct (match commentMap c with
                | Some cmap =>
                    match identComments cmap ident with
                    | d :: _ => [makeDocString d]
                    | [] => []
                    end
                | None => []
                end ++ [init]) eqn:Hb; [|discriminate].
      apply app_eq_nil in Hb as [_ Hb]. discriminate Hb.
    + cbn [bind] in Hs. injection Hs as <-. eexists. split; [reflexivity|].
      destruct (match commentMap c with
                | Some cmap =>
                    match identComments cmap ident with
                    | d :: _ => [makeDocString d]
                    | [] => []
                    end
                | None => []
                end); discriminate.
  - cbn [bind] in Hs. injection Hs as <-. eexists. split; [reflexivity|].
    discriminate.
Qed.

(** X7: the lowering of a struct type aborts exactly when the flag
    [global] is set and some field has no zero value; with the flag
    clear the class is a single [pass] whatever the fields and the
    comments are; and the body of the class is never empty. *)
Theorem X7_struct_lowering (c : XCompiler) (ident : ast.Ident)
    (fields : list (types.Object * types.Type_)) :
  isOk (compileStructType c ident fields) =
    (negb (global c) || fieldsHaveZero fields) /\
  (global c = false ->
   compileStructType c ident fields =
     Ok (py.ClassDefStmt (identifier c ident) [py.Pass])) /\
  (forall s, compileStructType c ident fields = Ok s ->
     exists body, s = py.ClassDefStmt (identifier c ident) body /\
                  body <> []).
Proof.
  assert (Hinit : isOk (makeInitMethod c fields) = fieldsHaveZero fields).
  { unfold makeInitMethod.
    rewrite <- (proj2 (fieldDefaults_spec (nestedCompiler c) fields)).
    destruct (fieldDefaults (nestedCompiler c) fields); reflexivity. }
  split; [|split].
  - unfold compileStructType. destruct (global c); cbn [negb orb].
    + destruct fields as [|f rest]; [reflexivity|].
      cbn [length Nat.ltb Nat.leb]. rewrite <- Hinit.
      destruct (makeInitMethod c (f :: rest)); reflexivity.
    + reflexivity.
  - intros Hg. unfold compileStructType. rewrite Hg. reflexivity.
  - intros s. apply compileStructType_is_class.
Qed.

Lemma X7_struct_lowering_witness :
  compileStructType (sample.compilerWith false) (sample.ident "T")
    [({| types.objPos := 1; types.objName := "p" |},
      types.Basic types.UnsafePointer)]
  = Ok (py.ClassDefStmt "T" [py.Pass]).
Proof.
  exact (proj1 (proj2 (X7_struct_lowering (sample.compilerWith false)
                         (sample.ident "T")
                         [({| types.objPos := 1; types.objName := "p" |},
                           types.Basic types.UnsafePointer)])) eq_refl).
Defined.

(** ** Variable and type declarations *)

Lemma zeroValues_isOk (c : XCompiler) (names : list ast.Ident) :
  isOk (zeroValues c names) = namesHaveZero c names.
Proof.
  induction names as [|ident rest IH]; [reflexivity|].
  cbn [zeroValues namesHaveZero forallb].
  rewrite <- (zeroValue_isOk c).
  destruct (zeroValue c (TypeOf (info c) (ast.IdentExpr ident)));
    cbn [bind isOk andb]; [|reflexivity].
  fold (namesHaveZero c rest). rewrite <- IH.
  destruct (zeroValues c rest); reflexivity.
Qed.

(** X8: the lowering of a variable declaration aborts exactly when it
    has no initializer and some declared name has a type without a zero
    value; with an initializer it never aborts, whatever the number of
    names and initializers. *)
Theorem X8_value_spec_aborts (c : XCompiler) (Names : list ast.Ident)
    (Values : list ast.Expr) :
  isOk (CompileValueSpec c Names Values) =
    (nonEmpty Values || namesHaveZero c Names).
Proof.
  unfold CompileValueSpec. destruct Values as [|x rest].
  - rewrite valueSpecLoop_zero. cbn [nonEmpty orb].
    rewrite <- zeroValues_isOk.
    destruct (zeroValues c Names); reflexivity.
  - rewrite valueSpecLoop_init by discriminate. reflexivity.
Qed.

(** X9: what a type specification lowers to is decided by the category
    of its resolved type: a struct, basic or slice type gives a class
    named after the declared name; a named type gives the binding of the
    declared name to the name of that type; an interface, function or
    map type gives the nil statement; any other category aborts. *)
Theorem X9_type_spec_kinds (c : XCompiler) (Name : ast.Ident)
    (Type_ : ast.Expr) (s : py.Stmt)
    (Hlowered : CompileTypeSpec c Name Type_ = Ok s) :
  match typeSpecKind (TypeOf (info c) Type_) with
  | AsClass =>
      exists body, s = py.ClassDefStmt (identifier c Name) body /\ body <> []
  | AsBinding =>
      exists obj, TypeOf (info c) Type_ = types.Named obj /\
                  s = py.Assign [py.Name (identifier c Name)]
                                (py.Name (objID c obj))
  | AsNothing => s = py.NilStmt
  | Unknown => False
  end.
Proof.
  unfold CompileTypeSpec in Hlowered.
  destruct (TypeOf (info c) Type_) eqn:Hty; cbn [typeSpecKind];
    try discriminate Hlowered;
    try (injection Hlowered as <-; reflexivity);
    try (apply (compileStructType_is_class c Name _ s Hlowered)).
  injection Hlowered as <-. eexists. split; reflexivity.
Qed.

Lemma X9_type_spec_kinds_witness :
  exists obj,
    TypeOf (info sample.c0) (sample.var "Alias") = types.Named obj /\
    py.Assign [py.Name "A"] (py.Name "T")
    = py.Assign [py.Name (identifier sample.c0 (sample.ident "A"))]
                (py.Name (objID sample.c0 obj)).
Proof.
  exact (X9_type_spec_kinds sample.c0 (sample.ident "A")
           (sample.var "Alias") (py.Assign [py.Name "A"] (py.Name "T"))
           eq_refl).
Defined.

(** ** Methods without a class *)

(** X10: methods are emitted only inside a class of the intermediate
    module: what is registered under a name that no class of the module
    bears does not reach the output module. *)
Theorem X10_methods_without_class_are_dropped (m : assembler.Module)
    (k : py.Identifier) (v : list py.FunctionDef)
    (Hnoclass : forallb (fun class => negb (String.eqb (py.cName class) k))
                        (assembler.Classes m) = true) :
  assembler.assemble (setMethods m (<[k := v]> (assembler.Methods m)))
  = assembler.assemble m.
Proof.
  unfold assembler.assemble.
  cbn [setMethods assembler.Values assembler.Classes assembler.Functions].
  f_equal. f_equal. f_equal.
  rewrite forallb_forall in Hnoclass.
  apply map_ext_in. intros class Hin.
  unfold py.classStmt, assembler.withMethods.
  cbn [py.cName py.cBody setMethods assembler.Methods].
  pose proof (Hnoclass class Hin) as Hne.
  unfold assembler.methodsOf.
  rewrite lookup_insert_ne; [reflexivity|].
  intros Heq. rewrite <- Heq, String.eqb_refl in Hne. discriminate Hne.
Qed.

Lemma X10_methods_without_class_are_dropped_witness :
  assembler.assemble
    (setMethods assembler.newModule
       (<["M" := [{| py.fName := "get";
                     py.fArgs := {| py.Args_ := ["m"]; py.Defaults := [] |};
                     py.fBody := [py.Pass] |}]]>
          (assembler.Methods assembler.newModule)))
  = assembler.assemble assembler.newModule.
Proof.
  exact (X10_methods_without_class_are_dropped assembler.newModule "M"
           [{| py.fName := "get";
               py.fArgs := {| py.Args_ := ["m"]; py.Defaults := [] |};
               py.fBody := [py.Pass] |}] eq_refl).
Defined.

(** ** The two lowerings of a declaration *)

(** X11: for specifications without an import, the declaration-level
    lowering [CompileGenDecl] and the statement-level lowering
    [compileDeclStmt] return the same statements or abort alike. *)
Theorem X11_declaration_and_statement_agree (c : XCompiler)
    (specs : list ast.Spec)
    (Hnoimport : existsb isImportSpec specs = false) :
  CompileGenDecl c specs = compileDeclStmt c specs.
Proof.
  induction specs as [|spec rest IH]; [reflexivity|].
  cbn [existsb] in Hnoimport. apply orb_false_iff in Hnoimport as [Hs Hrest].
  destruct spec; try discriminate Hs;
    cbn [CompileGenDecl compileDeclStmt]; rewrite (IH Hrest); reflexivity.
Qed.

Lemma X11_declaration_and_statement_agree_witness :
  CompileGenDecl sample.c0
    [ast.ValueSpec [sample.ident "a"; sample.ident "b"] []]
  = compileDeclStmt sample.c0
      [ast.ValueSpec [sample.ident "a"; sample.ident "b"] []].
Proof.
  exact (X11_declaration_and_statement_agree sample.c0
           [ast.ValueSpec [sample.ident "a"; sample.ident "b"] []] eq_refl).
Defined.

(** X12: the module assembler and the declaration-level lowering abort
    on the same specifications, whatever the intermediate module holds;
    an import specification makes neither abort, while it makes the
    statement-level lowering abort when everything before it lowers. *)
Theorem X12_assembler_aborts_like_core (c : XCompiler)
    (specs : list ast.Spec) (m : assembler.Module) :
  isOk (assembler.compileGenDecl c specs m) = isOk (CompileGenDecl c specs) /\
  (isOk (CompileGenDecl c specs) = true ->
   isOk (compileDeclStmt c specs) = negb (existsb isImportSpec specs)).
Proof.
  split.
  - revert m. induction specs as [|spec rest IH]; intros m; [reflexivity|].
    destruct spec as [Names Values_|Name Type_|];
      cbn [assembler.compileGenDecl CompileGenDecl].
    + destruct (CompileValueSpec c Names Values_); cbn [bind];
        [|reflexivity].
      rewrite IH. destruct (CompileGenDecl c rest); reflexivity.
    + destruct (CompileTypeSpec c Name Type_); cbn [bind]; [|reflexivity].
      rewrite IH. destruct (CompileGenDecl c rest); reflexivity.
    + cbn [bind]. rewrite IH. destruct (CompileGenDecl c rest); reflexivity.
  - induction specs as [|spec rest IH]; intros Hok; [reflexivity|].
    destruct spec as [Names Values_|Name Type_|];
      cbn [CompileGenDecl compileDeclStmt existsb isImportSpec orb negb]
        in Hok |- *.
    + destruct (CompileValueSpec c Names Values_); cbn [bind] in Hok |- *;
        [|discriminate Hok].
      destruct (CompileGenDecl c rest); [|discriminate Hok].
      rewrite <- (IH eq_refl).
      destruct (compileDeclStmt c rest); reflexivity.
    + destruct (CompileTypeSpec c Name Type_); cbn [bind] in Hok |- *;
        [|discriminate Hok].
      destruct (CompileGenDecl c rest); [|discriminate Hok].
      rewrite <- (IH eq_refl).
      destruct (compileDeclStmt c rest); reflexivity.
    + reflexivity.
Qed.

(** ** Receivers and doc comments *)

(** X13: a method is registered under the identifier of its receiver
    type whether the receiver is a pointer or a value; a receiver list
    with more than one field, or a field with more than one name, aborts
    with "multiple receivers", and an empty receiver list aborts; a
    function without receiver has the empty class name. *)
Theorem X13_receivers (c : XCompiler) (decl : ast.FuncDecl)
    (withDoc : bool) :
  (forall names id,
     CompileFuncDecl c
       (withRecv decl (Some [(names, ast.StarExpr (ast.IdentExpr id))]))
       withDoc
     = CompileFuncDecl c
         (withRecv decl (Some [(names, ast.IdentExpr id)])) withDoc) /\
  (forall f1 f2 fields,
     CompileFuncDecl c (withRecv decl (Some (f1 :: f2 :: fields))) withDoc
     = Panic "multiple receivers") /\
  (forall n1 n2 names ty,
     CompileFuncDecl c (withRecv decl (Some [(n1 :: n2 :: names, ty)]))
       withDoc
     = Panic "multiple receivers") /\
  isOk (CompileFuncDecl c (withRecv decl (Some [])) withDoc) = false /\
  (forall fd,
     CompileFuncDecl c (withRecv decl None) withDoc = Ok fd ->
     Class fd = EmptyString) /\
  (forall names id fd,
     CompileFuncDecl c (withRecv decl (Some [(names, ast.IdentExpr id)]))
       withDoc = Ok fd ->
     Class fd = identifier c id).
Proof.
  repeat match goal with |- _ /\ _ => split end.
  - intros names id. reflexivity.
  - intros f1 f2 fields. reflexivity.
  - intros n1 n2 names ty. reflexivity.
  - reflexivity.
  - intros fd Hfd. unfold CompileFuncDecl in Hfd.
    cbn [withRecv ast.Recv bind] in Hfd.
    destruct (CompileFunc _ _ _ _ _ _); [|discriminate Hfd].
    cbn [bind] in Hfd. injection Hfd as <-. reflexivity.
  - intros names id fd Hfd. unfold CompileFuncDecl in Hfd.
    cbn [withRecv ast.Recv] in Hfd.
    destruct names as [|n1 [|n2 rest]];
      cbn [length Nat.ltb Nat.leb index0 bind fst snd fieldType] in Hfd;
      try discriminate Hfd;
      (destruct (CompileFunc _ _ _ _ _ _); [|discriminate Hfd];
       cbn [bind] in Hfd; injection Hfd as <-; reflexivity).
Qed.

(** X14: the doc string is put in front of the finished function body:
    lowering with the doc switch set equals lowering with it clear
    followed by putting the doc string first, and a declaration without
    doc comment lowers alike under both. *)
Theorem X14_doc_string_first (c : XCompiler) (decl : ast.FuncDecl) :
  CompileFuncDecl c decl true =
    match ast.Doc decl with
    | Some doc => mapResult (prependDoc doc) (CompileFuncDecl c decl false)
    | None => CompileFuncDecl c decl false
    end.
Proof.
  unfold CompileFuncDecl.
  match goal with
  | |- bind ?r _ = _ => destruct r as [[recvType recv]|m]
  end; cbn [bind].
  - match goal with
    | |- context [CompileFunc ?a ?b ?t ?d ?e ?f] =>
        destruct (CompileFunc a b t d e f) as [funcDef|m]
    end; cbn [bind].
    + destruct (ast.Doc decl); [|reflexivity]. destruct funcDef; reflexivity.
    + destruct (ast.Doc decl); reflexivity.
  - destruct (ast.Doc decl); reflexivity.
Qed.

(** ** Type switches *)

Lemma typeSwitchLoop_app (c : XCompiler)
    (rec : ast.Stmt -> result (list py.Stmt)) (tag : py.Expr)
    (sym : string) (l1 l2 : list ast.Stmt) :
  forall st,
    typeSwitchLoop c rec tag sym (l1 ++ l2) st =
    bind (typeSwitchLoop c rec tag sym l1 st)
         (typeSwitchLoop c rec tag sym l2).
Proof.
  induction l1 as [|cl rest IH]; intros st; [reflexivity|].
  destruct cl; try reflexivity. simpl.
  destruct (compileCaseClauseTest c (swExpr st) List_ tag) as [test e1].
  destruct (compileStmts rec Body) as [b|m]; simpl; [|reflexivity].
  destruct (isNil test); apply IH.
Qed.

Lemma caseClauseTest_typeTest (c : XCompiler) (e : exprCompiler)
    (tag : py.Expr) (Htag : isNil tag = false) (x : ast.Expr)
    (xs : list ast.Expr) :
  compileCaseClauseTest c e (x :: xs) tag =
    (typeTest c tag (x :: xs),
     {| stmts := stmts e ++ hoistedAll c (x :: xs) |}) /\
  isNil (typeTest c tag (x :: xs)) = false.
Proof.
  unfold compileCaseClauseTest. rewrite caseTests_eq, Htag.
  destruct xs as [|y ys]; split; reflexivity.
Qed.

Lemma conditionalChain_linkChain (chain : list (py.Expr * list py.Stmt))
    (final : list py.Stmt) :
  linkChain chain final = conditionalChain chain final.
Proof.
  induction chain as [|[test body] rest IH]; [reflexivity|].
  cbn [linkChain conditionalChain fold_right fst snd].
  rewrite IH. reflexivity.
Qed.

Lemma typeNodes_app (c : XCompiler) (tag : py.Expr) (sym : string)
    (l1 l2 : list ast.Stmt) (b1 b2 : list (list py.Stmt)) :
  length l1 = length b1 ->
  typeNodes c tag sym (l1 ++ l2) (b1 ++ b2)
  = typeNodes c tag sym l1 b1 ++ typeNodes c tag sym l2 b2.
Proof.
  intros Hlen. unfold typeNodes. rewrite <- map_app. f_equal.
  revert b1 Hlen.
  induction l1 as [|cl rest IH]; intros [|b bs] Hlen;
    try discriminate Hlen; [reflexivity|].
  cbn [app combine]. rewrite IH; [reflexivity|].
  injection Hlen as Hlen. exact Hlen.
Qed.

Lemma typeSwitchLoop_nondefault (c : XCompiler) (tag : py.Expr)
    (Htag : isNil tag = false) (sym : string) (l : list ast.Stmt) :
  Forall (clauseLowers c) l ->
  exists bodies,
    Forall2 (fun cl body =>
               compileStmts (compileStmt c) (clauseBody cl) = Ok body)
            l bodies /\
    forall e chain0 d0,
      typeSwitchLoop c (compileStmt c) tag sym l
        {| ifChain := chain0; defaultBody := d0; swExpr := e |}
      = Ok {| ifChain := chain0 ++ typeNodes c tag sym l bodies;
              defaultBody := d0;
              swExpr := {| stmts := stmts e ++
                             hoistedAll c (concat (map clauseExprs l)) |} |}.
Proof.
  induction 1 as [|cl rest [Hnd Hbody] _ IH].
  - exists []. split; [constructor|]. intros e chain0 d0. simpl.
    unfold hoistedAll. simpl. rewrite !app_nil_r. destruct e; reflexivity.
  - destruct cl; try discriminate Hnd.
    destruct List_ as [|x xs]; [discriminate Hnd|].
    simpl in Hbody.
    destruct (compileStmts (compileStmt c) Body) as [b|m] eqn:Hb;
      [|discriminate Hbody].
    destruct IH as [bodies [Hbodies Hrun]].
    exists (b :: bodies). split.
    + constructor; [exact Hb|exact Hbodies].
    + intros e chain0 d0.
      destruct (caseClauseTest_typeTest c e tag Htag x xs)
        as [Htest Hnil].
      cbn [typeSwitchLoop swExpr ifChain defaultBody].
      rewrite Htest, Hb. cbn [bind]. rewrite Hnil.
      fold (bindingPrefix c tag sym Case). rewrite Hrun.
      unfold typeNodes.
      cbn [stmts map concat combine clauseExprs clausePos fst snd].
      rewrite hoistedAll_app, <- !app_assoc. reflexivity.
Qed.

Lemma guardParts_some (c : XCompiler) (Assign : ast.Stmt) (tag : py.Expr)
    (sym : string) (x : ast.Expr) :
  guardParts c Assign = Some (tag, sym, x) ->
  isNil tag = false /\
  forall Init Body,
    compileTypeSwitchStmt c (compileStmt c) Init Assign Body =
      bind (compileOpt (compileStmt c) Init)
        (fun stmts0 =>
           bind (typeSwitchLoop c (compileStmt c) tag sym Body
                   {| ifChain := []; defaultBody := [];
                      swExpr := {| stmts := hoisted c x |} |})
             (fun st =>
                Ok (finishSwitch
                      (stmts0 ++ [py.Assign [tag] (py.Call pyType [value c x])])
                      st))).
Proof.
  intros Hg. unfold guardParts in Hg.
  destruct Assign; try discriminate Hg.
  - destruct Lhs as [|[id| | | |] ?]; try discriminate Hg.
    destruct Rhs as [|[| | |y|] ?]; try discriminate Hg.
    injection Hg as <- <- <-. split; [reflexivity|].
    intros Init Body. unfold compileTypeSwitchStmt.
    destruct (compileOpt (compileStmt c) Init); [|reflexivity].
    cbn [bind index0]. rewrite compileExpr_eq. reflexivity.
  - destruct X as [| | |y|]; try discriminate Hg.
    injection Hg as <- <- <-. split; [reflexivity|].
    intros Init Body. unfold compileTypeSwitchStmt.
    destruct (compileOpt (compileStmt c) Init); [|reflexivity].
    cbn [bind]. rewrite compileExpr_eq. reflexivity.
Qed.

(** X15: a type switch is chained like a value switch. After the init
    statements come the assignment of the runtime type of the probed
    expression to the tag temporary, the hoisted statements, and the
    conditionals of the clauses with case types, nested through their
    [else] positions in source order, the last one holding the body of
    the default clause wherever that clause stands. The test of each
    conditional compares the tag with the case type (a disjunction over
    several types). When the switch binds a variable, every clause body,
    the default one included, starts with the assignment of the clause's
    own variable from the tag. *)
Theorem X15_type_switch (c : XCompiler) (Init : option ast.Stmt)
    (Assign : ast.Stmt) (pre post : list ast.Stmt) (dpos : ast.Pos)
    (dbody : list ast.Stmt) (i dflt : list py.Stmt)
    (tag : py.Expr) (sym : string) (x : ast.Expr)
    (Hguard : guardParts c Assign = Some (tag, sym, x))
    (Hclauses : Forall (clauseLowers c) (pre ++ post))
    (Hinit : compileOpt (compileStmt c) Init = Ok i)
    (Hdefault : compileStmts (compileStmt c) dbody = Ok dflt) :
  exists bodies,
    Forall2 (fun cl body =>
               compileStmts (compileStmt c) (clauseBody cl) = Ok body)
            (pre ++ post) bodies /\
    compileTypeSwitchStmt c (compileStmt c) Init Assign
      (pre ++ ast.CaseClause dpos [] dbody :: post)
    = Ok (i ++ [py.Assign [tag] (py.Call pyType [value c x])] ++
          hoisted c x ++
          hoistedAll c (concat (map clauseExprs (pre ++ post))) ++
          conditionalChain (typeNodes c tag sym (pre ++ post) bodies)
            (bindingPrefix c tag sym dpos ++ dflt)).
Proof.
  destruct (guardParts_some c Assign tag sym x Hguard) as [Htag Hrun].
  apply Forall_app in Hclauses as [Hpre Hpost].
  destruct (typeSwitchLoop_nondefault c tag Htag sym pre Hpre)
    as [bodies1 [H1 Hrun1]].
  destruct (typeSwitchLoop_nondefault c tag Htag sym post Hpost)
    as [bodies2 [H2 Hrun2]].
  exists (bodies1 ++ bodies2).
  split; [apply Forall2_app; assumption|].
  rewrite Hrun, Hinit. cbn [bind].
  rewrite typeSwitchLoop_app, Hrun1. cbn [bind stmts].
  cbn [typeSwitchLoop swExpr ifChain defaultBody].
  rewrite caseClauseTest_default, Hdefault. cbn [bind isNil].
  fold (bindingPrefix c tag sym dpos). rewrite Hrun2. cbn [bind stmts].
  rewrite finishSwitch_eq. cbn [swExpr stmts ifChain defaultBody app].
  rewrite conditionalChain_linkChain.
  rewrite (typeNodes_app c tag sym pre post bodies1 bodies2
             (Forall2_length _ _ _ H1)).
  rewrite map_app, concat_app, hoistedAll_app, <- !app_assoc.
  reflexivity.
Qed.

Lemma X15_type_switch_witness :
  compileTypeSwitchStmt sample.c0 (compileStmt sample.c0) None
    (ast.AssignStmt [sample.var "v"] ast.DEFINE
       [ast.TypeAssertExpr (sample.var "x")])
    [ast.CaseClause 7 [] sample.defaultBodyC; sample.caseCond1]
  = Ok [py.Assign [py.Name "v"] (py.Call (py.Name "type") [py.Name "x"]);
        py.If (py.Compare (py.Name "v") [py.Eq] [py.Name "cond1"])
          [py.Assign [py.Name "v"] (py.Name "v");
           py.ExprStmt (py.Call (py.Name "A") [])]
          [py.Assign [py.Name "v"] (py.Name "v");
           py.ExprStmt (py.Call (py.Name "C") [])]].
Proof.
  destruct (X15_type_switch sample.c0 None
              (ast.AssignStmt [sample.var "v"] ast.DEFINE
                 [ast.TypeAssertExpr (sample.var "x")])
              [] [sample.caseCond1] 7 sample.defaultBodyC
              [] [py.ExprStmt (py.Call (py.Name "C") [])]
              (py.Name "v") "v" (sample.var "x") eq_refl)
    as [bodies (Hbodies & Hrun)].
  - constructor; [split; reflexivity|constructor].
  - reflexivity.
  - reflexivity.
  - inversion Hbodies as [|cl body rest bs Hb Hrest]; subst.
    inversion Hrest; subst.
    injection Hb as <-. exact Hrun.
Defined.

(** X16: a type switch whose guard is neither [v := x.(type)] with an
    identifier on the left nor [x.(type)] aborts once its init statement
    has lowered. *)
Theorem X16_type_switch_guard (c : XCompiler) (Init : option ast.Stmt)
    (Assign : ast.Stmt) (Body : list ast.Stmt)
    (Hguard : guardParts c Assign = None) :
  isOk (compileTypeSwitchStmt c (compileStmt c) Init Assign Body) = false.
Proof.
  unfold compileTypeSwitchStmt.
  destruct (compileOpt (compileStmt c) Init) as [i|m]; [|reflexivity].
  cbn [bind]. unfold guardParts in Hguard.
  destruct Assign; try reflexivity.
  - destruct Lhs as [|[id| | | |] ?]; try reflexivity.
    destruct Rhs as [|[| | |y|] ?]; try reflexivity; discriminate Hguard.
  - destruct X as [| | |y|]; try reflexivity; discriminate Hguard.
Qed.

Lemma X16_type_switch_guard_witness :
  isOk (compileTypeSwitchStmt sample.c0 (compileStmt sample.c0) None
          (ast.ExprStmt (sample.var "x")) []) = false.
Proof.
  exact (X16_type_switch_guard sample.c0 None
           (ast.ExprStmt (sample.var "x")) [] eq_refl).
Defined.

(** ** What the lowering of a statement reads of its context *)

Lemma Stmt_nested_ind (P : ast.Stmt -> Prop)
    (HReturn : forall r, P (ast.ReturnStmt r))
    (HFor : forall i cnd p b,
        OptForall P i -> OptForall P p -> P b -> P (ast.ForStmt i cnd p b))
    (HBlock : forall l, Forall P l -> P (ast.BlockStmt l))
    (HAssign : forall l t r, P (ast.AssignStmt l t r))
    (HExpr : forall x, P (ast.ExprStmt x))
    (HRange : forall k v x b, P b -> P (ast.RangeStmt k v x b))
    (HIf : forall i cnd b e,
        OptForall P i -> P b -> OptForall P e -> P (ast.IfStmt i cnd b e))
    (HIncDec : forall x t, P (ast.IncDecStmt x t))
    (HDecl : forall specs, P (ast.DeclStmt specs))
    (HSwitch : forall i t b,
        OptForall P i -> Forall P b -> P (ast.SwitchStmt i t b))
    (HTypeSwitch : forall i a b,
        OptForall P i -> P a -> Forall P b -> P (ast.TypeSwitchStmt i a b))
    (HBranch : forall t, P (ast.BranchStmt t))
    (HEmpty : P ast.EmptyStmt)
    (HDefer : forall f a, P (ast.DeferStmt f a))
    (HLabeled : forall l s, P s -> P (ast.LabeledStmt l s))
    (HSend : forall ch v, P (ast.SendStmt ch v))
    (HGo : forall x, P (ast.GoStmt x))
    (HCase : forall pos l b, Forall P b -> P (ast.CaseClause pos l b))
    (HSelect : P ast.SelectStmt) :
  forall s, P s.
Proof.
  fix IH 1. intros s.
  assert (Hlist : forall l, Forall P l).
  { intros l. induction l as [|x rest IHl]; constructor;
      [apply IH|exact IHl]. }
  assert (Hopt : forall o, OptForall P o).
  { intros [x|]; [apply IH|exact I]. }
  destruct s.
  - apply HReturn.
  - apply HFor; [apply Hopt|apply Hopt|apply IH].
  - apply HBlock, Hlist.
  - apply HAssign.
  - apply HExpr.
  - apply HRange, IH.
  - apply HIf; [apply Hopt|apply IH|apply Hopt].
  - apply HIncDec.
  - apply HDecl.
  - apply HSwitch; [apply Hopt|apply Hlist].
  - apply HTypeSwitch; [apply Hopt|apply IH|apply Hlist].
  - apply HBranch.
  - apply HEmpty.
  - apply HDefer.
  - apply HLabeled, IH.
  - apply HSend.
  - apply HGo.
  - apply HCase, Hlist.
  - apply HSelect.
Qed.

Lemma compileExpr_agree (c c' : XCompiler) (e : exprCompiler)
    (x : ast.Expr) :
  lowerExpr c = lowerExpr c' -> compileExpr c e x = compileExpr c' e x.
Proof. intros H. unfold compileExpr. rewrite H. reflexivity. Qed.

Lemma compileExprs_agree (c c' : XCompiler) (xs : list ast.Expr) :
  lowerExpr c = lowerExpr c' ->
  forall e, compileExprs c e xs = compileExprs c' e xs.
Proof.
  intros H. induction xs as [|x rest IH]; intros e; [reflexivity|].
  cbn [compileExprs]. rewrite (compileExpr_agree c c' e x H).
  destruct (compileExpr c' e x) as [v e1]. rewrite IH. reflexivity.
Qed.

Lemma caseClauseTest_agree (c c' : XCompiler) (tag : py.Expr)
    (xs : list ast.Expr) :
  lowerExpr c = lowerExpr c' ->
  forall e, compileCaseClauseTest c e xs tag
            = compileCaseClauseTest c' e xs tag.
Proof.
  intros H e. unfold compileCaseClauseTest.
  assert (Ht : forall e0, caseTests c e0 xs tag = caseTests c' e0 xs tag).
  { induction xs as [|x rest IH]; intros e0; [reflexivity|].
    cbn [caseTests]. rewrite (compileExpr_agree c c' e0 x H).
    destruct (compileExpr c' e0 x) as [v e1]. rewrite IH. reflexivity. }
  rewrite Ht. reflexivity.
Qed.

Lemma fieldDefaults_pure (c c' : XCompiler)
    (fields : list (types.Object * types.Type_)) :
  fieldDefaults c fields = fieldDefaults c' fields.
Proof.
  induction fields as [|[o t] rest IH]; [reflexivity|].
  cbn [fieldDefaults]. rewrite (zeroValue_pure c c'), IH. reflexivity.
Qed.

Lemma CompileValueSpec_agree (c c' : XCompiler) (Names : list ast.Ident)
    (Values : list ast.Expr) :
  agree c c' -> CompileValueSpec c Names Values = CompileValueSpec c' Names Values.
Proof.
  intros (Hinfo & _ & Hlower & Hident & _ & _).
  unfold CompileValueSpec.
  assert (Hloop : forall names i e targets values0,
            valueSpecLoop c Values names i e targets values0
            = valueSpecLoop c' Values names i e targets values0).
  { induction names as [|ident rest IH]; intros i e targets values0;
      [reflexivity|].
    cbn [valueSpecLoop]. rewrite Hident, Hinfo, (zeroValue_pure c c').
    destruct (Nat.eqb (length Values) 0).
    - destruct (zeroValue c' (TypeOf (info c') (ast.IdentExpr ident)));
        cbn [bind]; [apply IH|reflexivity].
    - destruct (Nat.ltb i (length Values)); cbn [bind]; [|apply IH].
      destruct (nth_error Values i) as [x|]; cbn [bind]; [|reflexivity].
      rewrite (compileExpr_agree c c' e x Hlower).
      destruct (compileExpr c' e x). cbn [bind]. apply IH. }
  rewrite Hloop. reflexivity.
Qed.

Lemma CompileTypeSpec_agree (c c' : XCompiler) (Name : ast.Ident)
    (Type_ : ast.Expr) :
  agree c c' -> CompileTypeSpec c Name Type_ = CompileTypeSpec c' Name Type_.
Proof.
  intros (Hinfo & Hscope & _ & _ & Hglobal & Hcm).
  assert (Hid : forall id, identifier c id = identifier c' id).
  { intros id. unfold identifier, objID. rewrite Hinfo, Hscope. reflexivity. }
  assert (Hobj : forall o, objID c o = objID c' o).
  { intros o. unfold objID. rewrite Hscope. reflexivity. }
  assert (Hinit : forall fields,
            makeInitMethod c fields = makeInitMethod c' fields).
  { intros fields. unfold makeInitMethod, objID, nestedCompiler.
    cbn [scope_]. rewrite Hscope.
    rewrite (fieldDefaults_pure _
               {| info := info c'; scope_ := nested (scope_ c');
                  lowerExpr := lowerExpr c'; compileIdent := compileIdent c';
                  commentMap := commentMap c'; defers := defers c';
                  global := global c' |}).
    reflexivity. }
  assert (Hstruct : forall fields,
            compileStructType c Name fields = compileStructType c' Name fields).
  { intros fields. unfold compileStructType. rewrite Hid, Hinit.
    destruct (global c) eqn:Hg; rewrite <- Hglobal.
    - rewrite (Hcm eq_refl). reflexivity.
    - reflexivity. }
  unfold CompileTypeSpec. rewrite Hinfo.
  destruct (TypeOf (info c') Type_); try reflexivity; try apply Hstruct.
  rewrite Hid, Hobj. reflexivity.
Qed.

Lemma compileDeclStmt_agree (c c' : XCompiler) (specs : list ast.Spec) :
  agree c c' -> compileDeclStmt c specs = compileDeclStmt c' specs.
Proof.
  intros H. induction specs as [|spec rest IH]; [reflexivity|].
  cbn [compileDeclStmt]. rewrite IH.
  destruct spec as [Names Values|Name Type_|].
  - rewrite (CompileValueSpec_agree c c' Names Values H). reflexivity.
  - rewrite (CompileTypeSpec_agree c c' Name Type_ H). reflexivity.
  - reflexivity.
Qed.

Lemma commentStmts_agree (c c' : XCompiler) (s : ast.Stmt) :
  agree c c' -> commentStmts c s = commentStmts c' s.
Proof.
  intros (_ & _ & _ & _ & Hglobal & Hcm). unfold commentStmts.
  destruct (global c) eqn:Hg; rewrite <- Hglobal; [|reflexivity].
  rewrite (Hcm eq_refl). reflexivity.
Qed.

Lemma compileStmts_ext (rec rec' : ast.Stmt -> result (list py.Stmt))
    (l : list ast.Stmt) :
  Forall (fun s => rec s = rec' s) l ->
  compileStmts rec l = compileStmts rec' l.
Proof.
  induction 1 as [|s rest Hs _ IH]; [reflexivity|].
  cbn [compileStmts]. rewrite Hs, IH. reflexivity.
Qed.

Lemma compileOpt_ext (rec rec' : ast.Stmt -> result (list py.Stmt))
    (o : option ast.Stmt) :
  OptForall (fun s => rec s = rec' s) o -> compileOpt rec o = compileOpt rec' o.
Proof. destruct o; intros H; [exact H|reflexivity]. Qed.

Lemma switchLoop_agree (c c' : XCompiler) (tag : py.Expr)
    (clauses : list ast.Stmt) :
  lowerExpr c = lowerExpr c' ->
  Forall (fun cl =>
            compileStmts (compileStmt c) (clauseBody cl)
            = compileStmts (compileStmt c') (clauseBody cl)) clauses ->
  forall st,
    switchLoop c (compileStmt c) tag clauses st
    = switchLoop c' (compileStmt c') tag clauses st.
Proof.
  intros Hlower. induction 1 as [|cl rest Hcl _ IH]; intros st;
    [reflexivity|].
  destruct cl; try reflexivity. cbn [switchLoop clauseBody] in Hcl |- *.
  rewrite (caseClauseTest_agree c c' tag List_ Hlower), Hcl.
  destruct (compileCaseClauseTest c' (swExpr st) List_ tag) as [test e1].
  destruct (compileStmts (compileStmt c') Body); cbn [bind]; [|reflexivity].
  destruct (isNil test); apply IH.
Qed.

Lemma typeSwitchLoop_agree (c c' : XCompiler) (tag : py.Expr)
    (sym : string) (clauses : list ast.Stmt) :
  agree c c' ->
  Forall (fun cl =>
            compileStmts (compileStmt c) (clauseBody cl)
            = compileStmts (compileStmt c') (clauseBody cl)) clauses ->
  forall st,
    typeSwitchLoop c (compileStmt c) tag sym clauses st
    = typeSwitchLoop c' (compileStmt c') tag sym clauses st.
Proof.
  intros (Hinfo & Hscope & Hlower & _). induction 1 as [|cl rest Hcl _ IH];
    intros st; [reflexivity|].
  destruct cl; try reflexivity. cbn [typeSwitchLoop clauseBody] in Hcl |- *.
  rewrite (caseClauseTest_agree c c' tag List_ Hlower), Hcl.
  unfold objID. rewrite Hinfo, Hscope.
  destruct (compileCaseClauseTest c' (swExpr st) List_ tag) as [test e1].
  destruct (compileStmts (compileStmt c') Body); cbn [bind]; [|reflexivity].
  destruct (isNil test); apply IH.
Qed.

Lemma compileReturnStmt_agree (c c' : XCompiler) (rs : list ast.Expr) :
  lowerExpr c = lowerExpr c' ->
  compileReturnStmt c rs = compileReturnStmt c' rs.
Proof.
  intros H. unfold compileReturnStmt, compileExprsTuple.
  rewrite (compileExprs_agree c c' rs H). reflexivity.
Qed.

Lemma compileAssignStmt_agree (c c' : XCompiler) (Lhs Rhs : list ast.Expr)
    (Tok : ast.Token) :
  lowerExpr c = lowerExpr c' ->
  compileAssignStmt c Lhs Tok Rhs = compileAssignStmt c' Lhs Tok Rhs.
Proof.
  intros H. unfold compileAssignStmt, compileExprsTuple.
  destruct (isAssignTok Tok).
  - rewrite (compileExprs_agree c c' Lhs H).
    destruct (compileExprs c' newExprCompiler Lhs) as [ts e1].
    rewrite (compileExprs_agree c c' Rhs H). reflexivity.
  - destruct (isAndNot Tok);
      (destruct Lhs as [|l0 ls]; [reflexivity|]; cbn [index0 bind];
       rewrite (compileExpr_agree c c' _ l0 H);
       destruct (compileExpr c' newExprCompiler l0) as [t e1];
       destruct Rhs as [|r0 rs]; [reflexivity|]; cbn [index0 bind];
       rewrite (compileExpr_agree c c' _ r0 H); reflexivity).
Qed.

Lemma compileExprStmt_agree (c c' : XCompiler) (X : ast.Expr) :
  lowerExpr c = lowerExpr c' -> compileExprStmt c X = compileExprStmt c' X.
Proof.
  intros H. unfold compileExprStmt.
  assert (Hto : compileExprToStmt c X = compileExprToStmt c' X).
  { unfold compileExprToStmt.
    destruct X as [id|f args|x|x|n]; try reflexivity.
    destruct f as [fid|f' args'|x|x|n]; try reflexivity.
    destruct (String.eqb (ast.Name fid) "delete"); [|reflexivity].
    destruct args as [|a0 rest]; [reflexivity|]. cbn [index0 bind].
    rewrite (compileExpr_agree c c' _ a0 H).
    destruct (compileExpr c' newExprCompiler a0) as [v e1].
    destruct rest as [|a1 rest']; [reflexivity|]. cbn [index1 bind].
    rewrite (compileExpr_agree c c' _ a1 H). reflexivity. }
  rewrite Hto. destruct (compileExprToStmt c' X) as [[l|]|m]; try reflexivity.
  cbn [bind]. rewrite (compileExpr_agree c c' _ X H). reflexivity.
Qed.

Lemma compileIncDecStmt_agree (c c' : XCompiler) (X : ast.Expr)
    (Tok : ast.Token) :
  lowerExpr c = lowerExpr c' ->
  compileIncDecStmt c X Tok = compileIncDecStmt c' X Tok.
Proof.
  intros H. unfold compileIncDecStmt.
  rewrite (compileExpr_agree c c' _ X H). reflexivity.
Qed.

Lemma compileForStmt_ext (c c' : XCompiler)
    (rec rec' : ast.Stmt -> result (list py.Stmt))
    (Init Post : option ast.Stmt) (Cond : option ast.Expr)
    (Body : ast.Stmt) :
  lowerExpr c = lowerExpr c' ->
  OptForall (fun s => rec s = rec' s) Init ->
  OptForall (fun s => rec s = rec' s) Post ->
  rec Body = rec' Body ->
  compileForStmt c rec Init Cond Post Body
  = compileForStmt c' rec' Init Cond Post Body.
Proof.
  intros H Hi Hp Hb. unfold compileForStmt.
  rewrite Hb, (compileOpt_ext rec rec' Init Hi).
  destruct Post as [post|]; [cbn [OptForall] in Hp; rewrite Hp|];
    (destruct Cond as [cond|];
     [rewrite (compileExpr_agree c c' _ cond H)|]; reflexivity).
Qed.

Lemma compileRangeStmt_ext (c c' : XCompiler)
    (rec rec' : ast.Stmt -> result (list py.Stmt))
    (Key Value : option ast.Expr) (X : ast.Expr) (Body : ast.Stmt) :
  lowerExpr c = lowerExpr c' ->
  rec Body = rec' Body ->
  compileRangeStmt c rec Key Value X Body
  = compileRangeStmt c' rec' Key Value X Body.
Proof.
  intros H Hb. unfold compileRangeStmt. rewrite Hb.
  destruct (rec' Body) as [b|m]; [|reflexivity]. cbn [bind].
  unfold compileExpr. rewrite H. reflexivity.
Qed.

Lemma compileIfStmt_ext (c c' : XCompiler)
    (rec rec' : ast.Stmt -> result (list py.Stmt))
    (Init Else : option ast.Stmt) (Cond : ast.Expr) (Body : ast.Stmt) :
  lowerExpr c = lowerExpr c' ->
  OptForall (fun s => rec s = rec' s) Init ->
  rec Body = rec' Body ->
  OptForall (fun s => rec s = rec' s) Else ->
  compileIfStmt c rec Init Cond Body Else
  = compileIfStmt c' rec' Init Cond Body Else.
Proof.
  intros H Hi Hb He. unfold compileIfStmt.
  rewrite Hb, (compileOpt_ext rec rec' Init Hi),
    (compileOpt_ext rec rec' Else He),
    (compileExpr_agree c c' _ Cond H). reflexivity.
Qed.

Lemma compileSwitchStmt_agree (c c' : XCompiler) (Init : option ast.Stmt)
    (Tag : option ast.Expr) (Body : list ast.Stmt) :
  lowerExpr c = lowerExpr c' ->
  OptForall (fun s => compileStmt c s = compileStmt c' s) Init ->
  Forall (fun cl =>
            compileStmts (compileStmt c) (clauseBody cl)
            = compileStmts (compileStmt c') (clauseBody cl)) Body ->
  compileSwitchStmt c (compileStmt c) Init Tag Body
  = compileSwitchStmt c' (compileStmt c') Init Tag Body.
Proof.
  intros H Hi Hb. unfold compileSwitchStmt.
  rewrite (compileOpt_ext _ _ Init Hi).
  destruct (compileOpt (compileStmt c') Init) as [i|m]; [|reflexivity].
  cbn [bind]. destruct Tag as [t|].
  - rewrite (compileExpr_agree c c' _ t H).
    destruct (compileExpr c' newExprCompiler t) as [v e1].
    rewrite (switchLoop_agree c c' _ Body H Hb). reflexivity.
  - rewrite (switchLoop_agree c c' _ Body H Hb). reflexivity.
Qed.

Lemma compileTypeSwitchStmt_agree (c c' : XCompiler)
    (Init : option ast.Stmt) (Assign : ast.Stmt) (Body : list ast.Stmt) :
  agree c c' ->
  OptForall (fun s => compileStmt c s = compileStmt c' s) Init ->
  Forall (fun cl =>
            compileStmts (compileStmt c) (clauseBody cl)
            = compileStmts (compileStmt c') (clauseBody cl)) Body ->
  compileTypeSwitchStmt c (compileStmt c) Init Assign Body
  = compileTypeSwitchStmt c' (compileStmt c') Init Assign Body.
Proof.
  intros Hagree Hi Hb.
  pose proof Hagree as (_ & Hscope & Hlower & _).
  unfold compileTypeSwitchStmt.
  rewrite (compileOpt_ext _ _ Init Hi).
  destruct (compileOpt (compileStmt c') Init) as [i|m]; [|reflexivity].
  cbn [bind]. unfold tempID. rewrite Hscope.
  match goal with
  | |- bind ?r _ = bind ?r _ => destruct r as [[[tag sym] ta]|m]
  end; [|reflexivity].
  cbn [bind]. destruct ta; try reflexivity.
  rewrite (compileExpr_agree c c' _ ta Hlower).
  destruct (compileExpr c' newExprCompiler ta) as [v e1].
  rewrite (typeSwitchLoop_agree c c' tag sym Body Hagree Hb). reflexivity.
Qed.

Lemma forall_defer_free (c : XCompiler) (Q : ast.Stmt -> Prop)
    (l : list ast.Stmt) :
  Forall (fun s => (global c = true -> containsDefer s = false) -> Q s) l ->
  (global c = true -> existsb containsDefer l = false) ->
  Forall Q l.
Proof.
  induction 1 as [|s rest Hs _ IH]; intros Hd; constructor.
  - apply Hs. intros Hg. specialize (Hd Hg). cbn [existsb] in Hd.
    apply orb_false_iff in Hd as [Hd _]. exact Hd.
  - apply IH. intros Hg. specialize (Hd Hg). cbn [existsb] in Hd.
    apply orb_false_iff in Hd as [_ Hd]. exact Hd.
Qed.

Lemma opt_defer_free (c : XCompiler) (Q : ast.Stmt -> Prop)
    (o : option ast.Stmt) :
  OptForall (fun s => (global c = true -> containsDefer s = false) -> Q s)
            o ->
  (global c = true ->
   match o with Some s => containsDefer s | None => false end = false) ->
  OptForall Q o.
Proof. destruct o; intros H Hd; [apply H, Hd|exact I]. Qed.

Lemma compileStmt_agree (c c' : XCompiler) (Hagree : agree c c') :
  forall s,
    (global c = true -> containsDefer s = false) ->
    compileStmt c s = compileStmt c' s /\
    compileStmts (compileStmt c) (clauseBody s)
    = compileStmts (compileStmt c') (clauseBody s).
Proof.
  pose proof Hagree as (_ & _ & Hlower & _ & Hglobal & _).
  assert (Hwrap : forall s r r',
             r = r' ->
             bind r (fun py => Ok (commentStmts c s ++ py))
             = bind r' (fun py => Ok (commentStmts c' s ++ py))).
  { intros s r r' <-. rewrite (commentStmts_agree c c' s Hagree).
    reflexivity. }
  assert (Hfst : forall l,
             Forall (fun s => compileStmt c s = compileStmt c' s /\
                              compileStmts (compileStmt c) (clauseBody s)
                              = compileStmts (compileStmt c') (clauseBody s)) l ->
             Forall (fun s => compileStmt c s = compileStmt c' s) l).
  { intros l Hl. eapply Forall_impl; [exact Hl|]. intros s [Hs _]. exact Hs. }
  assert (Hsnd : forall l,
             Forall (fun s => compileStmt c s = compileStmt c' s /\
                              compileStmts (compileStmt c) (clauseBody s)
                              = compileStmts (compileStmt c') (clauseBody s)) l ->
             Forall (fun s => compileStmts (compileStmt c) (clauseBody s)
                              = compileStmts (compileStmt c') (clauseBody s)) l).
  { intros l Hl. eapply Forall_impl; [exact Hl|]. intros s [_ Hs]. exact Hs. }
  assert (Hofst : forall o,
             OptForall (fun s => compileStmt c s = compileStmt c' s /\
                                 compileStmts (compileStmt c) (clauseBody s)
                                 = compileStmts (compileStmt c') (clauseBody s)) o ->
             OptForall (fun s => compileStmt c s = compileStmt c' s) o).
  { intros [s|] Ho; [exact (proj1 Ho)|exact I]. }
  intros s. induction s using Stmt_nested_ind; intros Hd;
    (split; [|try reflexivity]).
  - (* return *)
    cbn [compileStmt]. apply Hwrap.
    rewrite (compileReturnStmt_agree c c' r Hlower). reflexivity.
  - (* for *)
    cbn [compileStmt]. apply Hwrap. apply compileForStmt_ext.
    + exact Hlower.
    + apply Hofst. apply (opt_defer_free c _ i H). intros Hg.
      specialize (Hd Hg). simpl in Hd.
      apply orb_false_iff in Hd as [Hd _].
      apply orb_false_iff in Hd as [Hd _]. exact Hd.
    + apply Hofst. apply (opt_defer_free c _ p H0). intros Hg.
      specialize (Hd Hg). simpl in Hd.
      apply orb_false_iff in Hd as [Hd _].
      apply orb_false_iff in Hd as [_ Hd]. exact Hd.
    + apply IHs. intros Hg. specialize (Hd Hg). simpl in Hd.
      apply orb_false_iff in Hd as [_ Hd]. exact Hd.
  - (* block *)
    cbn [compileStmt]. apply Hwrap. apply compileStmts_ext, Hfst.
    apply (forall_defer_free c _ l H). exact Hd.
  - (* assignment *)
    cbn [compileStmt]. apply Hwrap. apply compileAssignStmt_agree, Hlower.
  - (* expression *)
    cbn [compileStmt]. apply Hwrap. apply compileExprStmt_agree, Hlower.
  - (* range *)
    cbn [compileStmt]. apply Hwrap. apply compileRangeStmt_ext;
      [exact Hlower|]. apply IHs. exact Hd.
  - (* if *)
    cbn [compileStmt]. apply Hwrap. apply compileIfStmt_ext.
    + exact Hlower.
    + apply Hofst. apply (opt_defer_free c _ i H). intros Hg.
      specialize (Hd Hg). simpl in Hd.
      apply orb_false_iff in Hd as [Hd _].
      apply orb_false_iff in Hd as [Hd _]. exact Hd.
    + apply IHs. intros Hg. specialize (Hd Hg). simpl in Hd.
      apply orb_false_iff in Hd as [Hd _].
      apply orb_false_iff in Hd as [_ Hd]. exact Hd.
    + apply Hofst. apply (opt_defer_free c _ e H0). intros Hg.
      specialize (Hd Hg). simpl in Hd.
      apply orb_false_iff in Hd as [_ Hd]. exact Hd.
  - (* increment, decrement *)
    cbn [compileStmt]. apply Hwrap.
    rewrite (compileIncDecStmt_agree c c' x t Hlower). reflexivity.
  - (* declaration *)
    cbn [compileStmt]. apply Hwrap. apply compileDeclStmt_agree, Hagree.
  - (* switch *)
    cbn [compileStmt]. apply Hwrap. apply compileSwitchStmt_agree.
    + exact Hlower.
    + apply Hofst. apply (opt_defer_free c _ i H). intros Hg.
      specialize (Hd Hg). simpl in Hd.
      apply orb_false_iff in Hd as [Hd _]. exact Hd.
    + apply Hsnd. apply (forall_defer_free c _ b H0). intros Hg.
      specialize (Hd Hg). simpl in Hd.
      apply orb_false_iff in Hd as [_ Hd]. exact Hd.
  - (* type switch *)
    cbn [compileStmt]. apply Hwrap. apply compileTypeSwitchStmt_agree.
    + exact Hagree.
    + apply Hofst. apply (opt_defer_free c _ i H). intros Hg.
      specialize (Hd Hg). simpl in Hd.
      apply orb_false_iff in Hd as [Hd _].
      apply orb_false_iff in Hd as [Hd _]. exact Hd.
    + apply Hsnd. apply (forall_defer_free c _ b H0). intros Hg.
      specialize (Hd Hg). simpl in Hd.
      apply orb_false_iff in Hd as [_ Hd]. exact Hd.
  - (* branch *)
    cbn [compileStmt]. apply Hwrap. reflexivity.
  - (* empty *)
    cbn [compileStmt]. apply Hwrap. reflexivity.
  - (* defer *)
    cbn [compileStmt]. apply Hwrap. unfold compileDeferStmt.
    rewrite <- Hglobal. destruct (global c) eqn:Hg; [|reflexivity].
    specialize (Hd eq_refl). discriminate Hd.
  - (* labeled *)
    cbn [compileStmt]. apply Hwrap. apply IHs. exact Hd.
  - (* send *)
    cbn [compileStmt]. apply Hwrap. reflexivity.
  - (* go *)
    cbn [compileStmt]. apply Hwrap. reflexivity.
  - (* case clause *)
    reflexivity.
  - (* case clause, body *)
    cbn [clauseBody]. apply compileStmts_ext, Hfst.
    apply (forall_defer_free c _ b H). exact Hd.
  - (* select *)
    reflexivity.
Qed.

(** X17: the lowering of a statement that holds no defer statement, at
    any depth, does not read the capture list of its context: it is the
    same whatever the capture list is, and so is the lowering of a list
    of such statements. *)
Theorem X17_defer_free_ignores_capture_list (c : XCompiler) (d : py.Expr)
    (s : ast.Stmt) (Hfree : containsDefer s = false) :
  compileStmt (withDefers c d) s = compileStmt c s /\
  (forall l, existsb containsDefer l = false ->
     compileStmts (compileStmt (withDefers c d)) l
     = compileStmts (compileStmt c) l).
Proof.
  assert (Hagree : agree (withDefers c d) c)
    by (repeat split; reflexivity).
  split.
  - apply (compileStmt_agree _ _ Hagree s). intros _. exact Hfree.
  - intros l Hl. apply compileStmts_ext.
    induction l as [|x rest IH]; constructor.
    + cbn [existsb] in Hl. apply orb_false_iff in Hl as [Hx _].
      apply (compileStmt_agree _ _ Hagree x). intros _. exact Hx.
    + apply IH. cbn [existsb] in Hl.
      apply orb_false_iff in Hl as [_ Hrest]. exact Hrest.
Qed.

Lemma X17_defer_free_ignores_capture_list_witness :
  compileStmt (withDefers sample.c0 (py.Name "defers"))
    (ast.IfStmt None (sample.var "ok")
       (ast.BlockStmt [ast.ReturnStmt [sample.var "x"]]) None)
  = compileStmt sample.c0
      (ast.IfStmt None (sample.var "ok")
         (ast.BlockStmt [ast.ReturnStmt [sample.var "x"]]) None).
Proof.
  exact (proj1 (X17_defer_free_ignores_capture_list sample.c0
                  (py.Name "defers")
                  (ast.IfStmt None (sample.var "ok")
                     (ast.BlockStmt [ast.ReturnStmt [sample.var "x"]]) None)
                  eq_refl)).
Defined.

(** X18: with the flag [global] clear the lowering of any statement,
    defer statements included, reads neither the comment map nor the
    capture list of its context. *)
Theorem X18_flag_clear_ignores_comments_and_defers (c : XCompiler)
    (cm : CommentMap) (d : py.Expr) (s : ast.Stmt)
    (Hclear : global c = false) :
  compileStmt (withCommentMap (withDefers c d) cm) s = compileStmt c s.
Proof.
  assert (Hagree : agree (withCommentMap (withDefers c d) cm) c).
  { repeat split; try reflexivity.
    cbn [global withCommentMap withDefers]. rewrite Hclear. discriminate. }
  apply (compileStmt_agree _ _ Hagree s).
  cbn [global withCommentMap withDefers]. rewrite Hclear. discriminate.
Qed.

Lemma X18_flag_clear_ignores_comments_and_defers_witness :
  compileStmt
    (withCommentMap
       (withDefers (sample.compilerWith false) (py.Name "defers"))
       {| stmtComments := fun _ => ["note"];
          identComments := fun _ => [] |})
    (ast.DeferStmt (sample.var "f") [sample.var "x"])
  = compileStmt (sample.compilerWith false)
      (ast.DeferStmt (sample.var "f") [sample.var "x"]).
Proof.
  exact (X18_flag_clear_ignores_comments_and_defers
           (sample.compilerWith false)
           {| stmtComments := fun _ => ["note"];
              identComments := fun _ => [] |}
           (py.Name "defers")
           (ast.DeferStmt (sample.var "f") [sample.var "x"]) eq_refl).
Defined.

(** ** Further statements on the concrete context *)

Lemma X12_assembler_aborts_like_core_witness :
  isOk (compileDeclStmt sample.c0 [ast.ImportSpec]) = false.
Proof.
  exact (proj2 (X12_assembler_aborts_like_core sample.c0 [ast.ImportSpec]
                  assembler.newModule) eq_refl).
Defined.

Lemma X13_receivers_witness :
  Class {| Class := "T";
           Def := {| py.fName := "get";
                     py.fArgs := {| py.Args_ := ["t"]; py.Defaults := [] |};
                     py.fBody := [py.Pass] |} |}
  = identifier sample.c0 (sample.ident "T").
Proof.
  destruct (X13_receivers sample.c0
              {| ast.Doc := None; ast.Recv := None;
                 ast.FName := sample.ident "get";
                 ast.Type_ := {| ast.Params := [] |};
                 ast.FBody := [] |} true)
    as (_ & _ & _ & _ & _ & Hclass).
  exact (Hclass [sample.ident "t"] (sample.ident "T") _ eq_refl).
Defined.

Example method_on_alias_is_dropped :
  assembler.CompileFiles true sample.c0
    [{| assembler.file :=
          {| ast.Decls :=
               [ast.GenDecl [ast.TypeSpec (sample.ident "A")
                               (sample.var "Alias")];
                ast.FuncDeclD
                  {| ast.Doc := None;
                     ast.Recv := Some [([sample.ident "a"], sample.var "A")];
                     ast.FName := sample.ident "get";
                     ast.Type_ := {| ast.Params := [] |};
                     ast.FBody := [] |}] |};
        assembler.cmap := sample.noComments |}]
  = Ok {| py.Body := [] |}.
Proof. vm_compute. reflexivity. Qed.
